(** * sync-my-exts: the GitHub-backed synchronisation protocol

    A shallow embedding of [extensionSync.ts] and [githubAuth.ts], and of
    the tree and the commands of [extension.ts].

    Conventions.
    - A JavaScript string is a [string]: the sequence of bytes of its UTF-8
      encoding, one [ascii] per byte.  Every string the two classes handle
      is well-formed text (it comes from a prompt, from the configuration,
      from [fs.readFileSync(_, 'utf-8')] or from [JSON.stringify]), so
      [Buffer.from(s)] is the identity on this representation and
      [buf.toString()] is its inverse.  ["/"] is a single byte that never
      occurs inside a multi-byte character, so [split('/')] on code units
      and on bytes agree.
    - Every call that leaves the class (configuration, secret storage,
      prompts, HTTP, the file system, the clock, ...) is an operation [Op];
      a method is a tree [prog] of such operations, run against an arbitrary
      environment [handler].  A rejected promise and a thrown exception are
      both [Throw]. *)

From Stdlib Require Import Ascii String ZArith Lia ZifyNat DecimalString.
From stdpp Require Import base option list strings gmap.

Local Open Scope string_scope.

(** ** JavaScript strings *)

Module Js.

(** [!s] for a value of type [string]. *)
Definition is_empty (s : string) : bool :=
  match s with
  | EmptyString => true
  | String _ _ => false
  end.

(** [!x] for a value of type [string | undefined]. *)
Definition falsy (x : option string) : bool :=
  match x with
  | None => true
  | Some s => is_empty s
  end.

(** [x || d] for [x : string | undefined] and [d : string]. *)
Definition or_else (x : option string) (d : string) : string :=
  match x with
  | None => d
  | Some s => if is_empty s then d else s
  end.

(** [x || undefined]. *)
Definition or_undefined (x : option string) : option string :=
  match x with
  | None => None
  | Some s => if is_empty s then None else Some s
  end.

(** [s.split(sep)] for a one-character separator: every occurrence of the
    separator cuts, so the result always has at least one element. *)
Fixpoint split (sep : ascii) (s : string) : list string :=
  match s with
  | EmptyString => [EmptyString]
  | String c rest =>
      if Ascii.eqb c sep then EmptyString :: split sep rest
      else match split sep rest with
           | [] => [String c EmptyString]
           | hd :: tl => String c hd :: tl
           end
  end.

(** [parts.join(sep)]. *)
Fixpoint join (sep : string) (parts : list string) : string :=
  match parts with
  | [] => EmptyString
  | [p] => p
  | p :: rest => p +:+ sep +:+ join sep rest
  end.

End Js.

(** ** Base64, the transport encoding of the contents endpoint

    [Buffer.from(content).toString('base64')] and
    [Buffer.from(text, 'base64').toString()].  The encoder emits the
    standard alphabet with [=] padding; the decoder is Node's lenient one:
    it accepts the URL-safe digits too and skips every other character
    (padding, line breaks). *)

Module Base64.

Definition alphabet : string :=
  "ABCDEFGHIJKLMNOPQRSTUVWXYZabcdefghijklmnopqrstuvwxyz0123456789+/".

Definition digit (n : nat) : ascii :=
  default "A"%char (String.get n alphabet).

Definition value (c : ascii) : option nat :=
  let n := nat_of_ascii c in
  if ((65 <=? n) && (n <=? 90))%nat then Some (n - 65)
  else if ((97 <=? n) && (n <=? 122))%nat then Some (n - 71)
  else if ((48 <=? n) && (n <=? 57))%nat then Some (n + 4)
  else if ((n =? 43) || (n =? 45))%nat then Some 62
  else if ((n =? 47) || (n =? 95))%nat then Some 63
  else None.

Definition pad : ascii := "="%char.

Fixpoint encode (s : string) : string :=
  match s with
  | EmptyString => EmptyString
  | String a EmptyString =>
      let x := nat_of_ascii a in
      String (digit (x / 4)) (String (digit (x mod 4 * 16))
        (String pad (String pad EmptyString)))
  | String a (String b EmptyString) =>
      let x := nat_of_ascii a in
      let y := nat_of_ascii b in
      String (digit (x / 4)) (String (digit (x mod 4 * 16 + y / 16))
        (String (digit (y mod 16 * 4)) (String pad EmptyString)))
  | String a (String b (String c rest)) =>
      let x := nat_of_ascii a in
      let y := nat_of_ascii b in
      let z := nat_of_ascii c in
      String (digit (x / 4)) (String (digit (x mod 4 * 16 + y / 16))
        (String (digit (y mod 16 * 4 + z / 64)) (String (digit (z mod 64))
          (encode rest))))
  end.

Fixpoint sextets (s : string) : list nat :=
  match s with
  | EmptyString => []
  | String c rest =>
      match value c with
      | Some v => v :: sextets rest
      | None => sextets rest
      end
  end.

Fixpoint bytes (l : list nat) : string :=
  match l with
  | p :: q :: r :: t :: rest =>
      String (ascii_of_nat (p * 4 + q / 16))
        (String (ascii_of_nat (q mod 16 * 16 + r / 4))
          (String (ascii_of_nat (r mod 4 * 64 + t)) (bytes rest)))
  | [p; q; r] =>
      String (ascii_of_nat (p * 4 + q / 16))
        (String (ascii_of_nat (q mod 16 * 16 + r / 4)) EmptyString)
  | [p; q] => String (ascii_of_nat (p * 4 + q / 16)) EmptyString
  | _ => EmptyString
  end.

Definition decode (s : string) : string := bytes (sextets s).

End Base64.

(** ** JSON.stringify *)

Module Json.

#[local] Set Warnings "-register-all".

Inductive json : Type :=
| JNumber (n : Z)
| JString (s : string)
| JArray (items : list json)
| JObject (fields : list (string * json)).

Definition quote_mark : ascii := "034"%char.
Definition backslash : ascii := "092"%char.
Definition newline : string := String "010"%char EmptyString.

Definition hex_digit (n : nat) : ascii :=
  default "0"%char (String.get n "0123456789abcdef").

(** One character of [QuoteJSONString]. *)
Definition escape (c : ascii) : string :=
  let n := nat_of_ascii c in
  if (n =? 34)%nat then String backslash (String quote_mark EmptyString)
  else if (n =? 92)%nat then String backslash (String backslash EmptyString)
  else if (n =? 8)%nat then String backslash "b"
  else if (n =? 12)%nat then String backslash "f"
  else if (n =? 10)%nat then String backslash "n"
  else if (n =? 13)%nat then String backslash "r"
  else if (n =? 9)%nat then String backslash "t"
  else if (n <? 32)%nat then
    String backslash
      ("u00" +:+ String (hex_digit (n / 16)) (String (hex_digit (n mod 16)) EmptyString))
  else String c EmptyString.

Fixpoint escape_all (s : string) : string :=
  match s with
  | EmptyString => EmptyString
  | String c rest => escape c +:+ escape_all rest
  end.

Definition quote (s : string) : string :=
  String quote_mark (escape_all s +:+ String quote_mark EmptyString).

Definition number (n : Z) : string := NilZero.string_of_int (Z.to_int n).

(** [SerializeJSONProperty] with the current indentation [indent] and the
    indentation unit [gap] ([""] for [JSON.stringify(v)], two spaces for
    [JSON.stringify(v, null, 2)]). *)
Fixpoint serialize (gap indent : string) (v : json) {struct v} : string :=
  let inner := indent +:+ gap in
  let wrap (opening closing : string) (parts : list string) : string :=
    match parts with
    | [] => opening +:+ closing
    | _ =>
        if Js.is_empty gap then opening +:+ Js.join "," parts +:+ closing
        else opening +:+ newline +:+ inner
               +:+ Js.join ("," +:+ newline +:+ inner) parts
               +:+ newline +:+ indent +:+ closing
    end in
  match v with
  | JNumber n => number n
  | JString s => quote s
  | JArray items => wrap "[" "]" (map (serialize gap inner) items)
  | JObject fields =>
      wrap "{" "}"
        (map (fun kv =>
                quote (fst kv) +:+ (if Js.is_empty gap then ":" else ": ")
                  +:+ serialize gap inner (snd kv))
             fields)
  end.

Definition stringify (v : json) : string := serialize "" "" v.
Definition stringify_indent2 (v : json) : string := serialize "  " "" v.

(** A property whose value is [undefined] is left out of the object. *)
Definition optional (key : string) (value : option string) : list (string * json) :=
  match value with
  | None => []
  | Some s => [(key, JString s)]
  end.

End Json.

(** ** Errors, operations and programs *)

(** What a [catch] clause can receive: a plain [Error], or an error for which
    [axios.isAxiosError] holds, with [error.response?.status]. *)
Inductive error : Type :=
| JsError (message : string)
| AxiosError (status : option nat) (message : string).

(** [axios.isAxiosError(error) && error.response?.status === 404] *)
Definition is_not_found (e : error) : bool :=
  match e with
  | AxiosError (Some 404) _ => true
  | _ => false
  end.

(** The text [`${error}`] interpolates. *)
Definition error_text (e : error) : string :=
  match e with
  | JsError m => "Error: " +:+ m
  | AxiosError _ m => "AxiosError: " +:+ m
  end.

(** A promise once settled; also the result of a call that may throw. *)
Inductive settled (A : Type) : Type :=
| Fulfilled (a : A)
| Rejected (e : error).
Arguments Fulfilled {A} a.
Arguments Rejected {A} e.

Definition headers : Type := list (string * string).

(** [response.data] of a GET on the contents endpoint. *)
Module FileData.
Record t : Type := { content : string; sha : string }.
End FileData.

(** The body of a PUT on the contents endpoint: [createData] has no [sha]
    property, [updateData] has one. *)
Module PutData.
Record t : Type :=
  { message : string; content : string; sha : option string }.
End PutData.

Module GitHubUser.
Record t : Type :=
  { login : string; id : Z; avatar_url : string;
    name : option string; email : option string }.
End GitHubUser.

Module GitHubTokenResponse.
Record t : Type :=
  { access_token : string; token_type : string; scope : string }.
End GitHubTokenResponse.

(** The fields of [ext.packageJSON] that are read. *)
Module PackageJSON.
Record t : Type :=
  { isBuiltin : bool; displayName : option string; name : string;
    version : string; description : option string }.
End PackageJSON.

(** An element of [vscode.extensions.all]. *)
Module Extension.
Record t : Type := { id : string; packageJSON : PackageJSON.t }.
End Extension.

(** The argument of [new AuthorizationCode({client, auth})]. *)
Module OAuth2Client.
Record t : Type :=
  { id : string; secret : string;
    tokenHost : string; tokenPath : string;
    authorizeHost : string; authorizePath : string }.
End OAuth2Client.

Inductive Op : Type -> Type :=
(* vscode.workspace.getConfiguration('syncMyExts').get(key) *)
| ConfigGet (key : string) : Op (option string)
(* this.config.get(key), on the object the GitHubAuth constructor obtained *)
| HeldConfigGet (key : string) : Op (option string)
(* config.update(key, value, ConfigurationTarget.Global) *)
| ConfigUpdate (key value : string) : Op (settled unit)
(* vscode.window.showInputBox; None when the box is dismissed *)
| ShowInputBox (prompt placeHolder : string) (password : bool) : Op (option string)
| ShowInformationMessage (message : string) : Op unit
| ShowErrorMessage (message : string) : Op unit
(* context.secrets *)
| SecretsGet (key : string) : Op (settled (option string))
| SecretsStore (key value : string) : Op (settled unit)
| SecretsDelete (key : string) : Op (settled unit)
(* axios, on the contents endpoint and on the identity endpoint *)
| AxiosGet (url : string) (hs : headers) : Op (settled FileData.t)
| AxiosPut (url : string) (data : PutData.t) (hs : headers) : Op (settled unit)
| AxiosGetUser (url : string) (hs : headers) : Op (settled GitHubUser.t)
(* fs *)
| ExistsSync (path : string) : Op bool
| ReadFileSync (path : string) : Op (settled string)
| WriteFileSync (path data : string) : Op (settled unit)
(* process.env[name], process.platform *)
| ProcessEnv (name : string) : Op (option string)
| ProcessPlatform : Op string
(* vscode.extensions.all, vscode.version *)
| ExtensionsAll : Op (list Extension.t)
| VscodeVersion : Op string
(* new Date().toISOString() *)
| DateNow : Op string
(* Math.random().toString(36) *)
| MathRandom36 : Op string
(* vscode.env.openExternal(vscode.Uri.parse(uri)) *)
| OpenExternal (uri : string) : Op (settled bool)
(* oauth2.getToken({code, redirect_uri}) *)
| GetToken (client : OAuth2Client.t) (code redirect_uri : string)
    : Op (settled GitHubTokenResponse.t).

Inductive prog (A : Type) : Type :=
| Ret (a : A)
| Throw (e : error)
| Vis {X : Type} (op : Op X) (k : X -> prog A).
Arguments Ret {A} a.
Arguments Throw {A} e.
Arguments Vis {A X} op k.

Fixpoint bind {A B : Type} (p : prog A) (f : A -> prog B) : prog B :=
  match p with
  | Ret a => f a
  | Throw e => Throw e
  | Vis op k => Vis op (fun x => bind (k x) f)
  end.

(** [try { p } catch (error) { h error }] *)
Fixpoint try_catch {A : Type} (p : prog A) (h : error -> prog A) : prog A :=
  match p with
  | Ret a => Ret a
  | Throw e => h e
  | Vis op k => Vis op (fun x => try_catch (k x) h)
  end.

(** A call that cannot fail. *)
Definition perform {X : Type} (op : Op X) : prog X := Vis op Ret.

(** [await op]: a rejection is thrown at the call site. *)
Definition await {X : Type} (op : Op (settled X)) : prog X :=
  Vis op (fun r => match r with
                   | Fulfilled x => Ret x
                   | Rejected e => Throw e
                   end).

Declare Scope prog_scope.
Delimit Scope prog_scope with prog.
Bind Scope prog_scope with prog.
Notation "x <- p ;; q" := (bind p (fun x => q))
  (at level 100, p at next level, right associativity) : prog_scope.
Notation "p ;; q" := (bind p (fun _ => q))
  (at level 100, right associativity) : prog_scope.
Local Open Scope prog_scope.

(** *** Running a program in an environment *)

Inductive event : Type :=
| Event {X : Type} (op : Op X) (reply : X).

Definition trace : Type := list event.

(** An environment: a state and, for every operation, a reply and the next
    state. *)
Definition handler (W : Type) : Type := forall X : Type, Op X -> W -> X * W.

Fixpoint run {W A : Type} (h : handler W) (p : prog A) (w : W)
  : settled A * W * trace :=
  match p with
  | Ret a => (Fulfilled a, w, [])
  | Throw e => (Rejected e, w, [])
  | Vis op k =>
      let '(x, w1) := h _ op w in
      let '(r, w2, t) := run h (k x) w1 in
      (r, w2, Event op x :: t)
  end.

Definition outcome {W A : Type} (r : settled A * W * trace) : settled A := r.1.1.
Definition final {W A : Type} (r : settled A * W * trace) : W := r.1.2.
Definition events {W A : Type} (r : settled A * W * trace) : trace := r.2.

(** ** githubAuth.ts *)

Module GitHubAuth.

Definition REDIRECT_URI : string := "http://localhost:3000/callback".
Definition SCOPES : list string := ["repo"; "user"].

(** [this.config.get<string>(key, fallback)] *)
Definition config_get (key fallback : string) : prog string :=
  v <- perform (HeldConfigGet key) ;;
  Ret (default fallback v).

Definition getOAuth2Client : prog OAuth2Client.t :=
  clientId <- config_get "clientId" "" ;;
  clientSecret <- config_get "clientSecret" "" ;;
  if Js.is_empty clientId || Js.is_empty clientSecret then
    Throw (JsError "GitHub OAuth AppのClient IDとClient Secretが設定されていません。")
  else
    Ret {| OAuth2Client.id := clientId;
           OAuth2Client.secret := clientSecret;
           OAuth2Client.tokenHost := "https://github.com";
           OAuth2Client.tokenPath := "/login/oauth/access_token";
           OAuth2Client.authorizeHost := "https://github.com";
           OAuth2Client.authorizePath := "/login/oauth/authorize" |}.

Definition getGitHubUser (token : string) : prog GitHubUser.t :=
  await (AxiosGetUser "https://api.github.com/user"
           [("Authorization", "token " +:+ token);
            ("Accept", "application/vnd.github.v3+json")]).

Definition user_json (user : GitHubUser.t) : Json.json :=
  Json.JObject
    ([("login", Json.JString (GitHubUser.login user));
      ("id", Json.JNumber (GitHubUser.id user));
      ("avatar_url", Json.JString (GitHubUser.avatar_url user))]
       ++ Json.optional "name" (GitHubUser.name user)
       ++ Json.optional "email" (GitHubUser.email user)).

Definition saveToken (token : string) (user : GitHubUser.t) : prog unit :=
  await (SecretsStore "github-token" token) ;;
  await (SecretsStore "github-user" (Json.stringify (user_json user))).

Definition generateState : prog string :=
  a <- perform MathRandom36 ;;
  b <- perform MathRandom36 ;;
  Ret (String.substring 2 13 a +:+ String.substring 2 13 b).

Definition setupOAuthApp : prog bool :=
  clientId <- perform (ShowInputBox "GitHub OAuth AppのClient IDを入力してください"
                         "Client ID" false) ;;
  if Js.falsy clientId then Ret false
  else
    clientSecret <- perform (ShowInputBox "GitHub OAuth AppのClient Secretを入力してください"
                               "Client Secret" true) ;;
    if Js.falsy clientSecret then Ret false
    else
      await (ConfigUpdate "clientId" (default "" clientId)) ;;
      await (ConfigUpdate "clientSecret" (default "" clientSecret)) ;;
      Ret true.

Definition getStoredToken : prog (option string) :=
  try_catch
    (v <- await (SecretsGet "github-token") ;;
     Ret (Js.or_undefined v))
    (fun _ => Ret None).

Definition isLoggedIn : prog bool :=
  token <- getStoredToken ;;
  match token with
  | None => Ret false
  | Some token =>
      try_catch
        (getGitHubUser token ;;
         Ret true)
        (fun _ => Ret false)
  end.

Definition logout : prog unit :=
  try_catch
    (await (SecretsDelete "github-token") ;;
     await (SecretsDelete "github-user") ;;
     perform (ShowInformationMessage "GitHubからログアウトしました"))
    (fun error =>
       perform (ShowErrorMessage ("ログアウトに失敗しました: " +:+ error_text error))).

Section Login.

(** [oauth2.authorizeURL({redirect_uri, scope, state})] of simple-oauth2. *)
Variable authorizeURL : OAuth2Client.t -> string -> string -> string -> string.

Definition login : prog bool :=
  try_catch
    (clientId <- config_get "clientId" "" ;;
     clientSecret <- config_get "clientSecret" "" ;;
     configured <-
       (if Js.is_empty clientId || Js.is_empty clientSecret
        then setupOAuthApp
        else Ret true) ;;
     if negb configured then Ret false
     else
       oauth2 <- getOAuth2Client ;;
       state <- generateState ;;
       let authorizationUri :=
         authorizeURL oauth2 REDIRECT_URI (Js.join " " SCOPES) state in
       await (OpenExternal authorizationUri) ;;
       authCode <- perform (ShowInputBox
                              "GitHub認証ページで認証後、表示されたコードを入力してください"
                              "認証コードを入力" false) ;;
       if Js.falsy authCode then
         Throw (JsError "認証コードが入力されませんでした")
       else
         accessToken <- await (GetToken oauth2 (default "" authCode) REDIRECT_URI) ;;
         let token := GitHubTokenResponse.access_token accessToken in
         user <- getGitHubUser token ;;
         saveToken token user ;;
         perform (ShowInformationMessage
                    ("GitHubにログインしました: " +:+ GitHubUser.login user)) ;;
         Ret true)
    (fun error =>
       perform (ShowErrorMessage ("GitHubログインに失敗しました: " +:+ error_text error)) ;;
       Ret false).

End Login.

End GitHubAuth.

(** ** extensionSync.ts *)

Module ExtensionInfo.
Record t : Type :=
  { id : string; name : string; version : string; description : option string }.
End ExtensionInfo.

Module ExtensionsData.
Record t : Type :=
  { extensions : list ExtensionInfo.t; lastUpdated : string; vscodeVersion : string }.
End ExtensionsData.

Module Config.
Record t : Type := { repository : string; fileName : string }.
End Config.

Module ExtensionSync.

Definition getConfig : prog Config.t :=
  repository <- perform (ConfigGet "repository") ;;
  fileName <- perform (ConfigGet "fileName") ;;
  Ret {| Config.repository := default "" repository;
         Config.fileName := default "extensions.json" fileName |}.

Definition getRepository : prog string :=
  config <- getConfig ;;
  let repository := Config.repository config in
  if Js.is_empty repository then
    inputRepository <-
      perform (ShowInputBox "GitHubリポジトリ名を入力してください（例: username/repo-name）"
                 "username/repo-name" false) ;;
    if Js.falsy inputRepository then
      Throw (JsError "リポジトリ名が入力されませんでした")
    else
      await (ConfigUpdate "repository" (default "" inputRepository)) ;;
      Ret (default "" inputRepository)
  else Ret repository.

Definition getGitHubToken : prog string :=
  token <- GitHubAuth.getStoredToken ;;
  match token with
  | None =>
      Throw (JsError
        "GitHubにログインしてください。サイドバーから「GitHubにログイン」を実行してください。")
  | Some token => Ret token
  end.

Definition toInfo (ext : Extension.t) : ExtensionInfo.t :=
  let pkg := Extension.packageJSON ext in
  {| ExtensionInfo.id := Extension.id ext;
     ExtensionInfo.name :=
       Js.or_else (PackageJSON.displayName pkg) (PackageJSON.name pkg);
     ExtensionInfo.version := PackageJSON.version pkg;
     ExtensionInfo.description := PackageJSON.description pkg |}.

Definition getInstalledExtensions : prog (list ExtensionInfo.t) :=
  extensions <- perform ExtensionsAll ;;
  Ret (map toInfo
         (List.filter (fun ext => negb (PackageJSON.isBuiltin (Extension.packageJSON ext)))
            extensions)).

(** [const [owner, repo] = repository.split('/')] followed by the check
    [if (!owner || !repo) throw ...], as both [createOrUpdateFile] and
    [getFileContent] have it. *)
Definition ownerAndRepo (repository : string) : settled (string * string) :=
  let parts := Js.split "/" repository in
  let owner := parts !! 0%nat in
  let repo := parts !! 1%nat in
  if Js.falsy owner || Js.falsy repo then
    Rejected (JsError "リポジトリ名の形式が正しくありません。例: username/repo-name")
  else Fulfilled (default "" owner, default "" repo).

Definition settle {A : Type} (r : settled A) : prog A :=
  match r with
  | Fulfilled a => Ret a
  | Rejected e => Throw e
  end.

Definition contentsUrl (owner repo targetFile : string) : string :=
  "https://api.github.com/repos/" +:+ owner +:+ "/" +:+ repo
    +:+ "/contents/" +:+ targetFile.

Definition createOrUpdateFile (content : string) (fileName : option string)
  : prog unit :=
  config <- getConfig ;;
  let targetFile := Js.or_else fileName (Config.fileName config) in
  token <- getGitHubToken ;;
  repository <- getRepository ;;
  parts <- settle (ownerAndRepo repository) ;;
  let '(owner, repo) := parts in
  let apiUrl := contentsUrl owner repo targetFile in
  let headers := [("Authorization", "token " +:+ token);
                  ("Content-Type", "application/json")] in
  try_catch
    (await (AxiosGet apiUrl headers) ;;
     now <- perform DateNow ;;
     current <- await (AxiosGet apiUrl headers) ;;
     let updateData :=
       {| PutData.message := "Update " +:+ targetFile +:+ " - " +:+ now;
          PutData.content := Base64.encode content;
          PutData.sha := Some (FileData.sha current) |} in
     await (AxiosPut apiUrl updateData headers))
    (fun error =>
       if is_not_found error then
         now <- perform DateNow ;;
         let createData :=
           {| PutData.message := "Create " +:+ targetFile +:+ " - " +:+ now;
              PutData.content := Base64.encode content;
              PutData.sha := None |} in
         await (AxiosPut apiUrl createData headers)
       else Throw error).

Definition getFileContent (fileName : option string) : prog string :=
  config <- getConfig ;;
  let targetFile := Js.or_else fileName (Config.fileName config) in
  token <- getGitHubToken ;;
  repository <- getRepository ;;
  parts <- settle (ownerAndRepo repository) ;;
  let '(owner, repo) := parts in
  let apiUrl := contentsUrl owner repo targetFile in
  let headers := [("Authorization", "token " +:+ token)] in
  try_catch
    (response <- await (AxiosGet apiUrl headers) ;;
     Ret (Base64.decode (FileData.content response)))
    (fun error =>
       if is_not_found error then
         Throw (JsError (targetFile +:+ " が見つかりません。先に同期を実行してください。"))
       else Throw error).

Definition data_json (data : ExtensionsData.t) : Json.json :=
  Json.JObject
    [("extensions",
      Json.JArray
        (map (fun ext =>
                Json.JObject
                  ([("id", Json.JString (ExtensionInfo.id ext));
                    ("name", Json.JString (ExtensionInfo.name ext));
                    ("version", Json.JString (ExtensionInfo.version ext))]
                     ++ Json.optional "description" (ExtensionInfo.description ext)))
           (ExtensionsData.extensions data)));
     ("lastUpdated", Json.JString (ExtensionsData.lastUpdated data));
     ("vscodeVersion", Json.JString (ExtensionsData.vscodeVersion data))].

Definition syncExtensions : prog unit :=
  extensions <- getInstalledExtensions ;;
  lastUpdated <- perform DateNow ;;
  vscodeVersion <- perform VscodeVersion ;;
  let data := {| ExtensionsData.extensions := extensions;
                 ExtensionsData.lastUpdated := lastUpdated;
                 ExtensionsData.vscodeVersion := vscodeVersion |} in
  let content := Json.stringify_indent2 (data_json data) in
  createOrUpdateFile content None.

Section Paths.

(** Node's [path.join] on the segments given. *)
Variable path_join : list string -> string.

Definition getUserSettingsPath : prog string :=
  appDataVar <- perform (ProcessEnv "APPDATA") ;;
  appData <-
    (if Js.falsy appDataVar then
       platform <- perform ProcessPlatform ;;
       home <- perform (ProcessEnv "HOME") ;;
       if String.eqb platform "darwin"
       then Ret (path_join [Js.or_else home ""; "Library/Application Support"])
       else Ret (path_join [Js.or_else home ""; ".config"])
     else Ret (default "" appDataVar)) ;;
  platform <- perform ProcessPlatform ;;
  if String.eqb platform "win32" then
    Ret (path_join [appData; "Code"; "User"; "settings.json"])
  else
    platform <- perform ProcessPlatform ;;
    if String.eqb platform "darwin" then
      Ret (path_join [appData; "Code"; "User"; "settings.json"])
    else
      Ret (path_join [appData; "Code"; "User"; "settings.json"]).

Definition getRemoteSettingsPath : prog (option string) :=
  remoteEnv <- perform (ProcessEnv "VSCODE_REMOTE_ENV") ;;
  if negb (Js.falsy remoteEnv) then
    Ret (Some (path_join [default "" remoteEnv; "data"; "Machine"; "settings.json"]))
  else
    home <- perform (ProcessEnv "HOME") ;;
    if negb (Js.falsy home) then
      home <- perform (ProcessEnv "HOME") ;;
      match home with
      | None => Throw (JsError "The path argument must be of type string")
      | Some home =>
          let sshPath :=
            path_join [home; ".vscode-server"; "data"; "Machine"; "settings.json"] in
          found <- perform (ExistsSync sshPath) ;;
          if found then Ret (Some sshPath) else Ret None
      end
    else Ret None.

Definition syncSettings : prog unit :=
  getConfig ;;
  userSettingsPath <- getUserSettingsPath ;;
  found <- perform (ExistsSync userSettingsPath) ;;
  if negb found then
    Throw (JsError "ユーザー設定ファイルが見つかりません。")
  else
    settingsContent <- await (ReadFileSync userSettingsPath) ;;
    createOrUpdateFile settingsContent (Some "settings.json") ;;
    remoteSettingsPath <- getRemoteSettingsPath ;;
    match Js.or_undefined remoteSettingsPath with
    | None => Ret tt
    | Some remotePath =>
        found <- perform (ExistsSync remotePath) ;;
        if found then
          remoteContent <- await (ReadFileSync remotePath) ;;
          createOrUpdateFile remoteContent (Some "remote-settings.json")
        else Ret tt
    end.

Definition importSettings : prog unit :=
  getConfig ;;
  userSettingsContent <- getFileContent (Some "settings.json") ;;
  userSettingsPath <- getUserSettingsPath ;;
  await (WriteFileSync userSettingsPath userSettingsContent) ;;
  try_catch
    (remoteSettingsContent <- getFileContent (Some "remote-settings.json") ;;
     remoteSettingsPath <- getRemoteSettingsPath ;;
     match Js.or_undefined remoteSettingsPath with
     | None => Ret tt
     | Some remotePath => await (WriteFileSync remotePath remoteSettingsContent)
     end)
    (fun _ => Ret tt).

End Paths.

End ExtensionSync.

(** ** Environments *)

(** What a run exchanged with the contents endpoint, in order. *)
Inductive request : Type :=
| Get (url : string) (hs : headers) (reply : settled FileData.t)
| Put (url : string) (data : PutData.t) (hs : headers) (reply : settled unit).

Definition request_of (ev : event) : list request :=
  match ev with
  | Event op reply =>
      match op in Op X return X -> list request with
      | AxiosGet url hs => fun reply => [Get url hs reply]
      | AxiosPut url data hs => fun reply => [Put url data hs reply]
      | _ => fun _ => []
      end reply
  end.

Definition http (t : trace) : list request := flat_map request_of t.

(** The writes among them. *)
Definition write_of (r : request) : list (string * PutData.t) :=
  match r with
  | Get _ _ _ => []
  | Put url data _ _ => [(url, data)]
  end.

Definition writes (t : trace) : list (string * PutData.t) :=
  flat_map write_of (http t).

(** The answers given to the input boxes, by prompt. *)
Definition answer_of (ev : event) : list (string * option string) :=
  match ev with
  | Event op reply =>
      match op in Op X return X -> list (string * option string) with
      | ShowInputBox prompt _ _ => fun reply => [(prompt, reply)]
      | _ => fun _ => []
      end reply
  end.

Definition answers (t : trace) : list (string * option string) :=
  flat_map answer_of t.

(** *** The editor host

    Modelled from the spec: the configuration surface and the persisted
    secrets of the host (persisted key-value stores), with the local files
    and the process environment.  A write to one of these stores succeeds
    and is seen by the reads that follow.  Everything else (prompts, HTTP,
    the OAuth library, the clock, and the configuration object [GitHubAuth]
    holds since its construction) is answered by an arbitrary environment
    [outside]. *)
Module Host.

Record t : Type :=
  { settings : gmap string string;
    secrets : gmap string string;
    disk : gmap string string;
    environ : gmap string string;
    platform : string }.

Definition set_settings (f : gmap string string -> gmap string string) (h : t) : t :=
  {| settings := f (settings h); secrets := secrets h; disk := disk h;
     environ := environ h; platform := platform h |}.

Definition set_secrets (f : gmap string string -> gmap string string) (h : t) : t :=
  {| settings := settings h; secrets := f (secrets h); disk := disk h;
     environ := environ h; platform := platform h |}.

Definition set_disk (f : gmap string string -> gmap string string) (h : t) : t :=
  {| settings := settings h; secrets := secrets h; disk := f (disk h);
     environ := environ h; platform := platform h |}.

Definition handle {E : Type} (outside : handler E) : handler (t * E) :=
  fun X op w =>
    let host := w.1 in
    match op in Op X return X * (t * E) with
    | ConfigGet key => (settings host !! key, w)
    | ConfigUpdate key value =>
        (Fulfilled tt, (set_settings (insert key value) host, w.2))
    | SecretsGet key => (Fulfilled (secrets host !! key), w)
    | SecretsStore key value =>
        (Fulfilled tt, (set_secrets (insert key value) host, w.2))
    | SecretsDelete key =>
        (Fulfilled tt, (set_secrets (delete key) host, w.2))
    | ExistsSync path => (bool_decide (is_Some (disk host !! path)), w)
    | ReadFileSync path =>
        (match disk host !! path with
         | Some text => Fulfilled text
         | None => Rejected (JsError ("ENOENT: no such file or directory, open " +:+ path))
         end, w)
    | WriteFileSync path data =>
        (Fulfilled tt, (set_disk (insert path data) host, w.2))
    | ProcessEnv name => (environ host !! name, w)
    | ProcessPlatform => (platform host, w)
    | op => let '(x, e) := outside _ op w.2 in (x, (host, e))
    end.

End Host.

(** *** The remote store

    Modelled from the spec: the remote contents endpoint of the external
    interfaces, which is GitHub's and not part of the sources.  The store
    keeps, per URL, the transport-encoded content it was sent and the
    revision token it assigned, which is content-addressed ([blob_sha]).
    GET returns both, or not found; the content comes back laid out as the
    endpoint pleases ([layout]: GitHub breaks the base64 text into lines).
    PUT without a token creates, PUT with the current token updates, and a
    PUT with a stale or a missing token on an existing file, or with a token
    on an absent one, is rejected.  Nobody else writes to the store. *)
Module GitHub.

(** A line break before every [width] characters but the first ones. *)
Fixpoint wrap (width room : nat) (text : string) : string :=
  match text with
  | EmptyString => EmptyString
  | String c rest =>
      match room with
      | O => String "010"%char (String c (wrap width (width - 1) rest))
      | S room' => String c (wrap width room' rest)
      end
  end.

Definition wrap60 (text : string) : string := wrap 60 60 text.

Section Store.

Variable blob_sha : string -> string.
Variable layout : string -> string.

Definition stored (text : string) : FileData.t :=
  {| FileData.content := text; FileData.sha := blob_sha text |}.

Definition served (file : FileData.t) : FileData.t :=
  {| FileData.content := layout (FileData.content file);
     FileData.sha := FileData.sha file |}.

Definition put (url : string) (data : PutData.t) (files : gmap string FileData.t)
  : settled unit * gmap string FileData.t :=
  match files !! url, PutData.sha data with
  | None, None =>
      (Fulfilled tt, <[url := stored (PutData.content data)]> files)
  | Some file, Some token =>
      if String.eqb token (FileData.sha file)
      then (Fulfilled tt, <[url := stored (PutData.content data)]> files)
      else (Rejected (AxiosError (Some 409) "Request failed with status code 409"), files)
  | _, _ =>
      (Rejected (AxiosError (Some 422) "Request failed with status code 422"), files)
  end.

Definition handle {E : Type} (outside : handler E)
  : handler (gmap string FileData.t * E) :=
  fun X op w =>
    let files := w.1 in
    match op in Op X return X * (gmap string FileData.t * E) with
    | AxiosGet url _ =>
        (match files !! url with
         | Some file => Fulfilled (served file)
         | None => Rejected (AxiosError (Some 404) "Request failed with status code 404")
         end, w)
    | AxiosPut url data _ =>
        let '(reply, files') := put url data files in (reply, (files', w.2))
    | op => let '(x, e) := outside _ op w.2 in (x, (files, e))
    end.

End Store.

End GitHub.

(** *** A scripted environment

    Replies are taken from lists, one per call of each kind; a list that has
    run out answers with a dismissal or a network error.  Used to run the
    programs on concrete inputs. *)
Module Script.

Record t : Type :=
  { config : list (string * string);
    token : settled (option string);
    inputs : list (option string);
    gets : list (settled FileData.t);
    puts : list (settled unit);
    users : list (settled GitHubUser.t);
    exchanges : list (settled GitHubTokenResponse.t);
    writable : bool;
    installed : list Extension.t }.

Definition lookup_config (key : string) (s : t) : option string :=
  snd <$> List.find (fun kv => String.eqb (fst kv) key) (config s).

Definition network_error {A : Type} : settled A :=
  Rejected (AxiosError None "Network Error").

Definition next_input (s : t) : t :=
  {| config := config s; token := token s; inputs := tail (inputs s);
     gets := gets s; puts := puts s; users := users s;
     exchanges := exchanges s; writable := writable s; installed := installed s |}.

Definition next_get (s : t) : t :=
  {| config := config s; token := token s; inputs := inputs s;
     gets := tail (gets s); puts := puts s; users := users s;
     exchanges := exchanges s; writable := writable s; installed := installed s |}.

Definition next_put (s : t) : t :=
  {| config := config s; token := token s; inputs := inputs s;
     gets := gets s; puts := tail (puts s); users := users s;
     exchanges := exchanges s; writable := writable s; installed := installed s |}.

Definition next_user (s : t) : t :=
  {| config := config s; token := token s; inputs := inputs s;
     gets := gets s; puts := puts s; users := tail (users s);
     exchanges := exchanges s; writable := writable s; installed := installed s |}.

Definition next_exchange (s : t) : t :=
  {| config := config s; token := token s; inputs := inputs s;
     gets := gets s; puts := puts s; users := users s;
     exchanges := tail (exchanges s); writable := writable s;
     installed := installed s |}.

Definition handle : handler t :=
  fun X op s =>
    match op in Op X return X * t with
    | ConfigGet key => (lookup_config key s, s)
    | HeldConfigGet key => (lookup_config key s, s)
    | ConfigUpdate _ _ => (Fulfilled tt, s)
    | ShowInputBox _ _ _ => (default None (head (inputs s)), next_input s)
    | ShowInformationMessage _ => (tt, s)
    | ShowErrorMessage _ => (tt, s)
    | SecretsGet _ => (token s, s)
    | SecretsStore _ _ => (Fulfilled tt, s)
    | SecretsDelete _ => (Fulfilled tt, s)
    | AxiosGet _ _ => (default network_error (head (gets s)), next_get s)
    | AxiosPut _ _ _ => (default network_error (head (puts s)), next_put s)
    | AxiosGetUser _ _ => (default network_error (head (users s)), next_user s)
    | ExistsSync _ => (false, s)
    | ReadFileSync path => (Rejected (JsError "ENOENT"), s)
    | WriteFileSync _ _ =>
        (if writable s then Fulfilled tt else Rejected (JsError "EACCES"), s)
    | ProcessEnv name => (if String.eqb name "HOME" then Some "/home/alice" else None, s)
    | ProcessPlatform => ("linux", s)
    | ExtensionsAll => (installed s, s)
    | VscodeVersion => ("1.90.0", s)
    | DateNow => ("2024-05-01T10:00:00.000Z", s)
    | MathRandom36 => ("0.4fzyo82mvyr", s)
    | OpenExternal _ => (Fulfilled true, s)
    | GetToken _ _ _ => (default network_error (head (exchanges s)), next_exchange s)
    end.

End Script.


(** ** Vocabulary of the properties *)

(** The two bodies [createOrUpdateFile] can send for [content]. *)
Definition is_create (content : string) (data : PutData.t) : Prop :=
  PutData.content data = Base64.encode content /\ PutData.sha data = None.

Definition is_update (content token : string) (data : PutData.t) : Prop :=
  PutData.content data = Base64.encode content /\ PutData.sha data = Some token.

(** A reply that reports the file absent. *)
Definition reports_absent (r : request) : bool :=
  match r with
  | Get _ _ (Rejected e) => is_not_found e
  | Put _ _ _ (Rejected e) => is_not_found e
  | _ => false
  end.

(** Every exchange one call of [createOrUpdateFile] can have with the
    contents endpoint, with the result of the call. *)
Inductive upsert_exchange (content : string) : list request -> settled unit -> Prop :=
| exchange_none e :
    upsert_exchange content [] (Rejected e)
| exchange_read_failed url hs e :
    is_not_found e = false ->
    upsert_exchange content [Get url hs (Rejected e)] (Rejected e)
| exchange_create url hs e data reply :
    is_not_found e = true ->
    is_create content data ->
    upsert_exchange content [Get url hs (Rejected e); Put url data hs reply] reply
| exchange_reread_failed url hs first e :
    is_not_found e = false ->
    upsert_exchange content
      [Get url hs (Fulfilled first); Get url hs (Rejected e)] (Rejected e)
| exchange_reread_absent url hs first e data reply :
    is_not_found e = true ->
    is_create content data ->
    upsert_exchange content
      [Get url hs (Fulfilled first); Get url hs (Rejected e); Put url data hs reply]
      reply
| exchange_update url hs first current data :
    is_update content (FileData.sha current) data ->
    upsert_exchange content
      [Get url hs (Fulfilled first); Get url hs (Fulfilled current);
       Put url data hs (Fulfilled tt)]
      (Fulfilled tt)
| exchange_update_failed url hs first current data e :
    is_update content (FileData.sha current) data ->
    is_not_found e = false ->
    upsert_exchange content
      [Get url hs (Fulfilled first); Get url hs (Fulfilled current);
       Put url data hs (Rejected e)]
      (Rejected e)
| exchange_update_absent url hs first current data e data' reply :
    is_update content (FileData.sha current) data ->
    is_not_found e = true ->
    is_create content data' ->
    upsert_exchange content
      [Get url hs (Fulfilled first); Get url hs (Fulfilled current);
       Put url data hs (Rejected e); Put url data' hs reply]
      reply.

(** The local writes of a run, with their results. *)
Definition disk_write_of (ev : event) : list (string * string * settled unit) :=
  match ev with
  | Event op reply =>
      match op in Op X return X -> list (string * string * settled unit) with
      | WriteFileSync path data => fun reply => [(path, data, reply)]
      | _ => fun _ => []
      end reply
  end.

Definition disk_writes (t : trace) : list (string * string * settled unit) :=
  flat_map disk_write_of t.

(** The message of the error [getFileContent] throws for a missing file. *)
Definition notFoundMessage (targetFile : string) : string :=
  targetFile +:+ " が見つかりません。先に同期を実行してください。".

(** ** Concrete environments *)

Module Example.

(** A logged-in user with the repository [alice/my-exts] configured, and the
    given replies of the contents endpoint. *)
Definition alice (gets : list (settled FileData.t)) (puts : list (settled unit))
  : Script.t :=
  {| Script.config := [("repository", "alice/my-exts")];
     Script.token := Fulfilled (Some "gho_16C7e42F292c");
     Script.inputs := [];
     Script.gets := gets;
     Script.puts := puts;
     Script.users := [];
     Script.exchanges := [];
     Script.writable := true;
     Script.installed := [] |}.

Definition url : string :=
  "https://api.github.com/repos/alice/my-exts/contents/settings.json".

Definition hs : headers :=
  [("Authorization", "token gho_16C7e42F292c"); ("Content-Type", "application/json")].

Definition file : FileData.t :=
  {| FileData.content := "e30="; FileData.sha := "3b18e512dba79e4c8300dd08aeb37f8e728b8dad" |}.

Definition absent : error := AxiosError (Some 404) "Request failed with status code 404".

Definition createData : PutData.t :=
  {| PutData.message := "Create settings.json - 2024-05-01T10:00:00.000Z";
     PutData.content := "eyJhIjoxfQ==";
     PutData.sha := None |}.

Definition updateData : PutData.t :=
  {| PutData.message := "Update settings.json - 2024-05-01T10:00:00.000Z";
     PutData.content := "eyJhIjoxfQ==";
     PutData.sha := Some "3b18e512dba79e4c8300dd08aeb37f8e728b8dad" |}.

(** [{"a":1}] *)
Definition settingsText : string :=
  "{" +:+ Json.quote "a" +:+ ":1}".

Definition upsert (s : Script.t) : settled unit * Script.t * trace :=
  run Script.handle (ExtensionSync.createOrUpdateFile settingsText (Some "settings.json")) s.

End Example.

(** Every exchange one call of [getFileContent] can have with the contents
    endpoint, with the file it asks for and the result of the call. *)
Inductive fetch_exchange (targetFile : string) : list request -> settled string -> Prop :=
| fetch_none e :
    fetch_exchange targetFile [] (Rejected e)
| fetch_found owner repo hs file :
    fetch_exchange targetFile
      [Get (ExtensionSync.contentsUrl owner repo targetFile) hs (Fulfilled file)]
      (Fulfilled (Base64.decode (FileData.content file)))
| fetch_absent owner repo hs e :
    is_not_found e = true ->
    fetch_exchange targetFile
      [Get (ExtensionSync.contentsUrl owner repo targetFile) hs (Rejected e)]
      (Rejected (JsError (notFoundMessage targetFile)))
| fetch_failed owner repo hs e :
    is_not_found e = false ->
    fetch_exchange targetFile
      [Get (ExtensionSync.contentsUrl owner repo targetFile) hs (Rejected e)]
      (Rejected e).

(** The file name a call settles on: [fileName || config.fileName], where
    [configured] is what the configuration holds under [fileName]. *)
Definition targetOf (fileName configured : option string) : string :=
  Js.or_else fileName (default "extensions.json" configured).

(** What the configuration answered when asked for [key], first answer
    first. *)
Definition config_read_of (key : string) (ev : event) : list (option string) :=
  match ev with
  | Event op reply =>
      match op in Op X return X -> list (option string) with
      | ConfigGet k => fun reply => if String.eqb k key then [reply] else []
      | _ => fun _ => []
      end reply
  end.

Definition config_reads (key : string) (t : trace) : list (option string) :=
  flat_map (config_read_of key) t.

(** The snapshot [syncExtensions] builds from what the host enumerates, the
    clock and the host version. *)
Definition nonBuiltin (ext : Extension.t) : bool :=
  negb (PackageJSON.isBuiltin (Extension.packageJSON ext)).

Definition snapshot (installed : list Extension.t) (now version : string)
  : ExtensionsData.t :=
  {| ExtensionsData.extensions := map ExtensionSync.toInfo (List.filter nonBuiltin installed);
     ExtensionsData.lastUpdated := now;
     ExtensionsData.vscodeVersion := version |}.

Module Scenario.

Definition python : Extension.t :=
  {| Extension.id := "ms.python";
     Extension.packageJSON :=
       {| PackageJSON.isBuiltin := false; PackageJSON.displayName := Some "Python";
          PackageJSON.name := "python"; PackageJSON.version := "1.0.0";
          PackageJSON.description := Some "Python language support" |} |}.

Definition git : Extension.t :=
  {| Extension.id := "vscode.git";
     Extension.packageJSON :=
       {| PackageJSON.isBuiltin := true; PackageJSON.displayName := Some "Git";
          PackageJSON.name := "git"; PackageJSON.version := "1.0.0";
          PackageJSON.description := None |} |}.

Definition go : Extension.t :=
  {| Extension.id := "ms.go";
     Extension.packageJSON :=
       {| PackageJSON.isBuiltin := false; PackageJSON.displayName := None;
          PackageJSON.name := "go"; PackageJSON.version := "2.0.0";
          PackageJSON.description := None |} |}.

(** [alice/my-exts] has no [extensions.json]; three extensions are
    enumerated, one of them built in. *)
Definition world : Script.t :=
  {| Script.config := [("repository", "alice/my-exts")];
     Script.token := Fulfilled (Some "gho_16C7e42F292c");
     Script.inputs := [];
     Script.gets := [Rejected Example.absent];
     Script.puts := [Fulfilled tt];
     Script.users := [];
     Script.exchanges := [];
     Script.writable := true;
     Script.installed := [python; git; go] |}.

Definition q (s : string) : string := Json.quote s.

Definition payload : string :=
"{
  " +:+ q "extensions" +:+ ": [
    {
      " +:+ q "id" +:+ ": " +:+ q "ms.python" +:+ ",
      " +:+ q "name" +:+ ": " +:+ q "Python" +:+ ",
      " +:+ q "version" +:+ ": " +:+ q "1.0.0" +:+ ",
      " +:+ q "description" +:+ ": " +:+ q "Python language support" +:+ "
    },
    {
      " +:+ q "id" +:+ ": " +:+ q "ms.go" +:+ ",
      " +:+ q "name" +:+ ": " +:+ q "go" +:+ ",
      " +:+ q "version" +:+ ": " +:+ q "2.0.0" +:+ "
    }
  ],
  " +:+ q "lastUpdated" +:+ ": " +:+ q "2024-05-01T10:00:00.000Z" +:+ ",
  " +:+ q "vscodeVersion" +:+ ": " +:+ q "1.90.0" +:+ "
}".

End Scenario.

(** The state one successful [createOrUpdateFile] of [content] under
    [fileName] leaves behind on a host talking to the remote store: a token
    is stored, a well-formed repository is configured, and the store holds
    the transport encoding of [content] at the URL of the file. *)
Definition synced {E : Type} (blob_sha : string -> string) (fileName : option string)
    (content : string) (w : Host.t * (gmap string FileData.t * E)) : Prop :=
  exists token repository owner repo,
    Js.or_undefined (Host.secrets w.1 !! "github-token") = Some token
    /\ Host.settings w.1 !! "repository" = Some repository
    /\ Js.is_empty repository = false
    /\ ExtensionSync.ownerAndRepo repository = Fulfilled (owner, repo)
    /\ w.2.1 !! ExtensionSync.contentsUrl owner repo
                  (targetOf fileName (Host.settings w.1 !! "fileName"))
       = Some (GitHub.stored blob_sha (Base64.encode content)).

Module RoundTrip.

Definition blob_sha (text : string) : string := "sha1:" +:+ text.

Definition host : Host.t :=
  {| Host.settings := {[ "repository" := "alice/my-exts" ]};
     Host.secrets := {[ "github-token" := "gho_16C7e42F292c" ]};
     Host.disk := ∅;
     Host.environ := {[ "HOME" := "/home/alice" ]};
     Host.platform := "linux" |}.

Definition handle : handler (Host.t * (gmap string FileData.t * Script.t)) :=
  Host.handle (GitHub.handle blob_sha GitHub.wrap60 Script.handle).

(** The repository without the file, and with an older version of it. *)
Definition fresh : Host.t * (gmap string FileData.t * Script.t) :=
  (host, (∅, Example.alice [] [])).

Definition existing : Host.t * (gmap string FileData.t * Script.t) :=
  (host, ({[ Example.url := GitHub.stored blob_sha "e30=" ]}, Example.alice [] [])).

End RoundTrip.

(** The two prompts of [setupOAuthApp]. *)
Definition clientIdPrompt : string := "GitHub OAuth AppのClient IDを入力してください".
Definition clientSecretPrompt : string := "GitHub OAuth AppのClient Secretを入力してください".

Module Login.

(** A stand-in for the URL builder of the OAuth library. *)
Definition authorizeURL (client : OAuth2Client.t) (redirect_uri scope state : string)
  : string :=
  OAuth2Client.authorizeHost client +:+ OAuth2Client.authorizePath client
    +:+ "?response_type=code&client_id=" +:+ OAuth2Client.id client
    +:+ "&redirect_uri=" +:+ redirect_uri
    +:+ "&scope=" +:+ scope +:+ "&state=" +:+ state.

(** A host on which nothing is configured and nobody is logged in. *)
Definition host : Host.t :=
  {| Host.settings := ∅; Host.secrets := ∅; Host.disk := ∅;
     Host.environ := {[ "HOME" := "/home/alice" ]}; Host.platform := "linux" |}.

(** The user answers the input boxes with [inputs]; the configuration
    object [GitHubAuth] holds shows [held]; the token endpoint and the
    identity endpoint answer with [exchanges] and [users]. *)
Definition user (held : list (string * string)) (inputs : list (option string))
    (exchanges : list (settled GitHubTokenResponse.t))
    (users : list (settled GitHubUser.t)) : Script.t :=
  {| Script.config := held;
     Script.token := Fulfilled None;
     Script.inputs := inputs;
     Script.gets := [];
     Script.puts := [];
     Script.users := users;
     Script.exchanges := exchanges;
     Script.writable := true;
     Script.installed := [] |}.

Definition run (s : Script.t) : settled bool * (Host.t * Script.t) * trace :=
  run (Host.handle Script.handle) (GitHubAuth.login authorizeURL) (host, s).

End Login.

(** A host state from which [getFileContent] and [createOrUpdateFile] get
    as far as their first request: a token is stored and a well-formed
    repository is configured. *)
Definition ready {E : Type} (w : Host.t * E) : Prop :=
  exists token repository owner repo,
    Js.or_undefined (Host.secrets w.1 !! "github-token") = Some token
    /\ Host.settings w.1 !! "repository" = Some repository
    /\ Js.is_empty repository = false
    /\ ExtensionSync.ownerAndRepo repository = Fulfilled (owner, repo).

(** What the local writes of a run do to the files. *)
Definition written (files : gmap string string)
    (ws : list (string * string * settled unit)) : gmap string string :=
  foldl (fun d w => <[w.1.1 := w.1.2]> d) files ws.

(** *** Repository coordinates

    The parsing as the specification words it, to compare [ownerAndRepo]
    with: cut at the first ["/"]; both parts must be non-empty. *)
Fixpoint cutAtFirst (sep : ascii) (s : string) : option (string * string) :=
  match s with
  | EmptyString => None
  | String c rest =>
      if Ascii.eqb c sep then Some (EmptyString, rest)
      else match cutAtFirst sep rest with
           | Some (before, after) => Some (String c before, after)
           | None => None
           end
  end.

Definition formatError : error :=
  JsError "リポジトリ名の形式が正しくありません。例: username/repo-name".

Definition parseAtFirstSlash (s : string) : settled (string * string) :=
  match cutAtFirst "/" s with
  | Some (owner, repoName) =>
      if Js.is_empty owner || Js.is_empty repoName then Rejected formatError
      else Fulfilled (owner, repoName)
  | None => Rejected formatError
  end.

(** The text before the first ["/"], or all of it. *)
Definition upToSlash (s : string) : string :=
  match cutAtFirst "/" s with
  | Some (before, _) => before
  | None => s
  end.

Fixpoint occurrences (c : ascii) (s : string) : nat :=
  match s with
  | EmptyString => 0
  | String c' rest => (if Ascii.eqb c' c then 1 else 0) + occurrences c rest
  end.


(** ** extension.ts *)

Module Command.
Record t : Type := { command : string; title : string }.
End Command.

(** A [SyncTreeItem]: the label, the command and the id of its
    [ThemeIcon]. *)
Module SyncTreeItem.
Record t : Type :=
  { label : string; command : option Command.t; iconPath : option string }.
End SyncTreeItem.

Module SyncTreeDataProvider.

Definition item (label command icon : string) : SyncTreeItem.t :=
  {| SyncTreeItem.label := label;
     SyncTreeItem.command := Some {| Command.command := command; Command.title := label |};
     SyncTreeItem.iconPath := Some icon |}.

Definition getChildren (element : option SyncTreeItem.t) : prog (list SyncTreeItem.t) :=
  match element with
  | None =>
      isLoggedIn <- GitHubAuth.isLoggedIn ;;
      if negb isLoggedIn then
        Ret [item "GitHubにログイン" "sync-my-exts.loginToGitHub" "sign-in"]
      else
        Ret [item "拡張機能一覧をGitHubに同期" "sync-my-exts.syncExtensions" "cloud-upload";
             item "GitHubから拡張機能一覧をインポート" "sync-my-exts.importExtensions"
               "cloud-download";
             item "ユーザー設定をGitHubに同期" "sync-my-exts.syncSettings" "cloud-upload";
             item "GitHubからユーザー設定をインポート" "sync-my-exts.importSettings"
               "cloud-download";
             item "GitHubからログアウト" "sync-my-exts.logoutFromGitHub" "sign-out";
             item "リポジトリ名を変更" "sync-my-exts.changeRepository" "gear"]
  | Some _ => Ret []
  end.

End SyncTreeDataProvider.

(** The callbacks [activate] registers, by the name of the constant that
    holds the registration. *)
Module Activate.

(** The box also shows the configured repository as its initial value; that
    value is read before the box opens. *)
Definition changeRepositoryCommand : prog unit :=
  perform (ConfigGet "repository") ;;
  newRepository <-
    perform (ShowInputBox "新しいGitHubリポジトリ名を入力してください（例: username/repo-name）"
               "username/repo-name" false) ;;
  if Js.falsy newRepository then Ret tt
  else
    await (ConfigUpdate "repository" (default "" newRepository)) ;;
    perform (ShowInformationMessage
               ("リポジトリ名を変更しました: " +:+ default "" newRepository)).

Definition syncCommand : prog unit :=
  try_catch
    (ExtensionSync.syncExtensions ;;
     perform (ShowInformationMessage "拡張機能一覧をGitHubに同期しました！"))
    (fun error =>
       perform (ShowErrorMessage ("同期に失敗しました: " +:+ error_text error))).

Section Settings.

Variable path_join : list string -> string.

Definition syncSettingsCommand : prog unit :=
  try_catch
    (ExtensionSync.syncSettings path_join ;;
     perform (ShowInformationMessage "ユーザー設定をGitHubに同期しました！"))
    (fun error =>
       perform (ShowErrorMessage ("設定同期に失敗しました: " +:+ error_text error))).

Definition importSettingsCommand : prog unit :=
  try_catch
    (ExtensionSync.importSettings path_join ;;
     perform (ShowInformationMessage "ユーザー設定をインポートしました！"))
    (fun error =>
       perform (ShowErrorMessage ("設定インポートに失敗しました: " +:+ error_text error))).

End Settings.

End Activate.

(** ** More vocabulary *)

(** What the secret storage answered when asked for the token. *)
Definition secret_read_of (ev : event) : list (settled (option string)) :=
  match ev with
  | Event op reply =>
      match op in Op X return X -> list (settled (option string)) with
      | SecretsGet _ => fun reply => [reply]
      | _ => fun _ => []
      end reply
  end.

Definition secret_reads (t : trace) : list (settled (option string)) :=
  flat_map secret_read_of t.

(** The token [getStoredToken] makes of such an answer. *)
Definition stored_token (reply : settled (option string)) : option string :=
  match reply with
  | Fulfilled stored => Js.or_undefined stored
  | Rejected _ => None
  end.

(** The changes a run asked of the secret storage and of the settings:
    the key, the value stored ([None] for a deletion), and the answer. *)
Definition secret_write_of (ev : event) : list (string * option string * settled unit) :=
  match ev with
  | Event op reply =>
      match op in Op X return X -> list (string * option string * settled unit) with
      | SecretsStore key value => fun reply => [(key, Some value, reply)]
      | SecretsDelete key => fun reply => [(key, None, reply)]
      | _ => fun _ => []
      end reply
  end.

Definition secret_writes (t : trace) : list (string * option string * settled unit) :=
  flat_map secret_write_of t.

Definition config_write_of (ev : event) : list (string * string * settled unit) :=
  match ev with
  | Event op reply =>
      match op in Op X return X -> list (string * string * settled unit) with
      | ConfigUpdate key value => fun reply => [(key, value, reply)]
      | _ => fun _ => []
      end reply
  end.

Definition config_writes (t : trace) : list (string * string * settled unit) :=
  flat_map config_write_of t.

(** The notifications a run showed. *)
Inductive notification : Type :=
| Information (message : string)
| Failure (message : string).

Definition notification_of (ev : event) : list notification :=
  match ev with
  | Event op _ =>
      match op with
      | ShowInformationMessage message => [Information message]
      | ShowErrorMessage message => [Failure message]
      | _ => []
      end
  end.

Definition notifications (t : trace) : list notification :=
  flat_map notification_of t.

(** The lookups on the identity endpoint. *)
Definition identity_lookup_of (ev : event)
  : list (string * headers * settled GitHubUser.t) :=
  match ev with
  | Event op reply =>
      match op in Op X return X -> list (string * headers * settled GitHubUser.t) with
      | AxiosGetUser url hs => fun reply => [(url, hs, reply)]
      | _ => fun _ => []
      end reply
  end.

Definition identity_lookups (t : trace) : list (string * headers * settled GitHubUser.t) :=
  flat_map identity_lookup_of t.

(** The headers and the error, if any, of a request. *)
Definition headers_of (r : request) : headers :=
  match r with
  | Get _ hs _ => hs
  | Put _ _ hs _ => hs
  end.

Definition url_of (r : request) : string :=
  match r with
  | Get url _ _ => url
  | Put url _ _ _ => url
  end.

Definition error_of (r : request) : option error :=
  match r with
  | Get _ _ (Rejected e) => Some e
  | Put _ _ _ (Rejected e) => Some e
  | _ => None
  end.

Definition loginRequired : error :=
  JsError "GitHubにログインしてください。サイドバーから「GitHubにログイン」を実行してください。".

Definition repositoryPrompt : string :=
  "GitHubリポジトリ名を入力してください（例: username/repo-name）".


(** [never f p]: no operation the program [p] can reach is one that [f]
    records, whatever the replies. *)
Fixpoint never {A B : Type} (f : event -> list B) (p : prog A) : Prop :=
  match p with
  | Ret _ | Throw _ => True
  | Vis op k => (forall x, f (Event op x) = []) /\ (forall x, never f (k x))
  end.

(** The write request of an event, if it is one. *)
Definition put_of (ev : event) : list (string * PutData.t) :=
  flat_map write_of (request_of ev).

Module Misconfigured.

(** A logged-in host whose configured repository lacks the owner. *)
Definition host : Host.t :=
  {| Host.settings := {[ "repository" := "my-exts" ]};
     Host.secrets := {[ "github-token" := "gho_16C7e42F292c" ]};
     Host.disk := ∅;
     Host.environ := {[ "HOME" := "/home/alice" ]};
     Host.platform := "linux" |}.

End Misconfigured.

(** The store after a [syncSettings]: the user settings are there, and so
    are the remote-connected ones when their path resolves to a file. *)
Definition uploaded (blob_sha : string -> string) (host : Host.t)
    (files : gmap string FileData.t) (owner repo text : string)
    (found : option string) : gmap string FileData.t :=
  let primary :=
    <[ExtensionSync.contentsUrl owner repo "settings.json"
      := GitHub.stored blob_sha (Base64.encode text)]> files in
  match Js.or_undefined found with
  | Some remotePath =>
      match Host.disk host !! remotePath with
      | Some remoteText =>
          <[ExtensionSync.contentsUrl owner repo "remote-settings.json"
            := GitHub.stored blob_sha (Base64.encode remoteText)]> primary
      | None => primary
      end
  | None => primary
  end.

(** The token exchanges of a run and the pages it opened in the browser. *)
Definition exchange_of (ev : event)
  : list (OAuth2Client.t * string * string * settled GitHubTokenResponse.t) :=
  match ev with
  | Event op reply =>
      match op in Op X
            return X -> list (OAuth2Client.t * string * string
                              * settled GitHubTokenResponse.t) with
      | GetToken client code redirect_uri => fun reply => [(client, code, redirect_uri, reply)]
      | _ => fun _ => []
      end reply
  end.

Definition exchanges (t : trace)
  : list (OAuth2Client.t * string * string * settled GitHubTokenResponse.t) :=
  flat_map exchange_of t.

Definition opened_of (ev : event) : list string :=
  match ev with
  | Event op _ =>
      match op with
      | OpenExternal uri => [uri]
      | _ => []
      end
  end.

Definition opened (t : trace) : list string := flat_map opened_of t.

(** What the configuration object [GitHubAuth] holds answered. *)
Definition held_read_of (ev : event) : list (string * option string) :=
  match ev with
  | Event op reply =>
      match op in Op X return X -> list (string * option string) with
      | HeldConfigGet key => fun reply => [(key, reply)]
      | _ => fun _ => []
      end reply
  end.

Definition held_reads (t : trace) : list (string * option string) :=
  flat_map held_read_of t.

(** The messages of [login] and [logout]. *)
Definition loggedIn (user : GitHubUser.t) : notification :=
  Information ("GitHubにログインしました: " +:+ GitHubUser.login user).

Definition loginFailed (e : error) : notification :=
  Failure ("GitHubログインに失敗しました: " +:+ error_text e).

Definition loggedOut : notification := Information "GitHubからログアウトしました".

Definition logoutFailed (e : error) : notification :=
  Failure ("ログアウトに失敗しました: " +:+ error_text e).

Definition notConfigured : error :=
  JsError "GitHub OAuth AppのClient IDとClient Secretが設定されていません。".

Definition codePrompt : string :=
  "GitHub認証ページで認証後、表示されたコードを入力してください".

Definition identityHeaders (token : string) : headers :=
  [("Authorization", "token " +:+ token); ("Accept", "application/vnd.github.v3+json")].

(** *** The runs of login

    The traces [login] can leave, branch by branch.  [login_flow] is the
    part of its [try] block after the setup. *)
Definition held (key : string) (v : option string) : event :=
  Event (HeldConfigGet key) v.

Definition asked (prompt placeHolder : string) (password : bool) (x : option string)
  : event :=
  Event (ShowInputBox prompt placeHolder password) x.

Definition unconfigured (clientId clientSecret : option string) : bool :=
  Js.is_empty (default "" clientId) || Js.is_empty (default "" clientSecret).

Definition clientOf (clientId clientSecret : option string) : OAuth2Client.t :=
  {| OAuth2Client.id := default "" clientId;
     OAuth2Client.secret := default "" clientSecret;
     OAuth2Client.tokenHost := "https://github.com";
     OAuth2Client.tokenPath := "/login/oauth/access_token";
     OAuth2Client.authorizeHost := "https://github.com";
     OAuth2Client.authorizePath := "/login/oauth/authorize" |}.

Definition askedClientId : option string -> event :=
  asked clientIdPrompt "Client ID" false.

Definition askedClientSecret : option string -> event :=
  asked clientSecretPrompt "Client Secret" true.

Inductive setup_trace : trace -> settled bool -> Prop :=
| setup_no_id x :
    Js.falsy x = true ->
    setup_trace [askedClientId x] (Fulfilled false)
| setup_no_secret x y :
    Js.falsy x = false -> Js.falsy y = true ->
    setup_trace [askedClientId x; askedClientSecret y] (Fulfilled false)
| setup_id_refused x y e :
    Js.falsy x = false -> Js.falsy y = false ->
    setup_trace
      [askedClientId x; askedClientSecret y;
       Event (ConfigUpdate "clientId" (default "" x)) (Rejected e)]
      (Rejected e)
| setup_secret_refused x y e :
    Js.falsy x = false -> Js.falsy y = false ->
    setup_trace
      [askedClientId x; askedClientSecret y;
       Event (ConfigUpdate "clientId" (default "" x)) (Fulfilled tt);
       Event (ConfigUpdate "clientSecret" (default "" y)) (Rejected e)]
      (Rejected e)
| setup_saved x y :
    Js.falsy x = false -> Js.falsy y = false ->
    setup_trace
      [askedClientId x; askedClientSecret y;
       Event (ConfigUpdate "clientId" (default "" x)) (Fulfilled tt);
       Event (ConfigUpdate "clientSecret" (default "" y)) (Fulfilled tt)]
      (Fulfilled true).

Section LoginFlow.

Variable authorizeURL : OAuth2Client.t -> string -> string -> string -> string.

Definition login_flow : prog bool :=
  oauth2 <- GitHubAuth.getOAuth2Client ;;
  state <- GitHubAuth.generateState ;;
  let authorizationUri :=
    authorizeURL oauth2 GitHubAuth.REDIRECT_URI (Js.join " " GitHubAuth.SCOPES) state in
  await (OpenExternal authorizationUri) ;;
  authCode <- perform (ShowInputBox codePrompt "認証コードを入力" false) ;;
  if Js.falsy authCode then
    Throw (JsError "認証コードが入力されませんでした")
  else
    accessToken <- await (GetToken oauth2 (default "" authCode) GitHubAuth.REDIRECT_URI) ;;
    let token := GitHubTokenResponse.access_token accessToken in
    user <- GitHubAuth.getGitHubUser token ;;
    GitHubAuth.saveToken token user ;;
    perform (ShowInformationMessage
               ("GitHubにログインしました: " +:+ GitHubUser.login user)) ;;
    Ret true.

(** Up to the page opened in the browser, and up to the code entered. *)
Definition opening (v3 v4 : option string) (a b : string) (reply : settled bool)
  : trace :=
  [held "clientId" v3; held "clientSecret" v4;
   Event MathRandom36 a; Event MathRandom36 b;
   Event (OpenExternal
            (authorizeURL (clientOf v3 v4) GitHubAuth.REDIRECT_URI
               (Js.join " " GitHubAuth.SCOPES)
               (String.substring 2 13 a +:+ String.substring 2 13 b)))
     reply].

Definition entering (v3 v4 : option string) (a b : string) (o : bool)
    (code : option string) : trace :=
  (opening v3 v4 a b (Fulfilled o)
     ++ [asked codePrompt "認証コードを入力" false code])%list.

Definition exchange (v3 v4 code : option string)
    (reply : settled GitHubTokenResponse.t) : event :=
  Event (GetToken (clientOf v3 v4) (default "" code) GitHubAuth.REDIRECT_URI) reply.

Definition lookup (resp : GitHubTokenResponse.t) (reply : settled GitHubUser.t) : event :=
  Event (AxiosGetUser "https://api.github.com/user"
           (identityHeaders (GitHubTokenResponse.access_token resp)))
    reply.

Definition storeToken (resp : GitHubTokenResponse.t) (reply : settled unit) : event :=
  Event (SecretsStore "github-token" (GitHubTokenResponse.access_token resp)) reply.

Definition storeUser (user : GitHubUser.t) (reply : settled unit) : event :=
  Event (SecretsStore "github-user" (Json.stringify (GitHubAuth.user_json user))) reply.

Inductive flow_trace : trace -> settled bool -> Prop :=
| flow_unconfigured v3 v4 :
    unconfigured v3 v4 = true ->
    flow_trace [held "clientId" v3; held "clientSecret" v4] (Rejected notConfigured)
| flow_not_opened v3 v4 a b e :
    unconfigured v3 v4 = false ->
    flow_trace (opening v3 v4 a b (Rejected e)) (Rejected e)
| flow_no_code v3 v4 a b o code :
    unconfigured v3 v4 = false -> Js.falsy code = true ->
    flow_trace (entering v3 v4 a b o code)
      (Rejected (JsError "認証コードが入力されませんでした"))
| flow_exchange_failed v3 v4 a b o code e :
    unconfigured v3 v4 = false -> Js.falsy code = false ->
    flow_trace (entering v3 v4 a b o code ++ [exchange v3 v4 code (Rejected e)])%list
      (Rejected e)
| flow_lookup_failed v3 v4 a b o code resp e :
    unconfigured v3 v4 = false -> Js.falsy code = false ->
    flow_trace
      (entering v3 v4 a b o code
         ++ [exchange v3 v4 code (Fulfilled resp); lookup resp (Rejected e)])%list
      (Rejected e)
| flow_token_refused v3 v4 a b o code resp user e :
    unconfigured v3 v4 = false -> Js.falsy code = false ->
    flow_trace
      (entering v3 v4 a b o code
         ++ [exchange v3 v4 code (Fulfilled resp); lookup resp (Fulfilled user);
             storeToken resp (Rejected e)])%list
      (Rejected e)
| flow_user_refused v3 v4 a b o code resp user e :
    unconfigured v3 v4 = false -> Js.falsy code = false ->
    flow_trace
      (entering v3 v4 a b o code
         ++ [exchange v3 v4 code (Fulfilled resp); lookup resp (Fulfilled user);
             storeToken resp (Fulfilled tt); storeUser user (Rejected e)])%list
      (Rejected e)
| flow_done v3 v4 a b o code resp user :
    unconfigured v3 v4 = false -> Js.falsy code = false ->
    flow_trace
      (entering v3 v4 a b o code
         ++ [exchange v3 v4 code (Fulfilled resp); lookup resp (Fulfilled user);
             storeToken resp (Fulfilled tt); storeUser user (Fulfilled tt);
             Event (ShowInformationMessage
                      ("GitHubにログインしました: " +:+ GitHubUser.login user)) tt])%list
      (Fulfilled true).

(** The [try] block: the two reads of the configuration held, the setup
    when something is missing, and the flow. *)
Inductive body_trace : trace -> settled bool -> Prop :=
| body_dismissed v1 v2 ts :
    unconfigured v1 v2 = true ->
    setup_trace ts (Fulfilled false) ->
    body_trace (held "clientId" v1 :: held "clientSecret" v2 :: ts) (Fulfilled false)
| body_setup_failed v1 v2 ts e :
    unconfigured v1 v2 = true ->
    setup_trace ts (Rejected e) ->
    body_trace (held "clientId" v1 :: held "clientSecret" v2 :: ts) (Rejected e)
| body_after_setup v1 v2 ts tf out :
    unconfigured v1 v2 = true ->
    setup_trace ts (Fulfilled true) ->
    flow_trace tf out ->
    body_trace (held "clientId" v1 :: held "clientSecret" v2 :: ts ++ tf)%list out
| body_configured v1 v2 tf out :
    unconfigured v1 v2 = false ->
    flow_trace tf out ->
    body_trace (held "clientId" v1 :: held "clientSecret" v2 :: tf) out.

(** [login]: the block, and the failure message for what it throws. *)
Inductive login_trace : trace -> settled bool -> Prop :=
| login_returned t b :
    body_trace t (Fulfilled b) ->
    login_trace t (Fulfilled b)
| login_caught t e :
    body_trace t (Rejected e) ->
    login_trace
      (t ++ [Event (ShowErrorMessage
                      ("GitHubログインに失敗しました: " +:+ error_text e)) tt])%list
      (Fulfilled false).

End LoginFlow.

Module Session.

Definition response : GitHubTokenResponse.t :=
  {| GitHubTokenResponse.access_token := "gho_16C7e42F292c";
     GitHubTokenResponse.token_type := "bearer";
     GitHubTokenResponse.scope := "repo,user" |}.

Definition alice : GitHubUser.t :=
  {| GitHubUser.login := "alice"; GitHubUser.id := 583231;
     GitHubUser.avatar_url := "https://avatars.example/u/583231";
     GitHubUser.name := None; GitHubUser.email := None |}.

(** The OAuth app is configured; the user enters the code, the exchange and
    the lookup succeed. *)
Definition smooth : Script.t :=
  Login.user [("clientId", "Iv1.8a61f9b3a7aba766"); ("clientSecret", "5ecr3t")]
    [Some "c0de"] [Fulfilled response] [Fulfilled alice].

(** Nothing is configured and the configuration held stays empty; the user
    enters a client id and a client secret. *)
Definition stale : Script.t :=
  Login.user [] [Some "Iv1.8a61f9b3a7aba766"; Some "5ecr3t"] [] [].

Definition login (s : Script.t) : settled bool * Script.t * trace :=
  run Script.handle (GitHubAuth.login Login.authorizeURL) s.

End Session.

(** What the secret storage and the settings of the host hold after the
    changes of a run, all accepted. *)
Definition kept (secrets : gmap string string)
    (ws : list (string * option string * settled unit)) : gmap string string :=
  foldl (fun s w => match w.1.2 with
                    | Some value => <[w.1.1 := value]> s
                    | None => delete w.1.1 s
                    end) secrets ws.

Definition configured (settings : gmap string string)
    (ws : list (string * string * settled unit)) : gmap string string :=
  foldl (fun s w => <[w.1.1 := w.1.2]> s) settings ws.

(** The one message a command of [activate] ends with. *)
Definition report (ok prefix : string) (result : settled unit) : event :=
  match result with
  | Fulfilled _ => Event (ShowInformationMessage ok) tt
  | Rejected e => Event (ShowErrorMessage (prefix +:+ error_text e)) tt
  end.

(** The form of the commands that run a method and report:
    [try { await p; inform } catch (error) { complain }]. *)
Definition reported (p : prog unit) (ok prefix : string) : prog unit :=
  try_catch
    (bind p (fun _ => perform (ShowInformationMessage ok)))
    (fun error => perform (ShowErrorMessage (prefix +:+ error_text error))).

Definition changePrompt : string :=
  "新しいGitHubリポジトリ名を入力してください（例: username/repo-name）".

(** The command ids of the entries of the tree. *)
Definition commandsOf (items : list SyncTreeItem.t) : list string :=
  map (fun item => from_option Command.command "" (SyncTreeItem.command item)) items.

Definition repositoryMissing : error := JsError "リポジトリ名が入力されませんでした".

(** *** The snapshot, as the specification words it

    ExtensionSnapshot: the extensions in their order, each with an id, a
    name, a version and a description if it has one, the time of the
    snapshot and the version of the host; and its JSON object, indented by
    two spaces.  The snapshot of what is installed lists the extensions that
    are not built in.  Two things the specification leaves open are taken
    from the code: the name of an entry is the display name of the
    extension, or its package name when it has none, and the object holds the
    host version under [vscodeVersion]. *)
Module ExtensionSnapshot.

Record entry : Type :=
  { id : string; name : string; version : string; description : option string }.

Record t : Type :=
  { extensions : list entry; lastUpdated : string; hostVersion : string }.

Definition entry_json (e : entry) : Json.json :=
  Json.JObject
    (("id", Json.JString (id e))
       :: ("name", Json.JString (name e))
       :: ("version", Json.JString (version e))
       :: match description e with
          | Some text => [("description", Json.JString text)]
          | None => []
          end).

Definition to_json (s : t) : Json.json :=
  Json.JObject
    [("extensions", Json.JArray (map entry_json (extensions s)));
     ("lastUpdated", Json.JString (lastUpdated s));
     ("vscodeVersion", Json.JString (hostVersion s))].

Definition serialize (s : t) : string := Json.serialize "  " "" (to_json s).

Definition entryOf (ext : Extension.t) : entry :=
  let pkg := Extension.packageJSON ext in
  {| id := Extension.id ext;
     name := match PackageJSON.displayName pkg with
             | Some shown => if Js.is_empty shown then PackageJSON.name pkg else shown
             | None => PackageJSON.name pkg
             end;
     version := PackageJSON.version pkg;
     description := PackageJSON.description pkg |}.

Fixpoint listed (installed : list Extension.t) : list entry :=
  match installed with
  | [] => []
  | ext :: more =>
      if PackageJSON.isBuiltin (Extension.packageJSON ext) then listed more
      else entryOf ext :: listed more
  end.

Definition take (installed : list Extension.t) (now version : string) : t :=
  {| extensions := listed installed; lastUpdated := now; hostVersion := version |}.

End ExtensionSnapshot.

(** The three readings [syncExtensions] starts with. *)
Definition readings (installed : list Extension.t) (now version : string) : trace :=
  [Event ExtensionsAll installed; Event DateNow now; Event VscodeVersion version].

Module ExtraSegment.

(** A logged-in user whose repository name has a third segment; the
    contents endpoint answers with a file. *)
Definition world : Script.t :=
  {| Script.config := [("repository", "alice/my-exts/extra")];
     Script.token := Fulfilled (Some "gho_16C7e42F292c");
     Script.inputs := [];
     Script.gets := [Fulfilled Example.file];
     Script.puts := [];
     Script.users := [];
     Script.exchanges := [];
     Script.writable := true;
     Script.installed := [] |}.

End ExtraSegment.
(** * Properties *)

(** ** The string functions on concrete inputs *)

Example split_two : Js.split "/" "alice/my-exts" = ["alice"; "my-exts"].
Proof. reflexivity. Qed.
Example split_none : Js.split "/" "alice" = ["alice"].
Proof. reflexivity. Qed.
Example split_empty : Js.split "/" "" = [""].
Proof. reflexivity. Qed.
Example split_three : Js.split "/" "a//c/" = ["a"; ""; "c"; ""].
Proof. reflexivity. Qed.
Example base64_1 : Base64.encode "Man" = "TWFu".
Proof. reflexivity. Qed.
Example base64_2 : Base64.encode "Ma" = "TWE=".
Proof. reflexivity. Qed.
Example base64_3 : Base64.encode "M" = "TQ==".
Proof. reflexivity. Qed.
Example base64_4 : Base64.decode "TWFu
TQ==" = "ManM".
Proof. reflexivity. Qed.
Example stringify_nested :
  Json.stringify_indent2
    (Json.JObject [("a", Json.JArray [Json.JString "x"; Json.JNumber 12]);
                   ("b", Json.JArray [])])
  = "{
  " +:+ Json.quote "a" +:+ ": [
    " +:+ Json.quote "x" +:+ ",
    12
  ],
  " +:+ Json.quote "b" +:+ ": []
}".
Proof. reflexivity. Qed.

Example stringify_compact :
  Json.stringify
    (GitHubAuth.user_json
       {| GitHubUser.login := "alice"; GitHubUser.id := 583231;
          GitHubUser.avatar_url := "https://avatars.example/u/583231";
          GitHubUser.name := Some "Alice"; GitHubUser.email := None |})
  = "{" +:+ Json.quote "login" +:+ ":" +:+ Json.quote "alice" +:+ ","
      +:+ Json.quote "id" +:+ ":583231,"
      +:+ Json.quote "avatar_url" +:+ ":" +:+ Json.quote "https://avatars.example/u/583231" +:+ ","
      +:+ Json.quote "name" +:+ ":" +:+ Json.quote "Alice" +:+ "}".
Proof. reflexivity. Qed.

(** ** Running composed programs *)

Section Run.

Context {W : Type} (h : handler W).

Lemma run_bind {A B : Type} (p : prog A) (f : A -> prog B) (w : W) :
  run h (bind p f) w =
  match run h p w with
  | (Fulfilled a, w1, t1) =>
      let '(r, w2, t2) := run h (f a) w1 in (r, w2, (t1 ++ t2)%list)
  | (Rejected e, w1, t1) => (Rejected e, w1, t1)
  end.
Proof.
  revert w. induction p as [a | e | X op k IH]; intros w; cbn.
  - destruct (run h (f a) w) as [[r w2] t2]. reflexivity.
  - reflexivity.
  - destruct (h X op w) as [x w1]. rewrite IH.
    destruct (run h (k x) w1) as [[[a | e] w2] t1]; [|reflexivity].
    destruct (run h (f a) w2) as [[r w3] t2]. reflexivity.
Qed.

Lemma run_try_catch {A : Type} (p : prog A) (c : error -> prog A) (w : W) :
  run h (try_catch p c) w =
  match run h p w with
  | (Fulfilled a, w1, t1) => (Fulfilled a, w1, t1)
  | (Rejected e, w1, t1) =>
      let '(r, w2, t2) := run h (c e) w1 in (r, w2, (t1 ++ t2)%list)
  end.
Proof.
  revert w. induction p as [a | e | X op k IH]; intros w; cbn.
  - reflexivity.
  - destruct (run h (c e) w) as [[r w2] t2]. reflexivity.
  - destruct (h X op w) as [x w1]. rewrite IH.
    destruct (run h (k x) w1) as [[[a | e] w2] t1]; [reflexivity|].
    destruct (run h (c e) w2) as [[r w3] t2]. reflexivity.
Qed.

End Run.

(** ** Base64 *)

Module Base64Facts.

Import Base64.

Lemma value_digit (n : nat) : (n < 64)%nat -> value (digit n) = Some n.
Proof.
  intros Hn.
  assert (Hall : forallb (fun k => bool_decide (value (digit k) = Some k)) (seq 0 64) = true)
    by (vm_compute; reflexivity).
  rewrite forallb_forall in Hall.
  assert (Hin : In n (seq 0 64)) by (apply in_seq; lia).
  apply Hall in Hin. exact (bool_decide_eq_true_1 _ Hin).
Qed.

Lemma value_pad : value pad = None.
Proof. reflexivity. Qed.

Lemma byte_bound (a : ascii) : (nat_of_ascii a < 256)%nat.
Proof. apply nat_ascii_bounded. Qed.

Lemma sextets_digit (n : nat) (s : string) :
  (n < 64)%nat -> sextets (String (digit n) s) = n :: sextets s.
Proof. intros Hn. cbn [sextets]. rewrite value_digit by exact Hn. reflexivity. Qed.

Lemma sextets_pad (s : string) : sextets (String pad s) = sextets s.
Proof. reflexivity. Qed.

Ltac arith := zify; Z.div_mod_to_equations; lia.

Lemma byte_of (a : ascii) (n : nat) : n = nat_of_ascii a -> ascii_of_nat n = a.
Proof. intros ->. apply ascii_nat_embedding. Qed.

(** Strings three characters at a time. *)
Lemma string_ind3 (P : string -> Prop) :
  P EmptyString ->
  (forall a, P (String a EmptyString)) ->
  (forall a b, P (String a (String b EmptyString))) ->
  (forall a b c s, P s -> P (String a (String b (String c s)))) ->
  forall s, P s.
Proof.
  intros H0 H1 H2 H3 s.
  assert (H : P s /\ (forall a, P (String a s)) /\ (forall a b, P (String a (String b s)))).
  { induction s as [| c s (IH0 & IH1 & IH2)]; [auto|].
    split; [apply IH1|]. split; [intros a; apply IH2|].
    intros a b. apply H3, IH0. }
  apply H.
Qed.

Lemma decode_encode (s : string) : decode (encode s) = s.
Proof.
  unfold decode. induction s as [| a | a b | a b c s IH] using string_ind3.
  - reflexivity.
  - pose proof (byte_bound a).
    cbn [encode]. rewrite !sextets_digit, !sextets_pad by arith.
    cbn [sextets bytes]. f_equal. apply byte_of. arith.
  - pose proof (byte_bound a). pose proof (byte_bound b).
    cbn [encode]. rewrite !sextets_digit, !sextets_pad by arith.
    cbn [sextets bytes]. f_equal; [|f_equal]; apply byte_of; arith.
  - pose proof (byte_bound a). pose proof (byte_bound b). pose proof (byte_bound c).
    cbn [encode]. rewrite !sextets_digit by arith.
    cbn [bytes]. rewrite IH. f_equal; [|f_equal; [|f_equal]]; apply byte_of; arith.
Qed.

End Base64Facts.

(** ** Symbolic execution *)

Ltac reduce :=
  cbn [run bind try_catch await perform ExtensionSync.settle
       ExtensionSync.createOrUpdateFile ExtensionSync.getFileContent
       ExtensionSync.getConfig ExtensionSync.getGitHubToken
       ExtensionSync.getRepository GitHubAuth.getStoredToken
       GitHubAuth.isLoggedIn GitHubAuth.getGitHubUser
       events outcome final fst snd
       http writes request_of write_of
       disk_writes disk_write_of answers answer_of flat_map app
       Config.repository Config.fileName negb orb andb] in *.

(** Case analysis on the next reply of the environment [h], or on the next
    test the program makes. *)
Ltac step h :=
  first
    [ match goal with
      | |- context [h ?X ?op ?w] =>
          let x := fresh "x" in
          let w' := fresh "w" in
          destruct (h X op w) as [x w'] eqn:?
      end
    | match goal with
      | |- context [ExtensionSync.settle ?x] => destruct x eqn:?
      end
    | match goal with
      | |- context [match ?x with _ => _ end] =>
          lazymatch x with
          | context [@run] => fail
          | context [h] => fail
          | _ => destruct x eqn:?
          end
      end ];
  reduce.

Ltac execute h := reduce; repeat step h.

(** ** createOrUpdateFile *)

Lemma is_create_intro (content message : string) :
  is_create content
    {| PutData.message := message; PutData.content := Base64.encode content;
       PutData.sha := None |}.
Proof. split; reflexivity. Qed.

Lemma is_update_intro (content message token : string) :
  is_update content token
    {| PutData.message := message; PutData.content := Base64.encode content;
       PutData.sha := Some token |}.
Proof. split; reflexivity. Qed.

(** Whatever the environment answers, the requests of one call and its
    result follow one of the eight exchanges. *)
Lemma upsert_protocol {W : Type} (h : handler W) (w : W)
    (content : string) (fileName : option string) :
  let r := run h (ExtensionSync.createOrUpdateFile content fileName) w in
  upsert_exchange content (http (events r)) (outcome r).
Proof.
  execute h;
    eauto using upsert_exchange, is_create_intro, is_update_intro.
  all: match goal with a : unit |- _ => destruct a end.
  all: eauto using upsert_exchange, is_create_intro, is_update_intro.
Qed.

Example upsert_absent :
  http (events (Example.upsert (Example.alice [Rejected Example.absent] [Fulfilled tt])))
  = [Get Example.url Example.hs (Rejected Example.absent);
     Put Example.url Example.createData Example.hs (Fulfilled tt)].
Proof. reflexivity. Qed.

Example upsert_found :
  http (events (Example.upsert
                  (Example.alice [Fulfilled Example.file; Fulfilled Example.file]
                     [Fulfilled tt])))
  = [Get Example.url Example.hs (Fulfilled Example.file);
     Get Example.url Example.hs (Fulfilled Example.file);
     Put Example.url Example.updateData Example.hs (Fulfilled tt)].
Proof. reflexivity. Qed.

(** C1, as stated, fails: the initial read finds the file, the file is gone
    at the second read (deleted in between), and the only write issued is a
    create that carries no revision token. *)
Lemma upsert_found_then_created_without_token :
  let t := events (Example.upsert
                     (Example.alice [Fulfilled Example.file; Rejected Example.absent]
                        [Fulfilled tt])) in
  head (http t) = Some (Get Example.url Example.hs (Fulfilled Example.file))
  /\ writes t = [(Example.url, Example.createData)]
  /\ ~ (forall url data, In (url, data) (writes t) ->
        exists token, PutData.sha data = Some token).
Proof.
  cbv zeta. split; [reflexivity|]. split; [reflexivity|].
  intros Hall. destruct (Hall Example.url Example.createData) as [token Htoken].
  - left. reflexivity.
  - discriminate Htoken.
Qed.

(** C1, amended.  When the initial read reports the file absent, the one
    write issued is a create that carries no revision token.  When the
    initial read finds the file and no later reply of the call reports it
    absent, either the second read fails and nothing is written, or the one
    write issued is an update that carries the revision token of the second
    read, the read immediately preceding it. *)
Theorem upsert_token_discipline {W : Type} (h : handler W) (w : W)
    (content : string) (fileName : option string) :
  let t := http (events (run h (ExtensionSync.createOrUpdateFile content fileName) w)) in
  (forall url hs e rest,
      t = Get url hs (Rejected e) :: rest ->
      is_not_found e = true ->
      exists data answer, rest = [Put url data hs answer] /\ is_create content data)
  /\ (forall url hs first rest,
      t = Get url hs (Fulfilled first) :: rest ->
      forallb (fun r => negb (reports_absent r)) rest = true ->
      (exists e, rest = [Get url hs (Rejected e)])
      \/ (exists current data answer,
             rest = [Get url hs (Fulfilled current); Put url data hs answer]
             /\ is_update content (FileData.sha current) data)).
Proof.
  intros t. pose proof (upsert_protocol h w content fileName) as H.
  cbv zeta in H. fold t in H. clearbody t.
  split.
  - intros url hs e rest -> He. inversion H; subst; try congruence; eauto.
  - intros url hs first rest -> Hquiet.
    inversion H; subst; cbn in Hquiet; try (rewrite ?andb_true_r in Hquiet);
      try congruence; eauto 10.
    all: match goal with
         | Hn : is_not_found ?e = true |- _ => rewrite Hn in Hquiet; discriminate
         end.
Qed.

Lemma upsert_token_discipline_witness :
  (exists data answer,
      [Put Example.url Example.createData Example.hs (Fulfilled tt)]
      = [Put Example.url data Example.hs answer] /\ is_create Example.settingsText data)
  /\ ((exists e, [Get Example.url Example.hs (Fulfilled Example.file);
                  Put Example.url Example.updateData Example.hs (Fulfilled tt)]
                 = [Get Example.url Example.hs (Rejected e)])
      \/ (exists current data answer,
             [Get Example.url Example.hs (Fulfilled Example.file);
              Put Example.url Example.updateData Example.hs (Fulfilled tt)]
             = [Get Example.url Example.hs (Fulfilled current);
                Put Example.url data Example.hs answer]
             /\ is_update Example.settingsText (FileData.sha current) data)).
Proof.
  split.
  - apply (proj1 (upsert_token_discipline Script.handle
                    (Example.alice [Rejected Example.absent] [Fulfilled tt])
                    Example.settingsText (Some "settings.json"))
             Example.url Example.hs Example.absent); reflexivity.
  - apply (proj2 (upsert_token_discipline Script.handle
                    (Example.alice [Fulfilled Example.file; Fulfilled Example.file]
                       [Fulfilled tt])
                    Example.settingsText (Some "settings.json"))
             Example.url Example.hs Example.file); reflexivity.
Defined.

(** C10.  The second read and the update write run inside the [try] whose
    [catch] handles the initial existence check: when the initial read has
    found the file and the update write (or the second read) is answered
    with 404, the call goes on to issue a create that carries no revision
    token, on the same path, and the result of the call is the result of
    that create. *)
Theorem upsert_falls_back_to_create {W : Type} (h : handler W) (w : W)
    (content : string) (fileName : option string) :
  let r := run h (ExtensionSync.createOrUpdateFile content fileName) w in
  (forall url hs first url' hs' current url'' hs'' data e rest,
      http (events r)
      = Get url hs (Fulfilled first) :: Get url' hs' (Fulfilled current)
          :: Put url'' data hs'' (Rejected e) :: rest ->
      is_not_found e = true ->
      is_update content (FileData.sha current) data
      /\ exists data' answer,
           rest = [Put url data' hs answer] /\ is_create content data'
           /\ outcome r = answer)
  /\ (forall url hs first url' hs' e rest,
      http (events r)
      = Get url hs (Fulfilled first) :: Get url' hs' (Rejected e) :: rest ->
      is_not_found e = true ->
      exists data' answer,
        rest = [Put url data' hs answer] /\ is_create content data'
        /\ outcome r = answer).
Proof.
  intros r. pose proof (upsert_protocol h w content fileName) as H.
  cbv zeta in H. fold r in H. clearbody r.
  split.
  - intros url hs first url' hs' current url'' hs'' data e rest Ht He.
    rewrite Ht in H. inversion H; subst; try congruence.
    split; [assumption|]. eauto.
  - intros url hs first url' hs' e rest Ht He.
    rewrite Ht in H. inversion H; subst; try congruence. eauto.
Qed.

Lemma upsert_falls_back_to_create_witness :
  is_update Example.settingsText (FileData.sha Example.file) Example.updateData
  /\ exists data' answer,
       [Put Example.url Example.createData Example.hs (Fulfilled tt)]
       = [Put Example.url data' Example.hs answer]
       /\ is_create Example.settingsText data'
       /\ outcome (Example.upsert
                     (Example.alice [Fulfilled Example.file; Fulfilled Example.file]
                        [Rejected Example.absent; Fulfilled tt]))
          = answer.
Proof.
  apply (proj1 (upsert_falls_back_to_create Script.handle
                  (Example.alice [Fulfilled Example.file; Fulfilled Example.file]
                     [Rejected Example.absent; Fulfilled tt])
                  Example.settingsText (Some "settings.json"))
           Example.url Example.hs Example.file Example.url Example.hs Example.file
           Example.url Example.hs Example.updateData Example.absent);
    reflexivity.
Defined.

(** ** getFileContent *)

Ltac reduce_more :=
  cbn [config_reads config_read_of String.eqb Ascii.eqb Bool.eqb targetOf
       flat_map app] in *.

(** Whatever the environment answers, the requests of one call and its
    result follow one of the four exchanges, for the file name the call
    settled on; nothing is written locally. *)
Lemma fetch_protocol {W : Type} (h : handler W) (w : W) (fileName : option string) :
  let r := run h (ExtensionSync.getFileContent fileName) w in
  exists configured more,
    config_reads "fileName" (events r) = configured :: more
    /\ fetch_exchange (targetOf fileName configured) (http (events r)) (outcome r)
    /\ disk_writes (events r) = [].
Proof.
  execute h; reduce_more; eexists _, _; (split; [reflexivity|]);
    (split; [|reflexivity]); eauto using fetch_exchange.
Qed.

(** C5.  When the read of [getFileContent] is answered with 404, the call
    fails with a fresh error whose message is the name of the file asked for
    followed by the instruction to sync first; this error is not the error
    of the remote store.  When the read fails in any other way, the call
    fails with that very error. *)
Theorem getFileContent_failures {W : Type} (h : handler W) (w : W)
    (fileName : option string) (url : string) (hs : headers) (e : error)
    (rest : list request) :
  let r := run h (ExtensionSync.getFileContent fileName) w in
  http (events r) = Get url hs (Rejected e) :: rest ->
  exists configured more owner repo,
    config_reads "fileName" (events r) = configured :: more
    /\ url = ExtensionSync.contentsUrl owner repo (targetOf fileName configured)
    /\ rest = []
    /\ (is_not_found e = true ->
        outcome r = Rejected (JsError (notFoundMessage (targetOf fileName configured)))
        /\ outcome r <> Rejected e)
    /\ (is_not_found e = false -> outcome r = Rejected e).
Proof.
  intros r Ht.
  destruct (fetch_protocol h w fileName) as (configured & more & Hc & Hx & _).
  fold r in Hc, Hx. rewrite Ht in Hx.
  exists configured, more.
  inversion Hx as [| | owner repo hs' e' He Hurl Hout | owner repo hs' e' He Hurl Hout];
    subst; exists owner, repo; repeat split; try congruence.
  destruct e; discriminate.
Qed.

Lemma getFileContent_failures_witness :
  exists configured more owner repo,
    config_reads "fileName"
      (events (run Script.handle (ExtensionSync.getFileContent (Some "settings.json"))
                 (Example.alice [Rejected Example.absent] [])))
    = configured :: more
    /\ Example.url
       = ExtensionSync.contentsUrl owner repo (targetOf (Some "settings.json") configured)
    /\ @nil request = []
    /\ (is_not_found Example.absent = true ->
        outcome (run Script.handle (ExtensionSync.getFileContent (Some "settings.json"))
                   (Example.alice [Rejected Example.absent] []))
        = Rejected (JsError (notFoundMessage (targetOf (Some "settings.json") configured)))
        /\ outcome (run Script.handle (ExtensionSync.getFileContent (Some "settings.json"))
                      (Example.alice [Rejected Example.absent] []))
           <> Rejected Example.absent)
    /\ (is_not_found Example.absent = false ->
        outcome (run Script.handle (ExtensionSync.getFileContent (Some "settings.json"))
                   (Example.alice [Rejected Example.absent] []))
        = Rejected Example.absent).
Proof.
  apply (getFileContent_failures Script.handle (Example.alice [Rejected Example.absent] [])
           (Some "settings.json") Example.url [("Authorization", "token gho_16C7e42F292c")]
           Example.absent []).
  reflexivity.
Defined.

Example fetch_absent_message :
  outcome (run Script.handle (ExtensionSync.getFileContent (Some "settings.json"))
             (Example.alice [Rejected Example.absent] []))
  = Rejected (JsError "settings.json が見つかりません。先に同期を実行してください。").
Proof. reflexivity. Qed.

(** ** isLoggedIn *)

(** C8.  [isLoggedIn] always returns a boolean.  It first reads the stored
    token; when that read fails or finds nothing (or an empty string, which
    the code treats as nothing), the result is [false] and no request is
    made.  Otherwise exactly one identity lookup is made, with that token,
    and the result is [true] exactly when the lookup succeeds. *)
Theorem isLoggedIn_never_throws {W : Type} (h : handler W) (w : W) :
  let r := run h GitHubAuth.isLoggedIn w in
  exists reply rest,
    events r = Event (SecretsGet "github-token") reply :: rest
    /\ match reply with
       | Fulfilled stored =>
           match Js.or_undefined stored with
           | Some token =>
               exists answer,
                 rest = [Event (AxiosGetUser "https://api.github.com/user"
                                  [("Authorization", "token " +:+ token);
                                   ("Accept", "application/vnd.github.v3+json")])
                           answer]
                 /\ outcome r = Fulfilled (match answer with
                                           | Fulfilled _ => true
                                           | Rejected _ => false
                                           end)
           | None => rest = [] /\ outcome r = Fulfilled false
           end
       | Rejected _ => rest = [] /\ outcome r = Fulfilled false
       end.
Proof.
  execute h; eexists _, _; (split; [reflexivity|]); cbv beta iota;
    repeat match goal with
           | H : Js.or_undefined _ = _ |- _ => rewrite H
           end; eauto.
Qed.

(** ** importSettings *)

Lemma http_app (t1 t2 : trace) : http (t1 ++ t2)%list = (http t1 ++ http t2)%list.
Proof. apply flat_map_app. Qed.

Lemma disk_writes_app (t1 t2 : trace) :
  disk_writes (t1 ++ t2)%list = (disk_writes t1 ++ disk_writes t2)%list.
Proof. apply flat_map_app. Qed.

Lemma getConfig_run {W : Type} (h : handler W) (w : W) :
  exists c w' t,
    run h ExtensionSync.getConfig w = (Fulfilled c, w', t)
    /\ http t = [] /\ disk_writes t = [].
Proof. execute h. eauto 10. Qed.

Section Paths.

Context {W : Type} (path_join : list string -> string) (h : handler W).

Lemma getUserSettingsPath_run (w : W) :
  exists p w' t,
    run h (ExtensionSync.getUserSettingsPath path_join) w = (Fulfilled p, w', t)
    /\ http t = [] /\ disk_writes t = [].
Proof.
  unfold ExtensionSync.getUserSettingsPath. execute h; eauto 10.
Qed.

Lemma getRemoteSettingsPath_run (w : W) :
  exists out w' t,
    run h (ExtensionSync.getRemoteSettingsPath path_join) w = (out, w', t)
    /\ http t = [] /\ disk_writes t = [].
Proof.
  unfold ExtensionSync.getRemoteSettingsPath. execute h; eauto 10.
Qed.

(** The part of [importSettings] inside its [try]. *)
Lemma secondary_run (w : W) :
  exists out w' t,
    run h
      (bind (ExtensionSync.getFileContent (Some "remote-settings.json"))
         (fun remoteSettingsContent =>
            bind (ExtensionSync.getRemoteSettingsPath path_join)
              (fun remoteSettingsPath =>
                 match Js.or_undefined remoteSettingsPath with
                 | None => Ret tt
                 | Some remotePath =>
                     await (WriteFileSync remotePath remoteSettingsContent)
                 end))) w
    = (out, w', t).
Proof.
  match goal with
  | |- exists out w' t, ?x = _ => destruct x as [[out w'] t]
  end.
  eauto.
Qed.

(** C9.  The first local write of a run writes the content of the first
    fetch, the primary settings file; and the run reports success exactly
    when that write succeeded: whatever fails afterwards in the secondary
    step (its fetch, whether with 404 or any other error, the resolution of
    the local path, the local write) is swallowed. *)
Theorem importSettings_swallows_secondary_failures (w : W) :
  let r := run h (ExtensionSync.importSettings path_join) w in
  (forall path data answer rest,
      disk_writes (events r) = (path, data, answer) :: rest ->
      exists url hs file more,
        http (events r) = Get url hs (Fulfilled file) :: more
        /\ data = Base64.decode (FileData.content file))
  /\ (outcome r = Fulfilled tt <->
      exists path data rest,
        disk_writes (events r) = (path, data, Fulfilled tt) :: rest).
Proof.
  unfold ExtensionSync.importSettings.
  destruct (getConfig_run h w) as (c & w0 & t0 & E0 & Hh0 & Hd0).
  rewrite run_bind, E0.
  destruct (fetch_protocol h w0 (Some "settings.json")) as (cfg & more & _ & Hx & Hd1).
  destruct (run h (ExtensionSync.getFileContent (Some "settings.json")) w0)
    as [[out1 w1] t1] eqn:E1.
  cbn [events outcome fst snd] in Hx, Hd1.
  rewrite run_bind, E1.
  destruct out1 as [content1 | e1].
  2:{ cbn. rewrite disk_writes_app, Hd0, Hd1. cbn.
      split; [intros; discriminate|].
      split; [intros; discriminate | intros (? & ? & ? & ?); discriminate]. }
  destruct (getUserSettingsPath_run w1) as (p & w2 & t2 & E2 & Hh2 & Hd2).
  rewrite run_bind, E2, run_bind. cbn [run await].
  destruct (h _ (WriteFileSync p content1) w2) as [[[] | e3] w3] eqn:E3; cbn [run].
  2:{ cbn. rewrite !disk_writes_app, !http_app, Hd0, Hd1, Hd2, Hh0. cbn.
      split.
      - intros path data answer rest [= <- <- <- <-].
        inversion Hx; subst. cbn [app].
        eexists _, _, _, _. split; reflexivity.
      - split; [intros; discriminate | intros (? & ? & ? & ?); discriminate]. }
  rewrite run_try_catch.
  destruct (secondary_run w3) as (out4 & w4 & t4 & E4). rewrite E4.
  assert (Hfirst : forall tail,
             disk_writes
               (t0 ++ t1 ++ t2
                  ++ Event (WriteFileSync p content1) (Fulfilled tt) :: tail)%list
             = (p, content1, Fulfilled tt) :: disk_writes tail
             /\ exists url hs file more',
                  http (t0 ++ t1 ++ t2
                          ++ Event (WriteFileSync p content1) (Fulfilled tt) :: tail)%list
                  = Get url hs (Fulfilled file) :: more'
                  /\ content1 = Base64.decode (FileData.content file)).
  { intros tail.
    rewrite !disk_writes_app, !http_app, Hd0, Hd1, Hd2, Hh0. cbn.
    split; [reflexivity|]. inversion Hx; subst. cbn.
    eexists _, _, _, _. split; reflexivity. }
  destruct out4 as [[] | e4]; cbn [run app events outcome fst snd];
    rewrite ?app_nil_r.
  all: match goal with
       | |- context [(_ ++ _ ++ _ ++ _ :: ?tail)%list] =>
           destruct (Hfirst tail) as (Hd & url & hs & file & more' & Hh & Hc)
       end.
  all: rewrite Hd, Hh; split;
    [ intros path data answer rest [= <- <- <- <-]; eauto 10
    | split; [eauto 10 | reflexivity] ].
Qed.

End Paths.

Lemma importSettings_swallows_secondary_failures_witness :
  outcome (run Script.handle (ExtensionSync.importSettings (Js.join "/"))
             (Example.alice [Fulfilled Example.file; Script.network_error] []))
  = Fulfilled tt.
Proof.
  apply (proj2 (proj2 (importSettings_swallows_secondary_failures (Js.join "/")
                         Script.handle
                         (Example.alice [Fulfilled Example.file; Script.network_error] [])))).
  exists "/home/alice/.config/Code/User/settings.json", "{}", [].
  vm_compute. reflexivity.
Defined.

(** ** syncExtensions *)

Lemma snapshot_ids (installed : list Extension.t) (now version : string) :
  map ExtensionInfo.id (ExtensionsData.extensions (snapshot installed now version))
  = map Extension.id (List.filter nonBuiltin installed).
Proof.
  cbn. induction (List.filter nonBuiltin installed) as [| ext l IH]; [reflexivity|].
  cbn. f_equal. exact IH.
Qed.

Lemma snapshot_length (installed : list Extension.t) (now version : string) :
  length (ExtensionsData.extensions (snapshot installed now version))
  = length (List.filter nonBuiltin installed).
Proof. cbn. apply length_map. Qed.

(** The JSON the code builds is the JSON of the snapshot as the
    specification words it. *)
Lemma data_json_snapshot (installed : list Extension.t) (now version : string) :
  Json.stringify_indent2 (ExtensionSync.data_json (snapshot installed now version))
  = ExtensionSnapshot.serialize (ExtensionSnapshot.take installed now version).
Proof.
  unfold ExtensionSnapshot.serialize, Json.stringify_indent2. f_equal.
  unfold ExtensionSync.data_json, ExtensionSnapshot.to_json, snapshot.
  cbn [ExtensionsData.extensions ExtensionsData.lastUpdated ExtensionsData.vscodeVersion
       ExtensionSnapshot.extensions ExtensionSnapshot.lastUpdated
       ExtensionSnapshot.hostVersion ExtensionSnapshot.take].
  match goal with
  | |- context [map ?f (map ExtensionSync.toInfo ?l)] =>
      assert (Hl : map f (map ExtensionSync.toInfo l)
                   = map ExtensionSnapshot.entry_json (ExtensionSnapshot.listed installed));
      [| rewrite Hl; reflexivity]
  end.
  induction installed as [| ext more IH]; [reflexivity|].
  cbn [List.filter ExtensionSnapshot.listed]. unfold nonBuiltin at 1.
  destruct (PackageJSON.isBuiltin (Extension.packageJSON ext)); cbn [negb]; [exact IH|].
  cbn [map]. rewrite IH. reflexivity.
Qed.

(** Where the writes of [createOrUpdateFile] go and what they carry. *)
Lemma upsert_writes {W : Type} (h : handler W) (w : W)
    (content : string) (fileName : option string) :
  let r := run h (ExtensionSync.createOrUpdateFile content fileName) w in
  exists configured more,
    config_reads "fileName" (events r) = configured :: more
    /\ forall url data,
         In (url, data) (writes (events r)) ->
         (exists owner repo,
             url = ExtensionSync.contentsUrl owner repo (targetOf fileName configured))
         /\ PutData.content data = Base64.encode content.
Proof.
  execute h; reduce_more.
  all: eexists _, _; (split; [reflexivity|]).
  all: intros url data Hin; cbn in Hin.
  all: repeat match goal with
              | H : _ \/ _ |- _ => destruct H as [H | H]
              | H : False |- _ => destruct H
              | H : (_, _) = (_, _) |- _ => injection H as <- <-
              end.
  all: split; [eexists _, _; reflexivity | reflexivity].
Qed.

(** A [createOrUpdateFile] that succeeds ends with a write that was
    accepted. *)
Lemma upsert_success_writes {W : Type} (h : handler W) (w : W)
    (content : string) (fileName : option string) :
  let r := run h (ExtensionSync.createOrUpdateFile content fileName) w in
  outcome r = Fulfilled tt ->
  exists earlier url data hs,
    http (events r) = (earlier ++ [Put url data hs (Fulfilled tt)])%list
    /\ PutData.content data = Base64.encode content.
Proof.
  intros r. pose proof (upsert_protocol h w content fileName) as Hx.
  cbv zeta in Hx. fold r in Hx. clearbody r.
  remember (http (events r)) as sent eqn:Es.
  remember (outcome r) as result eqn:Eo. clear Es Eo r.
  intros ->.
  inversion Hx as [ | | url hs e data reply He Hd | | url hs first e data reply He Hd
                  | url hs first current data Hd | | url hs first current data e data' reply
                                                       Hd He Hd' ];
    subst.
  - exists [Get url hs (Rejected e)], url, data, hs. split; [reflexivity|]. apply Hd.
  - exists [Get url hs (Fulfilled first); Get url hs (Rejected e)], url, data, hs.
    split; [reflexivity|]. apply Hd.
  - exists [Get url hs (Fulfilled first); Get url hs (Fulfilled current)], url, data, hs.
    split; [reflexivity|]. apply Hd.
  - exists [Get url hs (Fulfilled first); Get url hs (Fulfilled current);
            Put url data hs (Rejected e)], url, data', hs.
    split; [reflexivity|]. apply Hd'.
Qed.

(** C7.  A run of [syncExtensions] takes the enumeration of the host, the
    time and the host version, and then is the [createOrUpdateFile], under
    no file name of its own, of the payload: the JSON, indented by two
    spaces, of the snapshot whose [extensions] are the extensions enumerated
    that are not built in, in their order, each with its id, name, version
    and description if any, whose [lastUpdated] is that time and whose host
    version is that version.  So every write of the run goes to the
    contents URL of the file name the configuration holds
    ([extensions.json] when it holds none) and carries the transport
    encoding of that payload, and a run that succeeds has ended with such a
    write, accepted. *)
Theorem syncExtensions_upserts_snapshot {W : Type} (h : handler W) (w : W) :
  let r := run h ExtensionSync.syncExtensions w in
  exists installed now version w' configured more,
    let payload :=
      ExtensionSnapshot.serialize (ExtensionSnapshot.take installed now version) in
    let upsert := run h (ExtensionSync.createOrUpdateFile payload None) w' in
    r = (outcome upsert, final upsert, (readings installed now version ++ events upsert)%list)
    /\ config_reads "fileName" (events r) = configured :: more
    /\ (forall url data,
           In (url, data) (writes (events r)) ->
           (exists owner repo,
               url = ExtensionSync.contentsUrl owner repo
                       (default "extensions.json" configured))
           /\ PutData.content data = Base64.encode payload)
    /\ (outcome r = Fulfilled tt ->
        exists earlier url data hs,
          http (events r) = (earlier ++ [Put url data hs (Fulfilled tt)])%list
          /\ PutData.content data = Base64.encode payload).
Proof.
  cbv zeta. unfold ExtensionSync.syncExtensions, ExtensionSync.getInstalledExtensions.
  cbn [run bind perform].
  destruct (h _ ExtensionsAll w) as [installed w1]. cbn [run bind perform].
  destruct (h _ DateNow w1) as [now w2]. cbn [run bind perform].
  destruct (h _ VscodeVersion w2) as [version w3].
  fold nonBuiltin. fold (snapshot installed now version).
  rewrite data_json_snapshot.
  set (payload := ExtensionSnapshot.serialize (ExtensionSnapshot.take installed now version)).
  destruct (upsert_writes h w3 payload None) as (configured & more & Hcfg & Hwrites).
  pose proof (upsert_success_writes h w3 payload None) as Hdone.
  cbv zeta in Hdone.
  exists installed, now, version, w3, configured, more. cbv zeta. fold payload.
  destruct (run h (ExtensionSync.createOrUpdateFile payload None) w3) as [[out w4] t].
  cbn [events outcome final fst snd readings app] in *.
  split; [reflexivity|]. split; [exact Hcfg|]. split; [exact Hwrites | exact Hdone].
Qed.

Lemma syncExtensions_upserts_snapshot_witness :
  let r := run Script.handle ExtensionSync.syncExtensions Scenario.world in
  outcome r = Fulfilled tt
  /\ exists installed now version earlier url data hs,
       http (events r) = (earlier ++ [Put url data hs (Fulfilled tt)])%list
       /\ PutData.content data
          = Base64.encode
              (ExtensionSnapshot.serialize (ExtensionSnapshot.take installed now version)).
Proof.
  cbv zeta. split; [vm_compute; reflexivity|].
  destruct (syncExtensions_upserts_snapshot Script.handle Scenario.world)
    as (installed & now & version & w' & configured & more & _ & _ & _ & Hdone).
  destruct Hdone as (earlier & url & data & hs & Hsent & Hcontent).
  - vm_compute. reflexivity.
  - exists installed, now, version, earlier, url, data, hs. split; assumption.
Defined.

(** The payload of the scenario, from the snapshot as the specification
    words it. *)
Example snapshot_scenario :
  ExtensionSnapshot.serialize
    (ExtensionSnapshot.take [Scenario.python; Scenario.git; Scenario.go]
       "2024-05-01T10:00:00.000Z" "1.90.0")
  = Scenario.payload.
Proof. vm_compute. reflexivity. Qed.

Example syncExtensions_scenario :
  writes (events (run Script.handle ExtensionSync.syncExtensions Scenario.world))
  = [("https://api.github.com/repos/alice/my-exts/contents/extensions.json",
      {| PutData.message := "Create extensions.json - 2024-05-01T10:00:00.000Z";
         PutData.content := Base64.encode Scenario.payload;
         PutData.sha := None |})].
Proof. vm_compute. reflexivity. Qed.

(** ** Round trip through the remote store *)

Ltac hreduce :=
  cbn [run bind try_catch await perform ExtensionSync.settle
       ExtensionSync.createOrUpdateFile ExtensionSync.getFileContent
       ExtensionSync.getConfig ExtensionSync.getGitHubToken
       ExtensionSync.getRepository GitHubAuth.getStoredToken
       GitHubAuth.config_get GitHubAuth.getOAuth2Client GitHubAuth.getGitHubUser
       GitHubAuth.saveToken GitHubAuth.generateState GitHubAuth.setupOAuthApp
       Host.handle GitHub.handle
       Host.settings Host.secrets Host.disk Host.environ Host.platform
       Host.set_settings Host.set_secrets Host.set_disk
       PutData.sha PutData.content FileData.sha FileData.content
       events outcome final fst snd from_option id
       http writes request_of write_of answers answer_of flat_map app
       Config.repository Config.fileName negb orb andb] in *.

(** What is already known about the next test is used before any case
    analysis. *)
Ltac known :=
  match goal with
  | H : ?x = ?v |- context [match ?x with _ => _ end] => rewrite H
  | H : ?x = ?v |- context [ExtensionSync.settle ?x] => rewrite H
  | H : ?m !! ?k = ?v |- context [?m !! ?k] => rewrite H
  | H : Js.is_empty ?s = _ |- context [Js.is_empty ?s] => rewrite H
  | |- context [<[?k:=?v]> ?m !! ?k] => rewrite (lookup_insert_eq m k v)
  | |- context [<[?k:=?v]> ?m !! ?k'] =>
      rewrite (lookup_insert_ne m k k' v) by discriminate
  end.

Ltac split_on x :=
  lazymatch x with
  | context [match ?y with _ => _ end] => split_on y
  | _ => destruct x eqn:?
  end.

Ltac hstep outside :=
  first
    [ known
    | match goal with
      | |- context [outside ?X ?op ?w] =>
          let x := fresh "x" in
          let w' := fresh "w" in
          destruct (outside X op w) as [x w'] eqn:?
      end
    | match goal with
      | |- context [ExtensionSync.settle ?x] => destruct x eqn:?
      end
    | match goal with
      | |- context [match ?x with _ => _ end] =>
          lazymatch x with
          | context [@run] => fail
          | context [outside] => fail
          | _ => split_on x
          end
      end ];
  hreduce.

Lemma put_fulfilled (blob_sha : string -> string) (url : string) (data : PutData.t)
    (files g : gmap string FileData.t) (a : unit) :
  GitHub.put blob_sha url data files = (Fulfilled a, g) ->
  g = <[url := GitHub.stored blob_sha (PutData.content data)]> files.
Proof.
  unfold GitHub.put.
  destruct (files !! url) as [file|], (PutData.sha data) as [token|];
    try destruct (String.eqb token (FileData.sha file));
    intros ?; simplify_eq; reflexivity.
Qed.

Lemma falsy_false (x : option string) :
  Js.falsy x = false -> exists s, x = Some s /\ Js.is_empty s = false.
Proof. destruct x as [s|]; [eauto | discriminate]. Qed.

Section RemoteStore.

Context {E : Type} (blob_sha : string -> string) (layout : string -> string).
Context (outside : handler E).

(** The layout adds nothing but characters outside the base64 alphabet. *)
Hypothesis layout_transparent :
  forall text, Base64.sextets (layout text) = Base64.sextets text.

Lemma upsert_leaves_synced (host : Host.t) (files : gmap string FileData.t) (e : E)
    (content : string) (fileName : option string) :
  let r := run (Host.handle (GitHub.handle blob_sha layout outside))
             (ExtensionSync.createOrUpdateFile content fileName) (host, (files, e)) in
  outcome r = Fulfilled tt ->
  synced blob_sha fileName content (final r).
Proof.
  cbv zeta. hreduce. repeat hstep outside.
  all: try discriminate.
  all: intros _.
  all: match goal with
       | H : GitHub.put _ _ _ _ = _ |- _ => apply put_fulfilled in H as ->
       end.
  all: unfold synced, targetOf; hreduce.
  all: repeat match goal with
         | H : Js.falsy ?x = false |- _ =>
             apply falsy_false in H as (? & -> & ?)
         | H : Js.is_empty (default "" (?m !! ?k)) = false |- _ =>
             destruct (m !! k) eqn:?; [|discriminate H]
         end; hreduce.
  all: eexists _, _, _, _; split_and!; try eassumption.
  all: rewrite ?lookup_insert_eq, ?(lookup_insert_ne (Host.settings host)) by discriminate;
       try reflexivity.
  all: apply lookup_insert_eq.
Qed.

Lemma fetch_of_synced (w : Host.t * (gmap string FileData.t * E))
    (content : string) (fileName : option string) :
  synced blob_sha fileName content w ->
  outcome (run (Host.handle (GitHub.handle blob_sha layout outside))
             (ExtensionSync.getFileContent fileName) w)
  = Fulfilled content.
Proof.
  destruct w as [host [files e]].
  intros (token & repository & owner & repo & Ht & Hr & Hne & Hp & Hf).
  unfold targetOf in Hf. hreduce. repeat hstep outside.
  cbn [FileData.content GitHub.stored GitHub.served]. unfold Base64.decode.
  rewrite layout_transparent. fold (Base64.decode (Base64.encode content)).
  rewrite Base64Facts.decode_encode. reflexivity.
Qed.

(** C3.  On a host whose requests go to the remote store, with nobody else
    writing to it and with a layout of the served content that adds only
    characters outside the base64 alphabet: when [createOrUpdateFile] of a
    content under a file name succeeds, [getFileContent] of the same file
    name in the state it left returns that content, byte for byte; whether
    the store held the file before or not, and whatever the prompts and the
    clock answer. *)
Theorem upsert_then_fetch_roundtrip (host : Host.t) (files : gmap string FileData.t)
    (e : E) (content : string) (fileName : option string) :
  let H := Host.handle (GitHub.handle blob_sha layout outside) in
  let r := run H (ExtensionSync.createOrUpdateFile content fileName) (host, (files, e)) in
  outcome r = Fulfilled tt ->
  outcome (run H (ExtensionSync.getFileContent fileName) (final r)) = Fulfilled content.
Proof.
  intros H r Hok. apply fetch_of_synced, upsert_leaves_synced, Hok.
Qed.

End RemoteStore.

Lemma wrap_transparent (width room : nat) (text : string) :
  Base64.sextets (GitHub.wrap width room text) = Base64.sextets text.
Proof.
  revert room. induction text as [| c rest IH]; intros room; [reflexivity|].
  destruct room as [| room']; cbn [GitHub.wrap Base64.sextets].
  - change (Base64.value "010"%char) with (@None nat). cbn [Base64.sextets].
    rewrite IH. reflexivity.
  - rewrite IH. reflexivity.
Qed.

Lemma upsert_then_fetch_roundtrip_witness :
  (outcome (run RoundTrip.handle
              (ExtensionSync.createOrUpdateFile Example.settingsText (Some "settings.json"))
              RoundTrip.fresh) = Fulfilled tt
   /\ outcome (run RoundTrip.handle (ExtensionSync.getFileContent (Some "settings.json"))
                 (final (run RoundTrip.handle
                           (ExtensionSync.createOrUpdateFile Example.settingsText
                              (Some "settings.json"))
                           RoundTrip.fresh)))
      = Fulfilled Example.settingsText)
  /\ (outcome (run RoundTrip.handle
                 (ExtensionSync.createOrUpdateFile Example.settingsText (Some "settings.json"))
                 RoundTrip.existing) = Fulfilled tt
      /\ outcome (run RoundTrip.handle (ExtensionSync.getFileContent (Some "settings.json"))
                    (final (run RoundTrip.handle
                              (ExtensionSync.createOrUpdateFile Example.settingsText
                                 (Some "settings.json"))
                              RoundTrip.existing)))
         = Fulfilled Example.settingsText).
Proof.
  split; (split; [vm_compute; reflexivity|]).
  - apply (upsert_then_fetch_roundtrip RoundTrip.blob_sha GitHub.wrap60 Script.handle
             (wrap_transparent 60 60)
             RoundTrip.host ∅ (Example.alice [] [])
             Example.settingsText (Some "settings.json")).
    vm_compute. reflexivity.
  - apply (upsert_then_fetch_roundtrip RoundTrip.blob_sha GitHub.wrap60 Script.handle
             (wrap_transparent 60 60)
             RoundTrip.host {[ Example.url := GitHub.stored RoundTrip.blob_sha "e30=" ]}
             (Example.alice [] [])
             Example.settingsText (Some "settings.json")).
    vm_compute. reflexivity.
Defined.

Example roundtrip_existing_updates :
  http (events (run RoundTrip.handle
                  (ExtensionSync.createOrUpdateFile Example.settingsText (Some "settings.json"))
                  RoundTrip.existing))
  = [Get Example.url Example.hs (Fulfilled (GitHub.stored RoundTrip.blob_sha "e30="));
     Get Example.url Example.hs (Fulfilled (GitHub.stored RoundTrip.blob_sha "e30="));
     Put Example.url
       {| PutData.message := "Update settings.json - 2024-05-01T10:00:00.000Z";
          PutData.content := "eyJhIjoxfQ==";
          PutData.sha := Some "sha1:e30=" |}
       Example.hs (Fulfilled tt)].
Proof. vm_compute. reflexivity. Qed.

Example wrapped_payload_decodes :
  String.length (Base64.encode Scenario.payload) = 416%nat
  /\ String.length (GitHub.wrap60 (Base64.encode Scenario.payload)) = 422%nat
  /\ Base64.decode (GitHub.wrap60 (Base64.encode Scenario.payload)) = Scenario.payload.
Proof. vm_compute. repeat split. Qed.

(** ** login *)

Example login_succeeds :
  let r := Login.run
             (Login.user [("clientId", "Iv1.8a61f9b3a7aba766"); ("clientSecret", "5ecr3t")]
                [Some "c0de"]
                [Fulfilled {| GitHubTokenResponse.access_token := "gho_16C7e42F292c";
                              GitHubTokenResponse.token_type := "bearer";
                              GitHubTokenResponse.scope := "repo,user" |}]
                [Fulfilled {| GitHubUser.login := "alice"; GitHubUser.id := 583231;
                              GitHubUser.avatar_url := "https://avatars.example/u/583231";
                              GitHubUser.name := None; GitHubUser.email := None |}]) in
  outcome r = Fulfilled true
  /\ Host.secrets (final r).1 !! "github-token" = Some "gho_16C7e42F292c".
Proof. vm_compute. split; reflexivity. Qed.

(** C4, as stated, fails: the user enters a client id and dismisses the
    prompt for the client secret; the flow aborts and the client id entered
    is not saved. *)
Lemma login_aborted_loses_client_id :
  let r := Login.run (Login.user [] [Some "Iv1.8a61f9b3a7aba766"; None] [] []) in
  outcome r = Fulfilled false
  /\ answers (events r)
     = [(clientIdPrompt, Some "Iv1.8a61f9b3a7aba766"); (clientSecretPrompt, None)]
  /\ ~ Host.settings (final r).1 !! "clientId" = Some "Iv1.8a61f9b3a7aba766".
Proof.
  cbv zeta. split; [vm_compute; reflexivity|]. split; [vm_compute; reflexivity|].
  vm_compute. discriminate.
Qed.

Section Login.

Context {E : Type} (outside : handler E).
Context (authorizeURL : OAuth2Client.t -> string -> string -> string -> string).

(** C4, amended.  On a host with reliable stores, when [login] ends in
    failure (a prompt dismissed, the configuration still missing, the
    browser not opened, the token exchange or the identity lookup failed)
    the secret storage is what it was before the run, so no credential is
    persisted.  When the user entered both a client id and a client secret
    during the run, both are saved in the settings at the end of the run;
    when the prompt for the client secret was dismissed, the settings are
    what they were and a client id entered before is not saved. *)
Theorem login_aborted_persists_no_credential (host : Host.t) (e : E) :
  let r := run (Host.handle outside) (GitHubAuth.login authorizeURL) (host, e) in
  outcome r = Fulfilled false ->
  Host.secrets (final r).1 = Host.secrets host
  /\ (forall clientId clientSecret more,
         answers (events r)
         = (clientIdPrompt, Some clientId) :: (clientSecretPrompt, Some clientSecret) :: more ->
         Js.is_empty clientId = false ->
         Js.is_empty clientSecret = false ->
         Host.settings (final r).1
         = <["clientSecret" := clientSecret]> (<["clientId" := clientId]> (Host.settings host)))
  /\ (forall clientId more,
         answers (events r)
         = (clientIdPrompt, Some clientId) :: (clientSecretPrompt, None) :: more ->
         Host.settings (final r).1 = Host.settings host).
Proof.
  unfold GitHubAuth.login. cbv zeta. hreduce. repeat hstep outside.
  all: try discriminate.
  all: intros _; (split; [reflexivity|]).
  all: split; [intros clientId clientSecret more Ha | intros clientId more Ha].
  all: try discriminate Ha.
  all: unfold clientIdPrompt, clientSecretPrompt in Ha; injection Ha as Ha1 Ha2.
  all: subst; try discriminate; try reflexivity.
  all: try (intros; reflexivity).
  all: try (cbn in *; congruence).
Qed.

End Login.

Lemma login_aborted_persists_no_credential_witness :
  let r := Login.run
             (Login.user [] [Some "Iv1.8a61f9b3a7aba766"; Some "5ecr3t"] [] []) in
  outcome r = Fulfilled false
  /\ Host.secrets (final r).1 = Host.secrets Login.host
  /\ Host.settings (final r).1
     = <["clientSecret" := "5ecr3t"]>
         (<["clientId" := "Iv1.8a61f9b3a7aba766"]> (Host.settings Login.host)).
Proof.
  cbv zeta.
  assert (Haborted :
            outcome (Login.run
                       (Login.user [] [Some "Iv1.8a61f9b3a7aba766"; Some "5ecr3t"] [] []))
            = Fulfilled false) by (vm_compute; reflexivity).
  split; [exact Haborted|].
  destruct (login_aborted_persists_no_credential Script.handle Login.authorizeURL
              Login.host
              (Login.user [] [Some "Iv1.8a61f9b3a7aba766"; Some "5ecr3t"] [] [])
              Haborted)
    as (Hsecrets & Hsaved & _).
  split; [exact Hsecrets|].
  apply (Hsaved "Iv1.8a61f9b3a7aba766" "5ecr3t" []); reflexivity.
Defined.

(** ** importSettings on the host *)

Section Host.

Context {E : Type} (outside : handler E).

(** The host never changes the process environment, and its files change
    by the local writes of the run only. *)
Lemma host_frame {A : Type} (p : prog A) (host : Host.t) (e : E) :
  let r := run (Host.handle outside) p (host, e) in
  Host.environ (final r).1 = Host.environ host
  /\ Host.platform (final r).1 = Host.platform host
  /\ Host.disk (final r).1 = written (Host.disk host) (disk_writes (events r)).
Proof.
  revert host e. induction p as [a | err | X op k IH]; intros host e.
  - cbn. auto.
  - cbn. auto.
  - cbn [run]. 
    destruct (Host.handle outside X op (host, e)) as [x [host1 e1]] eqn:Hop.
    specialize (IH x host1 e1). cbv zeta in IH.
    destruct (run (Host.handle outside) (k x) (host1, e1)) as [[out w2] t2].
    cbn [final events fst snd] in *.
    destruct IH as (Henv & Hplat & Hdisk).
    rewrite Henv, Hplat, Hdisk. clear Henv Hplat Hdisk.
    destruct op; cbn in Hop;
      try (destruct (outside _ _ e) as [y e'] eqn:Hout);
      simplify_eq; cbn; auto.
Qed.

Lemma host_unchanged_by_reads {A : Type} (p : prog A) (host : Host.t) (e : E) :
  let r := run (Host.handle outside) p (host, e) in
  disk_writes (events r) = [] ->
  Host.environ (final r).1 = Host.environ host
  /\ Host.platform (final r).1 = Host.platform host
  /\ Host.disk (final r).1 = Host.disk host.
Proof.
  intros r Hnone. destruct (host_frame p host e) as (Henv & Hplat & Hdisk).
  fold r in Henv, Hplat, Hdisk. rewrite Hnone in Hdisk. auto.
Qed.

(** A fetch that got as far as its request leaves the host ready, and from
    a ready host a fetch always makes its request. *)
Lemma host_fetch_ready (fileName : option string) (host : Host.t) (e : E) :
  let r := run (Host.handle outside) (ExtensionSync.getFileContent fileName) (host, e) in
  http (events r) <> [] ->
  ready (final r).
Proof.
  cbv zeta. hreduce. repeat hstep outside.
  all: try (intros Hnone; exfalso; apply Hnone; reflexivity).
  all: intros _; unfold ready; hreduce.
  all: repeat match goal with
         | H : Js.falsy ?x = false |- _ =>
             apply falsy_false in H as (? & -> & ?)
         | H : Js.is_empty (default "" (?m !! ?k)) = false |- _ =>
             destruct (m !! k) eqn:?; [|discriminate H]
         end; hreduce.
  all: eexists _, _, _, _; split_and!; try eassumption.
  all: rewrite ?lookup_insert_eq; reflexivity.
Qed.

Lemma host_ready_fetch (fileName : option string) (w : Host.t * E) :
  ready w ->
  exists url hs reply,
    http (events (run (Host.handle outside) (ExtensionSync.getFileContent fileName) w))
    = [Get url hs reply].
Proof.
  destruct w as [host e].
  intros (token & repository & owner & repo & Ht & Hr & Hne & Hp).
  hreduce. repeat hstep outside; eauto.
Qed.

Context (path_join : list string -> string).

Ltac hpaths :=
  unfold ExtensionSync.getUserSettingsPath, ExtensionSync.getRemoteSettingsPath;
  hreduce.

(** On the host, the two path functions are functions of the process
    environment and of the files, and change nothing. *)
Lemma host_getUserSettingsPath (host host' : Host.t) (e e' : E) :
  Host.environ host' = Host.environ host ->
  Host.platform host' = Host.platform host ->
  exists p t,
    outcome (run (Host.handle outside) (ExtensionSync.getUserSettingsPath path_join)
               (host, e)) = Fulfilled p
    /\ run (Host.handle outside) (ExtensionSync.getUserSettingsPath path_join) (host', e')
       = (Fulfilled p, (host', e'), t)
    /\ http t = [] /\ disk_writes t = [].
Proof.
  intros Henv Hplat. hpaths.
  repeat (rewrite ?Henv, ?Hplat; hstep outside).
  all: eauto 10.
Qed.

Lemma host_getRemoteSettingsPath (host host' : Host.t) (e e' : E) :
  Host.environ host' = Host.environ host ->
  Host.disk host' = Host.disk host ->
  exists t,
    run (Host.handle outside) (ExtensionSync.getRemoteSettingsPath path_join) (host', e')
    = (outcome (run (Host.handle outside) (ExtensionSync.getRemoteSettingsPath path_join)
                  (host, e)),
       (host', e'), t)
    /\ http t = [] /\ disk_writes t = [].
Proof.
  intros Henv Hdisk. hpaths.
  repeat (rewrite ?Henv, ?Hdisk; hstep outside).
  all: eauto 10.
Qed.

End Host.

Section ImportOnHost.

Context {E : Type} (outside : handler E) (path_join : list string -> string).

(** C6.  On a host with reliable stores, take a run of [importSettings]
    whose first fetch succeeds.  That fetch asks for [settings.json], its
    content is written to the user settings path, and a second fetch is
    made, which asks for [remote-settings.json].  If the second fetch
    fails (with 404: the file is
    absent; or otherwise), the run succeeds and the local files are the
    former ones with that one write.  If the second fetch succeeds, the run
    succeeds too, and when [getRemoteSettingsPath], in the state after the
    first write, resolves to a path, the content fetched is written there as
    well; when it resolves to none, nothing more is written. *)
Theorem importSettings_on_host (host : Host.t) (e : E)
    (url : string) (hs : headers) (file : FileData.t) (rest : list request) :
  let H := Host.handle outside in
  let r := run H (ExtensionSync.importSettings path_join) (host, e) in
  http (events r) = Get url hs (Fulfilled file) :: rest ->
  exists userSettingsPath owner repo,
    url = ExtensionSync.contentsUrl owner repo "settings.json"
    /\ outcome (run H (ExtensionSync.getUserSettingsPath path_join) (host, e))
       = Fulfilled userSettingsPath
    /\ (exists url2 hs2 reply2 owner2 repo2,
           rest = [Get url2 hs2 reply2]
           /\ url2 = ExtensionSync.contentsUrl owner2 repo2 "remote-settings.json")
    /\ let primary :=
         <[userSettingsPath := Base64.decode (FileData.content file)]> (Host.disk host) in
       (forall url2 hs2 e2,
           rest = [Get url2 hs2 (Rejected e2)] ->
           outcome r = Fulfilled tt /\ Host.disk (final r).1 = primary)
       /\ (forall url2 hs2 file2 resolved,
           rest = [Get url2 hs2 (Fulfilled file2)] ->
           outcome (run H (ExtensionSync.getRemoteSettingsPath path_join)
                      (Host.set_disk (fun _ => primary) host, e))
           = Fulfilled resolved ->
           outcome r = Fulfilled tt
           /\ Host.disk (final r).1
              = match Js.or_undefined resolved with
                | Some remotePath =>
                    <[remotePath := Base64.decode (FileData.content file2)]> primary
                | None => primary
                end).
Proof.
  intros H r Hhttp.
  assert (Er : r = run H (ExtensionSync.importSettings path_join) (host, e)) by reflexivity.
  clearbody r. unfold ExtensionSync.importSettings in Er.
  (* getConfig *)
  destruct (getConfig_run H (host, e)) as (c & [host0 e0] & t0 & E0 & Hh0 & Hd0).
  pose proof (host_unchanged_by_reads outside ExtensionSync.getConfig host e) as F0.
  cbv zeta in F0. fold H in F0. rewrite E0 in F0.
  destruct (F0 Hd0) as (Fe0 & Fp0 & Fd0). clear F0. cbn [final fst snd] in Fe0, Fp0, Fd0.
  rewrite run_bind, E0 in Er.
  (* the primary fetch *)
  destruct (fetch_protocol H (host0, e0) (Some "settings.json"))
    as (cfg & more & _ & Hx1 & Hd1).
  pose proof (host_unchanged_by_reads outside
                (ExtensionSync.getFileContent (Some "settings.json")) host0 e0) as F1.
  cbv zeta in F1. fold H in F1.
  destruct (run H (ExtensionSync.getFileContent (Some "settings.json")) (host0, e0))
    as [[out1 [host1 e1]] t1] eqn:E1.
  cbn [events outcome final fst snd] in Hx1, Hd1, F1.
  destruct (F1 Hd1) as (Fe1 & Fp1 & Fd1). clear F1.
  rewrite run_bind, E1 in Er.
  destruct out1 as [content1 | err1].
  2:{ subst r. cbn [events snd] in Hhttp. rewrite http_app, Hh0 in Hhttp.
      inversion Hx1 as [? Hn | | ? ? ? ? ? Hn | ? ? ? ? ? Hn];
        rewrite <- Hn in Hhttp; discriminate Hhttp. }
  (* the user settings path and the first write *)
  destruct (host_getUserSettingsPath outside path_join host host1 e e1)
    as (p1 & t2 & Hp1 & E2 & Hh2 & Hd2); [congruence | congruence |].
  fold H in Hp1, E2.
  rewrite run_bind, E2, run_bind in Er. cbn [run await] in Er.
  unfold H at 1 in Er. cbn [Host.handle fst snd] in Er. fold H in Er.
  cbn [run] in Er.
  set (host3 := Host.set_disk (insert p1 content1) host1) in Er.
  match type of Er with
  | context [run H ?secondary (host3, e1)] =>
      destruct (run H secondary (host3, e1)) as [[out5 [host5 e5]] t5] eqn:E5
  end.
  subst r. cbn [events outcome final fst snd] in *.
  rewrite !http_app, Hh0, Hh2 in Hhttp.
  inversion Hx1 as [| owner repo hs1 file1 Hh1 Hc1 | |]. subst content1.
  rewrite <- Hh1 in Hhttp. cbn [targetOf Js.or_else Js.is_empty app] in Hhttp.
  injection Hhttp as <- <- <- <-.
  exists p1, owner, repo. split; [reflexivity|]. split; [exact Hp1|].
  cbv zeta.
  assert (Hdisk3 : Host.disk host3
                   = <[p1 := Base64.decode (FileData.content file1)]> (Host.disk host)).
  { subst host3. cbn [Host.disk Host.set_disk]. congruence. }
  assert (Henv3 : Host.environ host3 = Host.environ host).
  { subst host3. cbn [Host.environ Host.set_disk]. congruence. }
  assert (Hready3 : ready (host3, e1)).
  { pose proof (host_fetch_ready outside (Some "settings.json") host0 e0) as Hready.
    cbv zeta in Hready. fold H in Hready. rewrite E1 in Hready.
    cbn [events final fst snd] in Hready. rewrite <- Hh1 in Hready.
    destruct (Hready ltac:(discriminate)) as (tk & rp & o & n & ? & ? & ? & ?).
    exists tk, rp, o, n. subst host3. cbn [Host.secrets Host.settings Host.set_disk fst].
    auto. }
  clearbody host3.
  (* the secondary step *)
  rewrite run_try_catch, run_bind in E5.
  destruct (fetch_protocol H (host3, e1) (Some "remote-settings.json"))
    as (cfg2 & more2 & _ & Hx4 & Hd4).
  pose proof (host_unchanged_by_reads outside
                (ExtensionSync.getFileContent (Some "remote-settings.json")) host3 e1) as F4.
  destruct (host_ready_fetch outside (Some "remote-settings.json") (host3, e1) Hready3)
    as (url2 & hs2 & reply2 & Hq).
  cbv zeta in F4. fold H in F4, Hq.
  destruct (run H (ExtensionSync.getFileContent (Some "remote-settings.json")) (host3, e1))
    as [[out4 [host4 e4]] t4] eqn:E4.
  cbn [events outcome final fst snd] in Hx4, Hd4, F4, Hq.
  destruct (F4 Hd4) as (Fe4 & Fp4 & Fd4). clear F4.
  assert (Hsecond : exists owner2 repo2,
             url2 = ExtensionSync.contentsUrl owner2 repo2 "remote-settings.json").
  { rewrite Hq in Hx4. inversion Hx4; subst; eauto. }
  destruct Hsecond as (owner2 & repo2 & Hurl2).
  destruct out4 as [content2 | err4].
  2:{ cbn in E5. injection E5 as <- <- <- <-. rewrite app_nil_r, Hq.
      split; [eauto 10|]. split.
      - intros ? ? e2 _. split; [reflexivity|]. cbn. congruence.
      - intros ? ? file2 resolved [= -> -> ->].
        rewrite Hq in Hx4. inversion Hx4. }
  rewrite Hq in Hx4.
  inversion Hx4 as [| owner2' repo2' hs2' file2' Hh4 Hc4 | |]. subst content2 reply2.
  destruct (host_getRemoteSettingsPath outside path_join
              (Host.set_disk
                 (fun _ => <[p1 := Base64.decode (FileData.content file1)]> (Host.disk host))
                 host)
              host4 e e4)
    as (t6 & E6 & Hh6 & Hd6).
  { cbn [Host.environ Host.set_disk]. congruence. }
  { cbn [Host.disk Host.set_disk]. congruence. }
  fold H in E6. rewrite run_bind, E6 in E5. clear E6.
  destruct (outcome (run H (ExtensionSync.getRemoteSettingsPath path_join)
                       (Host.set_disk
                          (fun _ => <[p1 := Base64.decode (FileData.content file1)]>
                                      (Host.disk host)) host, e)))
    as [found | err6] eqn:Hres.
  2:{ cbn in E5. injection E5 as <- <- <- <-.
      rewrite !http_app, Hq, Hh6. cbn [app].
      split; [eauto 10|].
      split; [intros ? ? e2 [=] |].
      intros ? ? file2 resolved _ [=]. }
  destruct (Js.or_undefined found) as [remotePath |] eqn:Hfound.
  - cbn [run await] in E5. unfold H at 1 in E5. cbn [Host.handle fst snd run] in E5.
    injection E5 as <- <- <- <-.
    rewrite !http_app, Hq, Hh6. cbn [app http flat_map request_of].
    split; [eauto 10|].
    split; [intros ? ? e2 [=] |].
    intros ? ? file2 resolved [= <- <- <-] [= <-].
    split; [reflexivity|].
    rewrite Hfound. cbn [Host.disk Host.set_disk final fst snd]. congruence.
  - cbn [run] in E5. injection E5 as <- <- <- <-.
    rewrite !http_app, Hq, Hh6. cbn [app http flat_map request_of].
    split; [eauto 10|].
    split; [intros ? ? e2 [=] |].
    intros ? ? file2 resolved [= <- <- <-] [= <-].
    split; [reflexivity|].
    rewrite Hfound. cbn [final fst snd]. congruence.
Qed.

End ImportOnHost.

Lemma importSettings_on_host_witness :
  let r := run (Host.handle Script.handle) (ExtensionSync.importSettings (Js.join "/"))
             (RoundTrip.host,
              Example.alice [Fulfilled Example.file; Rejected Example.absent] []) in
  outcome r = Fulfilled tt
  /\ Host.disk (final r).1 = {[ "/home/alice/.config/Code/User/settings.json" := "{}" ]}.
Proof.
  cbv zeta.
  destruct (importSettings_on_host Script.handle (Js.join "/") RoundTrip.host
              (Example.alice [Fulfilled Example.file; Rejected Example.absent] [])
              Example.url [("Authorization", "token gho_16C7e42F292c")] Example.file
              [Get "https://api.github.com/repos/alice/my-exts/contents/remote-settings.json"
                 [("Authorization", "token gho_16C7e42F292c")] (Rejected Example.absent)])
    as (p & owner & repo & _ & Hp & _ & Habsent & _).
  { vm_compute. reflexivity. }
  destruct (Habsent _ _ _ eq_refl) as [Hout Hdisk].
  split; [exact Hout|]. rewrite Hdisk.
  vm_compute in Hp. injection Hp as <-. vm_compute. reflexivity.
Defined.

(** The settings scenario: the local file is uploaded, no remote-connected
    settings path exists so nothing else is, and the import that follows
    writes the same text back and completes although the secondary file is
    absent. *)
Example settings_scenario :
  let path := "/home/alice/.config/Code/User/settings.json" in
  let start := (Host.set_disk (insert path Example.settingsText) RoundTrip.host,
                (∅, Example.alice [] [])) in
  let r1 := run RoundTrip.handle (ExtensionSync.syncSettings (Js.join "/")) start in
  let r2 := run RoundTrip.handle (ExtensionSync.importSettings (Js.join "/")) (final r1) in
  outcome r1 = Fulfilled tt
  /\ map fst (writes (events r1)) = [Example.url]
  /\ outcome r2 = Fulfilled tt
  /\ Host.disk (final r2).1 !! path = Some Example.settingsText.
Proof. vm_compute. repeat split. Qed.

(** ** Repository coordinates *)

Lemma split_cut (sep : ascii) (s : string) :
  Js.split sep s
  = match cutAtFirst sep s with
    | Some (before, after) => before :: Js.split sep after
    | None => [s]
    end.
Proof.
  induction s as [| c rest IH]; cbn; [reflexivity|].
  destruct (Ascii.eqb c sep); [reflexivity|].
  rewrite IH. destruct (cutAtFirst sep rest) as [[before after]|]; reflexivity.
Qed.

Lemma cut_occurrences (sep : ascii) (s : string) :
  match cutAtFirst sep s with
  | Some (_, after) => occurrences sep s = S (occurrences sep after)
  | None => occurrences sep s = 0%nat
  end.
Proof.
  induction s as [| c rest IH]; cbn; [reflexivity|].
  destruct (Ascii.eqb c sep); [reflexivity|].
  destruct (cutAtFirst sep rest) as [[before after]|]; exact IH.
Qed.

(** What the destructuring of [repository.split('/')] and the guard do: the
    owner is the text before the first ["/"], the repository name the text
    between the first and the second. *)
Lemma ownerAndRepo_segments (s : string) :
  ExtensionSync.ownerAndRepo s
  = match cutAtFirst "/" s with
    | Some (owner, rest) =>
        if Js.is_empty owner || Js.is_empty (upToSlash rest) then Rejected formatError
        else Fulfilled (owner, upToSlash rest)
    | None => Rejected formatError
    end.
Proof.
  unfold ExtensionSync.ownerAndRepo, upToSlash. rewrite split_cut.
  destruct (cutAtFirst "/" s) as [[owner rest]|];
    [| cbn; rewrite orb_true_r; reflexivity].
  rewrite split_cut.
  destruct (cutAtFirst "/" rest) as [[before after]|]; cbn;
    destruct (Js.is_empty owner); reflexivity.
Qed.

Example coordinates_valid :
  ExtensionSync.ownerAndRepo "alice/my-exts" = Fulfilled ("alice", "my-exts").
Proof. reflexivity. Qed.

Example coordinates_no_separator :
  ExtensionSync.ownerAndRepo "alice" = Rejected formatError.
Proof. reflexivity. Qed.

Example coordinates_empty_repo :
  ExtensionSync.ownerAndRepo "alice/" = Rejected formatError.
Proof. reflexivity. Qed.

Example coordinates_empty_segment :
  ExtensionSync.ownerAndRepo "alice//exts" = Rejected formatError.
Proof. reflexivity. Qed.

(** For a string with at most one ["/"], parsing is the cut at the first
    ["/"]: it succeeds exactly when both parts are non-empty and yields them
    unchanged, and fails with the format error otherwise.  For any string,
    parsing fails with the format error when the text before the first ["/"]
    or the text between the first and the second ["/"] is empty, and a
    success always yields two non-empty parts. *)
Lemma ownerAndRepo_single_separator (s : string) :
  ((occurrences "/" s <= 1)%nat ->
   ExtensionSync.ownerAndRepo s = parseAtFirstSlash s)
  /\ (forall owner rest,
         cutAtFirst "/" s = Some (owner, rest) ->
         Js.is_empty owner || Js.is_empty (upToSlash rest) = true ->
         ExtensionSync.ownerAndRepo s = Rejected formatError)
  /\ (forall owner repo,
         ExtensionSync.ownerAndRepo s = Fulfilled (owner, repo) ->
         Js.is_empty owner = false /\ Js.is_empty repo = false).
Proof.
  rewrite ownerAndRepo_segments. unfold parseAtFirstSlash.
  pose proof (cut_occurrences "/" s) as Hs.
  destruct (cutAtFirst "/" s) as [[owner rest]|].
  - split; [|split].
    + intros Hone. unfold upToSlash.
      pose proof (cut_occurrences "/" rest) as Hrest.
      destruct (cutAtFirst "/" rest) as [[before after]|]; [lia | reflexivity].
    + intros owner' rest' [= <- <-] ->. reflexivity.
    + intros owner' repo.
      destruct (Js.is_empty owner) eqn:Ho, (Js.is_empty (upToSlash rest)) eqn:Hr;
        cbn; intros [=]; subst; auto.
  - split; [reflexivity|]. split; [intros ? ? [=] | intros ? ? [=]].
Qed.

(** C2.  The guard on the repository name misses the name with a third
    segment.  ["alice/my-exts/extra"] is not rejected: it is taken for the
    owner [alice] and the name [my-exts], as ["alice/my-exts"] is, and
    [getFileContent] with that name configured asks the repository
    [alice/my-exts] for the file and returns what it holds.  The text after
    the second ["/"] is dropped without a word, where the cut at the first
    ["/"] keeps it in the name. *)
Theorem ownerAndRepo_drops_extra_segment :
  ExtensionSync.ownerAndRepo "alice/my-exts/extra" = Fulfilled ("alice", "my-exts")
  /\ ExtensionSync.ownerAndRepo "alice/my-exts/extra"
     = ExtensionSync.ownerAndRepo "alice/my-exts"
  /\ parseAtFirstSlash "alice/my-exts/extra" = Fulfilled ("alice", "my-exts/extra")
  /\ (let r := run Script.handle (ExtensionSync.getFileContent (Some "settings.json"))
                 ExtraSegment.world in
      map url_of (http (events r))
      = ["https://api.github.com/repos/alice/my-exts/contents/settings.json"]
      /\ outcome r = Fulfilled "{}").
Proof.
  split; [reflexivity|]. split; [reflexivity|]. split; [reflexivity|].
  cbv zeta. split; vm_compute; reflexivity.
Qed.

(** * Further properties *)

(** ** What createOrUpdateFile and getFileContent send, and what they leave alone *)

Ltac reduce2 :=
  reduce;
  cbn [secret_reads secret_read_of secret_writes secret_write_of
       config_writes config_write_of notifications notification_of
       identity_lookups identity_lookup_of config_reads config_read_of
       String.eqb Ascii.eqb Bool.eqb targetOf stored_token
       headers_of url_of error_of flat_map app length] in *.

Ltac step2 h := step h; reduce2.

(** A prompt that was answered with a non-empty string was answered. *)
Ltac entered :=
  repeat match goal with
         | H : Js.falsy ?x = false |- _ =>
             is_var x; destruct x; [clear H; cbn [from_option id] in * | discriminate H]
         end.

(** Finds the place of an element in a list that is known up to its
    elements. *)
Ltac peel H :=
  lazymatch type of H with
  | _ = (_ ++ _ :: _)%list => symmetry in H; peel H
  | (_ ++ _ :: _)%list = [] => destruct (app_cons_not_nil _ _ _ (eq_sym H))
  | (?b ++ _ :: _)%list = _ :: _ =>
      destruct b as [| ? b]; cbn [app] in H;
      [ injection H as ? ? | injection H as ? H; peel H ]
  end.
Ltac execute2 h := reduce2; repeat step2 h.

(** X1.  Without a stored token (the secret storage fails, holds nothing,
    or holds the empty string) [createOrUpdateFile] and [getFileContent]
    fail with the instruction to log in before anything else happens: no
    request is made, the user is not asked for a repository, and nothing is
    written to the settings. *)
Theorem requests_require_credential {W : Type} (h : handler W) (w : W)
    (content : string) (fileName : option string) :
  let r := run h (ExtensionSync.createOrUpdateFile content fileName) w in
  let r' := run h (ExtensionSync.getFileContent fileName) w in
  (forall reply more,
      secret_reads (events r) = reply :: more ->
      stored_token reply = None ->
      outcome r = Rejected loginRequired
      /\ http (events r) = [] /\ answers (events r) = []
      /\ config_writes (events r) = [])
  /\ (forall reply more,
      secret_reads (events r') = reply :: more ->
      stored_token reply = None ->
      outcome r' = Rejected loginRequired
      /\ http (events r') = [] /\ answers (events r') = []
      /\ config_writes (events r') = []).
Proof.
  cbv zeta. split.
  - execute2 h.
    all: intros reply more [= <- <-] Hnone; cbn in Hnone; try congruence.
    all: repeat split; reflexivity.
  - execute2 h.
    all: intros reply more [= <- <-] Hnone; cbn in Hnone; try congruence.
    all: repeat split; reflexivity.
Qed.

Lemma requests_require_credential_witness :
  outcome (run Script.handle
             (ExtensionSync.createOrUpdateFile Example.settingsText (Some "settings.json"))
             (Login.user [] [] [] []))
  = Rejected loginRequired
  /\ outcome (run Script.handle (ExtensionSync.getFileContent (Some "settings.json"))
                (Login.user [] [] [] []))
     = Rejected loginRequired.
Proof.
  split.
  - apply (proj1 (requests_require_credential Script.handle (Login.user [] [] [] [])
                    Example.settingsText (Some "settings.json"))
             (Fulfilled None) []); reflexivity.
  - apply (proj2 (requests_require_credential Script.handle (Login.user [] [] [] [])
                    Example.settingsText (Some "settings.json"))
             (Fulfilled None) []); reflexivity.
Defined.

(** X2.  Every request of [createOrUpdateFile] carries the stored token in
    its [Authorization] header, with the JSON content type, and goes to the
    contents URL of the file name the call settled on; every request of
    [getFileContent] carries the stored token and goes to that URL too. *)
Theorem requests_carry_stored_token {W : Type} (h : handler W) (w : W)
    (content : string) (fileName : option string) :
  let r := run h (ExtensionSync.createOrUpdateFile content fileName) w in
  let r' := run h (ExtensionSync.getFileContent fileName) w in
  (forall q,
      In q (http (events r)) ->
      exists stored more token configured more' owner repo,
        secret_reads (events r) = Fulfilled stored :: more
        /\ Js.or_undefined stored = Some token
        /\ headers_of q = [("Authorization", "token " +:+ token);
                           ("Content-Type", "application/json")]
        /\ config_reads "fileName" (events r) = configured :: more'
        /\ url_of q = ExtensionSync.contentsUrl owner repo (targetOf fileName configured))
  /\ (forall q,
      In q (http (events r')) ->
      exists stored more token configured more' owner repo,
        secret_reads (events r') = Fulfilled stored :: more
        /\ Js.or_undefined stored = Some token
        /\ headers_of q = [("Authorization", "token " +:+ token)]
        /\ config_reads "fileName" (events r') = configured :: more'
        /\ url_of q = ExtensionSync.contentsUrl owner repo (targetOf fileName configured)).
Proof.
  cbv zeta. split.
  - execute2 h.
    all: intros q Hin; cbn in Hin.
    all: repeat match goal with
                | H : _ \/ _ |- _ => destruct H as [H | H]
                | H : False |- _ => destruct H
                end.
    all: subst q; eexists _, _, _, _, _, _, _; split_and!; try reflexivity.
    all: eassumption.
  - execute2 h.
    all: intros q Hin; cbn in Hin.
    all: repeat match goal with
                | H : _ \/ _ |- _ => destruct H as [H | H]
                | H : False |- _ => destruct H
                end.
    all: subst q; eexists _, _, _, _, _, _, _; split_and!; try reflexivity.
    all: eassumption.
Qed.

Lemma requests_carry_stored_token_witness :
  exists stored more token configured more' owner repo,
    secret_reads (events (Example.upsert (Example.alice [Rejected Example.absent] [Fulfilled tt])))
    = Fulfilled stored :: more
    /\ Js.or_undefined stored = Some token
    /\ headers_of (Get Example.url Example.hs (Rejected Example.absent))
       = [("Authorization", "token " +:+ token); ("Content-Type", "application/json")]
    /\ config_reads "fileName"
         (events (Example.upsert (Example.alice [Rejected Example.absent] [Fulfilled tt])))
       = configured :: more'
    /\ url_of (Get Example.url Example.hs (Rejected Example.absent))
       = ExtensionSync.contentsUrl owner repo (targetOf (Some "settings.json") configured).
Proof.
  apply (proj1 (requests_carry_stored_token Script.handle
                  (Example.alice [Rejected Example.absent] [Fulfilled tt])
                  Example.settingsText (Some "settings.json"))
           (Get Example.url Example.hs (Rejected Example.absent))).
  left. reflexivity.
Defined.

(** X3.  In [createOrUpdateFile], a request that fails with anything but a
    404 ends the call: it is the last request, nothing is retried, and the
    call fails with that very error.  In all, a call makes at most four
    requests, at most two of them writes. *)
Theorem upsert_other_failures_end_the_call {W : Type} (h : handler W) (w : W)
    (content : string) (fileName : option string) :
  let r := run h (ExtensionSync.createOrUpdateFile content fileName) w in
  (forall before q after e,
      http (events r) = (before ++ q :: after)%list ->
      error_of q = Some e ->
      is_not_found e = false ->
      after = [] /\ outcome r = Rejected e)
  /\ (length (http (events r)) <= 4)%nat
  /\ (length (writes (events r)) <= 2)%nat.
Proof.
  intros r. pose proof (upsert_protocol h w content fileName) as H.
  cbv zeta in H. fold r in H. clearbody r. unfold writes.
  remember (http (events r)) as sent eqn:Es.
  remember (outcome r) as result eqn:Eo. clear Es Eo r.
  split; [|destruct H; cbn; lia].
  intros before q after e Hsplit Hq He.
  destruct H; peel Hsplit; subst; cbn in Hq;
    try match type of Hq with match ?x with _ => _ end = _ => destruct x end;
    simplify_eq; solve [auto | congruence].
Qed.

Lemma upsert_other_failures_end_the_call_witness :
  @nil request = []
  /\ outcome (Example.upsert (Example.alice [Script.network_error] []))
     = Rejected (AxiosError None "Network Error").
Proof.
  apply (proj1 (upsert_other_failures_end_the_call Script.handle
                  (Example.alice [Script.network_error] [])
                  Example.settingsText (Some "settings.json"))
           [] (Get Example.url Example.hs Script.network_error) []
           (AxiosError None "Network Error")); reflexivity.
Defined.

(** X4.  [getFileContent] only reads: it makes at most one request, never a
    write, and changes neither the local files nor the secret storage.
    [createOrUpdateFile] changes neither the local files nor the secret
    storage.  The only thing either of them ever writes to the settings is
    the repository name the user has just entered. *)
Theorem requests_leave_local_state_alone {W : Type} (h : handler W) (w : W)
    (content : string) (fileName : option string) :
  let r := run h (ExtensionSync.createOrUpdateFile content fileName) w in
  let r' := run h (ExtensionSync.getFileContent fileName) w in
  (disk_writes (events r) = [] /\ secret_writes (events r) = []
   /\ (config_writes (events r) = []
       \/ exists entered reply,
            config_writes (events r) = [("repository", entered, reply)]
            /\ answers (events r) = [(repositoryPrompt, Some entered)]))
  /\ (writes (events r') = [] /\ (length (http (events r')) <= 1)%nat
      /\ disk_writes (events r') = [] /\ secret_writes (events r') = []
      /\ (config_writes (events r') = []
          \/ exists entered reply,
               config_writes (events r') = [("repository", entered, reply)]
               /\ answers (events r') = [(repositoryPrompt, Some entered)])).
Proof.
  cbv zeta. split.
  - execute2 h.
    all: entered.
    all: split_and!; try reflexivity; try lia; eauto.
  - execute2 h.
    all: entered.
    all: split_and!; try reflexivity; cbn; try lia; eauto.
Qed.

(** ** createOrUpdateFile and getFileContent on the host and the remote store *)

Section HostRequests.

Context {E : Type} (outside : handler E).

(** X5.  With a token stored and a repository configured that does not
    parse, [createOrUpdateFile] and [getFileContent] fail with the format
    error before any request: the user is not asked for another name and
    the host is left as it was. *)
Theorem malformed_repository_is_refused (host : Host.t) (e : E)
    (content : string) (fileName : option string)
    (token repository : string) (err : error) :
  Js.or_undefined (Host.secrets host !! "github-token") = Some token ->
  Host.settings host !! "repository" = Some repository ->
  Js.is_empty repository = false ->
  ExtensionSync.ownerAndRepo repository = Rejected err ->
  let H := Host.handle outside in
  let r := run H (ExtensionSync.createOrUpdateFile content fileName) (host, e) in
  let r' := run H (ExtensionSync.getFileContent fileName) (host, e) in
  (outcome r = Rejected formatError /\ final r = (host, e)
   /\ http (events r) = [] /\ answers (events r) = [])
  /\ (outcome r' = Rejected formatError /\ final r' = (host, e)
      /\ http (events r') = [] /\ answers (events r') = []).
Proof.
  intros Ht Hr Hne Hp.
  assert (err = formatError) as ->.
  { unfold ExtensionSync.ownerAndRepo in Hp.
    destruct (_ || _) in Hp; [|discriminate Hp]. injection Hp as <-. reflexivity. }
  cbv zeta. split.
  - hreduce. repeat hstep outside. auto.
  - hreduce. repeat hstep outside. auto.
Qed.

(** X6.  [getRepository] asks at most once: a name it returns is not
    empty and is the configured one from then on, so a later call returns
    the same name without a prompt and changes nothing. *)
Theorem repository_is_asked_once (host : Host.t) (e : E) (name : string) :
  let H := Host.handle outside in
  let r := run H ExtensionSync.getRepository (host, e) in
  outcome r = Fulfilled name ->
  Js.is_empty name = false
  /\ Host.settings (final r).1 !! "repository" = Some name
  /\ forall e' : E,
       let r2 := run H ExtensionSync.getRepository ((final r).1, e') in
       outcome r2 = Fulfilled name
       /\ answers (events r2) = []
       /\ final r2 = ((final r).1, e').
Proof.
  cbv zeta. hreduce. repeat hstep outside.
  all: try discriminate.
  all: intros [= <-].
  all: repeat match goal with
         | H : Js.falsy ?x = false |- _ =>
             apply falsy_false in H as (? & -> & ?)
         | H : Js.is_empty (default "" (?m !! ?k)) = false |- _ =>
             destruct (m !! k) eqn:?; [|discriminate H]
         end; hreduce.
  all: split; [assumption|].
  all: split; [rewrite ?lookup_insert_eq; auto|].
  all: intros e'; repeat hstep outside; auto; congruence.
Qed.

End HostRequests.

Lemma malformed_repository_is_refused_witness :
  ExtensionSync.ownerAndRepo "my-exts" = Rejected formatError
  /\ outcome (run (Host.handle Script.handle)
                (ExtensionSync.createOrUpdateFile Example.settingsText (Some "settings.json"))
                (Misconfigured.host, Example.alice [] []))
     = Rejected formatError.
Proof.
  split; [reflexivity|].
  refine (proj1 (proj1 (malformed_repository_is_refused Script.handle
                          Misconfigured.host (Example.alice [] [])
                          Example.settingsText (Some "settings.json")
                          "gho_16C7e42F292c" "my-exts" formatError _ _ _ _)));
    vm_compute; reflexivity.
Defined.

Lemma repository_is_asked_once_witness :
  let r := run (Host.handle Script.handle) ExtensionSync.getRepository
             (Login.host, Login.user [] [Some "alice/my-exts"] [] []) in
  outcome r = Fulfilled "alice/my-exts"
  /\ answers (events (run (Host.handle Script.handle) ExtensionSync.getRepository
                        ((final r).1, Login.user [] [] [] [])))
     = [].
Proof.
  cbv zeta. split; [vm_compute; reflexivity|].
  refine (proj1 (proj2 (proj2 (proj2 (repository_is_asked_once Script.handle
                          Login.host (Login.user [] [Some "alice/my-exts"] [] [])
                          "alice/my-exts" _)) (Login.user [] [] [] []))));
    vm_compute; reflexivity.
Defined.

Section Store.

Context {E : Type} (blob_sha : string -> string) (layout : string -> string).
Context (outside : handler E).

Let H := Host.handle (GitHub.handle blob_sha layout outside).

Lemma put_create (url : string) (data : PutData.t) (files : gmap string FileData.t) :
  files !! url = None ->
  PutData.sha data = None ->
  GitHub.put blob_sha url data files
  = (Fulfilled tt, <[url := GitHub.stored blob_sha (PutData.content data)]> files).
Proof. unfold GitHub.put. intros -> ->. reflexivity. Qed.

Lemma put_update (url : string) (data : PutData.t) (files : gmap string FileData.t)
    (file : FileData.t) :
  files !! url = Some file ->
  PutData.sha data = Some (FileData.sha file) ->
  GitHub.put blob_sha url data files
  = (Fulfilled tt, <[url := GitHub.stored blob_sha (PutData.content data)]> files).
Proof. unfold GitHub.put. intros -> ->. rewrite String.eqb_refl. reflexivity. Qed.

Lemma not_found_404 (message : string) :
  is_not_found (AxiosError (Some 404) message) = true.
Proof. reflexivity. Qed.

Ltac store_step :=
  first [ rewrite not_found_404; hreduce
        | erewrite put_update by (eassumption || reflexivity); hreduce
        | erewrite put_create by (eassumption || reflexivity); hreduce
        | hstep outside ].

(** From a ready host, against a store nobody else writes to, a
    [createOrUpdateFile] succeeds with one write and asks nothing. *)
Lemma store_upsert (host : Host.t) (files : gmap string FileData.t) (e : E)
    (content : string) (fileName : option string)
    (token repository owner repo : string) :
  Js.or_undefined (Host.secrets host !! "github-token") = Some token ->
  Host.settings host !! "repository" = Some repository ->
  Js.is_empty repository = false ->
  ExtensionSync.ownerAndRepo repository = Fulfilled (owner, repo) ->
  let url := ExtensionSync.contentsUrl owner repo
               (targetOf fileName (Host.settings host !! "fileName")) in
  exists e' t,
    run H (ExtensionSync.createOrUpdateFile content fileName) (host, (files, e))
    = (Fulfilled tt,
       (host, (<[url := GitHub.stored blob_sha (Base64.encode content)]> files, e')), t)
    /\ length (writes t) = 1%nat /\ answers t = [] /\ disk_writes t = [].
Proof.
  intros Ht Hr Hne Hp. cbv zeta. unfold targetOf, H.
  hreduce. repeat store_step.
  all: eexists _, _; split_and!; reflexivity.
Qed.

(** From a ready host, [getFileContent] is a lookup in the store, and
    changes nothing. *)
Lemma store_fetch (host : Host.t) (files : gmap string FileData.t) (e : E)
    (fileName : option string) (token repository owner repo : string) :
  Js.or_undefined (Host.secrets host !! "github-token") = Some token ->
  Host.settings host !! "repository" = Some repository ->
  Js.is_empty repository = false ->
  ExtensionSync.ownerAndRepo repository = Fulfilled (owner, repo) ->
  let targetFile := targetOf fileName (Host.settings host !! "fileName") in
  exists t,
    run H (ExtensionSync.getFileContent fileName) (host, (files, e))
    = (match files !! ExtensionSync.contentsUrl owner repo targetFile with
       | Some file => Fulfilled (Base64.decode (layout (FileData.content file)))
       | None => Rejected (JsError (notFoundMessage targetFile))
       end, (host, (files, e)), t)
    /\ disk_writes t = [].
Proof.
  intros Ht Hr Hne Hp. cbv zeta. unfold targetOf, H.
  hreduce. repeat store_step.
  all: eexists; split; reflexivity.
Qed.

(** X7.  From a host that holds a token and a well-formed repository,
    against a store nobody else writes to, [createOrUpdateFile] always
    succeeds, whether the file existed or not: it asks the user nothing,
    sends exactly one write, leaves the host as it was, and changes the
    store at the URL of the file only, where the transport encoding of the
    content now is. *)
Theorem upsert_on_store_succeeds (w : Host.t * (gmap string FileData.t * E))
    (content : string) (fileName : option string) :
  ready w ->
  let r := run H (ExtensionSync.createOrUpdateFile content fileName) w in
  exists owner repo,
    ExtensionSync.ownerAndRepo (default "" (Host.settings w.1 !! "repository"))
    = Fulfilled (owner, repo)
    /\ outcome r = Fulfilled tt
    /\ (final r).1 = w.1
    /\ (final r).2.1
       = <[ExtensionSync.contentsUrl owner repo
             (targetOf fileName (Host.settings w.1 !! "fileName"))
           := GitHub.stored blob_sha (Base64.encode content)]> w.2.1
    /\ length (writes (events r)) = 1%nat
    /\ answers (events r) = [].
Proof.
  destruct w as [host [files e]].
  intros (token & repository & owner & repo & Ht & Hr & Hne & Hp). cbv zeta.
  cbn [fst snd] in *.
  destruct (store_upsert host files e content fileName _ _ _ _ Ht Hr Hne Hp)
    as (e' & t & -> & Hw & Ha & _).
  exists owner, repo. cbn [fst snd outcome final events]. rewrite Hr.
  split_and!; auto.
Qed.

(** The layout adds nothing but characters outside the base64 alphabet. *)
Hypothesis layout_transparent :
  forall text, Base64.sextets (layout text) = Base64.sextets text.

(** X8.  The last writer wins, and a write leaves no trace of the one
    before: after [createOrUpdateFile] of one content and then of another
    under the same file name, [getFileContent] returns the second content,
    and the store is the one the second write alone would have left. *)
Theorem upsert_last_writer_wins (w : Host.t * (gmap string FileData.t * E))
    (first second : string) (fileName : option string) :
  ready w ->
  let r1 := run H (ExtensionSync.createOrUpdateFile first fileName) w in
  let r2 := run H (ExtensionSync.createOrUpdateFile second fileName) (final r1) in
  outcome r2 = Fulfilled tt
  /\ outcome (run H (ExtensionSync.getFileContent fileName) (final r2)) = Fulfilled second
  /\ (final r2).2.1
     = (final (run H (ExtensionSync.createOrUpdateFile second fileName) w)).2.1.
Proof.
  destruct w as [host [files e]].
  intros (token & repository & owner & repo & Ht & Hr & Hne & Hp). cbv zeta.
  cbn [fst snd] in *.
  destruct (store_upsert host files e first fileName _ _ _ _ Ht Hr Hne Hp)
    as (e1 & t1 & -> & _).
  destruct (store_upsert host files e second fileName _ _ _ _ Ht Hr Hne Hp)
    as (e0 & t0 & -> & _).
  cbn [final fst snd].
  match goal with
  | |- context [run H _ (host, (?files1, e1))] =>
      destruct (store_upsert host files1 e1 second fileName _ _ _ _ Ht Hr Hne Hp)
        as (e2 & t2 & -> & _)
  end.
  cbn [final outcome fst snd]. split; [reflexivity|]. split.
  - apply (fetch_of_synced blob_sha layout outside layout_transparent).
    exists token, repository, owner, repo. cbn [fst snd].
    split_and!; auto. apply lookup_insert_eq.
  - apply insert_insert_eq.
Qed.

(** X9.  From such a host and store, [syncExtensions] succeeds, and the
    [getFileContent] of the configured file name that follows returns the
    snapshot it made: the two-space indented JSON of the non-built-in
    extensions the host enumerated, the time of the clock and the version of
    the host. *)
Theorem syncExtensions_then_fetch (w : Host.t * (gmap string FileData.t * E)) :
  ready w ->
  let r := run H ExtensionSync.syncExtensions w in
  exists installed now version rest,
    events r = Event ExtensionsAll installed :: Event DateNow now
                 :: Event VscodeVersion version :: rest
    /\ outcome r = Fulfilled tt
    /\ outcome (run H (ExtensionSync.getFileContent None) (final r))
       = Fulfilled (Json.stringify_indent2
                      (ExtensionSync.data_json (snapshot installed now version))).
Proof.
  destruct w as [host [files e]].
  intros (token & repository & owner & repo & Ht & Hr & Hne & Hp). cbv zeta.
  cbn [fst snd] in *.
  unfold ExtensionSync.syncExtensions, ExtensionSync.getInstalledExtensions, H.
  cbn [run bind perform Host.handle GitHub.handle fst snd].
  destruct (outside _ ExtensionsAll e) as [installed e1].
  cbn [run bind perform Host.handle GitHub.handle fst snd].
  destruct (outside _ DateNow e1) as [now e2].
  cbn [run bind perform Host.handle GitHub.handle fst snd].
  destruct (outside _ VscodeVersion e2) as [version e3].
  match goal with
  | |- context [ExtensionSync.createOrUpdateFile ?content None] =>
      destruct (store_upsert host files e3 content None _ _ _ _ Ht Hr Hne Hp)
        as (e4 & t4 & E4 & _)
  end.
  fold H. rewrite E4. cbn [events outcome final fst snd].
  exists installed, now, version, t4. split; [reflexivity|]. split; [reflexivity|].
  apply (fetch_of_synced blob_sha layout outside layout_transparent).
  exists token, repository, owner, repo. cbn [fst snd].
  split_and!; auto. apply lookup_insert_eq.
Qed.

End Store.

Lemma upsert_on_store_succeeds_witness :
  let r := run RoundTrip.handle
             (ExtensionSync.createOrUpdateFile Example.settingsText (Some "settings.json"))
             RoundTrip.existing in
  exists owner repo,
    ExtensionSync.ownerAndRepo
      (default "" (Host.settings RoundTrip.existing.1 !! "repository"))
    = Fulfilled (owner, repo)
    /\ outcome r = Fulfilled tt
    /\ (final r).1 = RoundTrip.existing.1
    /\ (final r).2.1
       = <[ExtensionSync.contentsUrl owner repo
             (targetOf (Some "settings.json")
                (Host.settings RoundTrip.existing.1 !! "fileName"))
           := GitHub.stored RoundTrip.blob_sha (Base64.encode Example.settingsText)]>
           RoundTrip.existing.2.1
    /\ length (writes (events r)) = 1%nat
    /\ answers (events r) = [].
Proof.
  apply (upsert_on_store_succeeds RoundTrip.blob_sha GitHub.wrap60 Script.handle
           RoundTrip.existing Example.settingsText (Some "settings.json")).
  exists "gho_16C7e42F292c", "alice/my-exts", "alice", "my-exts".
  vm_compute. repeat split.
Defined.

Lemma upsert_last_writer_wins_witness :
  let r1 := run RoundTrip.handle
              (ExtensionSync.createOrUpdateFile "{}" (Some "settings.json"))
              RoundTrip.fresh in
  let r2 := run RoundTrip.handle
              (ExtensionSync.createOrUpdateFile Example.settingsText (Some "settings.json"))
              (final r1) in
  outcome (run RoundTrip.handle (ExtensionSync.getFileContent (Some "settings.json"))
             (final r2))
  = Fulfilled Example.settingsText.
Proof.
  refine (proj1 (proj2 (upsert_last_writer_wins RoundTrip.blob_sha GitHub.wrap60
                          Script.handle (wrap_transparent 60 60) RoundTrip.fresh
                          "{}" Example.settingsText (Some "settings.json") _))).
  exists "gho_16C7e42F292c", "alice/my-exts", "alice", "my-exts".
  vm_compute. repeat split.
Defined.

Lemma syncExtensions_then_fetch_witness :
  exists installed now version rest,
    events (run RoundTrip.handle ExtensionSync.syncExtensions
              (RoundTrip.host, (∅, Scenario.world)))
    = Event ExtensionsAll installed :: Event DateNow now
        :: Event VscodeVersion version :: rest
    /\ outcome (run RoundTrip.handle ExtensionSync.syncExtensions
                  (RoundTrip.host, (∅, Scenario.world)))
       = Fulfilled tt
    /\ outcome (run RoundTrip.handle (ExtensionSync.getFileContent None)
                  (final (run RoundTrip.handle ExtensionSync.syncExtensions
                            (RoundTrip.host, (∅, Scenario.world)))))
       = Fulfilled (Json.stringify_indent2
                      (ExtensionSync.data_json (snapshot installed now version))).
Proof.
  apply (syncExtensions_then_fetch RoundTrip.blob_sha GitHub.wrap60 Script.handle
           (wrap_transparent 60 60) (RoundTrip.host, (∅, Scenario.world))).
  exists "gho_16C7e42F292c", "alice/my-exts", "alice", "my-exts".
  vm_compute. repeat split.
Defined.

(** ** What a method never does *)

Section Never.

Context {B : Type} (f : event -> list B).

Lemma never_bind {A C : Type} (p : prog A) (k : A -> prog C) :
  never f p -> (forall a, never f (k a)) -> never f (bind p k).
Proof.
  intros Hp Hk. induction p as [a | e | X op k' IH]; cbn in *; auto.
  destruct Hp as [Hop Hrest]. split; auto.
Qed.

Lemma never_try_catch {A : Type} (p : prog A) (c : error -> prog A) :
  never f p -> (forall e, never f (c e)) -> never f (try_catch p c).
Proof.
  intros Hp Hc. induction p as [a | e | X op k' IH]; cbn in *; auto.
  destruct Hp as [Hop Hrest]. split; auto.
Qed.

Lemma never_run {W A : Type} (h : handler W) (p : prog A) (w : W) :
  never f p -> flat_map f (events (run h p w)) = [].
Proof.
  revert w. induction p as [a | e | X op k IH]; intros w Hp; cbn in *; auto.
  destruct Hp as [Hop Hrest].
  destruct (h X op w) as [x w1]. specialize (IH x w1 (Hrest x)).
  destruct (run h (k x) w1) as [[out w2] t]. cbn in *.
  rewrite Hop, IH. reflexivity.
Qed.

End Never.

Lemma writes_put_of (t : trace) : writes t = flat_map put_of t.
Proof.
  unfold writes, http, put_of.
  induction t as [| ev t IH]; [reflexivity|].
  cbn [flat_map]. rewrite flat_map_app, IH. reflexivity.
Qed.

(** Walks through a method, one operation and one test at a time. *)
Ltac quiet_op :=
  cbn [never perform await]; split;
  [ intros; reflexivity
  | intros; repeat match goal with
                   | |- never _ (match ?x with _ => _ end) => destruct x
                   end; exact I ].

Ltac quiet :=
  repeat first
    [ exact I
    | progress cbv zeta
    | apply never_bind; [| intros ?]
    | apply never_try_catch; [| intros ?]
    | match goal with
      | |- never _ (perform _) => quiet_op
      | |- never _ (await _) => quiet_op
      | |- never _ (Ret _) => exact I
      | |- never _ (Throw _) => exact I
      | |- never _ (match ?x with _ => _ end) => destruct x
      | |- never _ (ExtensionSync.settle ?x) => destruct x; exact I
      | |- never _ (?g _ _ _) => unfold g
      | |- never _ (?g _ _) => unfold g
      | |- never _ (?g _) => unfold g
      | |- never _ ?g => unfold g
      end ].

Lemma createOrUpdateFile_local (content : string) (fileName : option string) :
  never disk_write_of (ExtensionSync.createOrUpdateFile content fileName)
  /\ never secret_write_of (ExtensionSync.createOrUpdateFile content fileName).
Proof. split; quiet. Qed.

Lemma getFileContent_reads (fileName : option string) :
  never disk_write_of (ExtensionSync.getFileContent fileName)
  /\ never secret_write_of (ExtensionSync.getFileContent fileName)
  /\ never put_of (ExtensionSync.getFileContent fileName).
Proof. split_and!; quiet. Qed.

(** X10.  The transfers go one way.  [syncExtensions] and [syncSettings]
    write no local file, [importSettings] sends no write request, and none
    of them changes the secret storage; whatever the environment answers. *)
Theorem transfers_go_one_way {W : Type} (h : handler W) (w : W)
    (path_join : list string -> string) :
  let up := run h ExtensionSync.syncExtensions w in
  let up' := run h (ExtensionSync.syncSettings path_join) w in
  let down := run h (ExtensionSync.importSettings path_join) w in
  (disk_writes (events up) = [] /\ secret_writes (events up) = [])
  /\ (disk_writes (events up') = [] /\ secret_writes (events up') = [])
  /\ (writes (events down) = [] /\ secret_writes (events down) = []).
Proof.
  cbv zeta. rewrite writes_put_of.
  pose proof createOrUpdateFile_local as Hup.
  pose proof getFileContent_reads as Hdown.
  assert (Hup1 : forall c n, never disk_write_of (ExtensionSync.createOrUpdateFile c n))
    by (intros; apply Hup).
  assert (Hup2 : forall c n, never secret_write_of (ExtensionSync.createOrUpdateFile c n))
    by (intros; apply Hup).
  assert (Hdown2 : forall n, never secret_write_of (ExtensionSync.getFileContent n))
    by (intros; apply Hdown).
  assert (Hdown3 : forall n, never put_of (ExtensionSync.getFileContent n))
    by (intros; apply Hdown).
  clear Hup Hdown.
  split_and!; apply never_run.
  - unfold ExtensionSync.syncExtensions. repeat (apply never_bind; [|intros ?]); auto; quiet.
  - unfold ExtensionSync.syncExtensions. repeat (apply never_bind; [|intros ?]); auto; quiet.
  - unfold ExtensionSync.syncSettings.
    repeat first [ apply Hup1 | apply never_bind; [|intros ?]
                 | match goal with
                   | |- never _ (match ?x with _ => _ end) => destruct x
                   end ]; quiet.
  - unfold ExtensionSync.syncSettings.
    repeat first [ apply Hup2 | apply never_bind; [|intros ?]
                 | match goal with
                   | |- never _ (match ?x with _ => _ end) => destruct x
                   end ]; quiet.
  - unfold ExtensionSync.importSettings.
    repeat first [ apply Hdown3 | apply never_bind; [|intros ?]
                 | apply never_try_catch; [|intros ?]
                 | match goal with
                   | |- never _ (match ?x with _ => _ end) => destruct x
                   end ]; quiet.
  - unfold ExtensionSync.importSettings.
    repeat first [ apply Hdown2 | apply never_bind; [|intros ?]
                 | apply never_try_catch; [|intros ?]
                 | match goal with
                   | |- never _ (match ?x with _ => _ end) => destruct x
                   end ]; quiet.
Qed.

(** ** syncSettings and importSettings on the host *)

Section SettingsOnHost.

Context {E : Type} (outside : handler E) (path_join : list string -> string).

Let H := Host.handle outside.

Lemma host_getConfig (host : Host.t) (e : E) :
  exists c t,
    run H ExtensionSync.getConfig (host, e) = (Fulfilled c, (host, e), t)
    /\ http t = [] /\ secret_reads t = [] /\ disk_writes t = [].
Proof. eexists _, _. split; [reflexivity|]. auto. Qed.

Lemma exists_absent : bool_decide (is_Some (@None string)) = false.
Proof. reflexivity. Qed.

Lemma exists_present (text : string) : bool_decide (is_Some (Some text)) = true.
Proof. reflexivity. Qed.

Lemma getUserSettingsPath_secrets :
  never secret_read_of (ExtensionSync.getUserSettingsPath path_join).
Proof. quiet. Qed.

(** X11.  When the user settings file does not exist, [syncSettings] fails
    with its own message before anything is looked up or sent: the secret
    storage is not read, no request is made, and the host is left as it
    was. *)
Theorem syncSettings_missing_file (host : Host.t) (e : E) (userSettingsPath : string) :
  outcome (run H (ExtensionSync.getUserSettingsPath path_join) (host, e))
  = Fulfilled userSettingsPath ->
  Host.disk host !! userSettingsPath = None ->
  let r := run H (ExtensionSync.syncSettings path_join) (host, e) in
  outcome r = Rejected (JsError "ユーザー設定ファイルが見つかりません。")
  /\ final r = (host, e)
  /\ http (events r) = []
  /\ secret_reads (events r) = [].
Proof.
  intros Hpath Hnone. cbv zeta. unfold ExtensionSync.syncSettings.
  destruct (host_getConfig host e) as (c & t0 & E0 & Hh0 & Hs0 & _).
  rewrite run_bind, E0.
  destruct (host_getUserSettingsPath outside path_join host host e e eq_refl eq_refl)
    as (p & t1 & Hp & E1 & Hh1 & _).
  fold H in Hp, E1. rewrite Hpath in Hp. injection Hp as <-.
  pose proof (never_run secret_read_of H _ (host, e) getUserSettingsPath_secrets) as Hs1.
  rewrite E1 in Hs1. cbn [events snd] in Hs1.
  rewrite run_bind, E1.
  unfold H. cbn [run bind perform Host.handle fst snd]. rewrite Hnone.
  rewrite exists_absent. cbn [run outcome final events fst snd negb].
  unfold secret_reads in *. rewrite !http_app, !flat_map_app, Hh0, Hh1, Hs0, Hs1.
  auto.
Qed.

End SettingsOnHost.

Lemma syncSettings_missing_file_witness :
  outcome (run (Host.handle Script.handle) (ExtensionSync.syncSettings (Js.join "/"))
             (RoundTrip.host, Example.alice [] []))
  = Rejected (JsError "ユーザー設定ファイルが見つかりません。").
Proof.
  refine (proj1 (syncSettings_missing_file Script.handle (Js.join "/") RoundTrip.host
                   (Example.alice [] []) "/home/alice/.config/Code/User/settings.json"
                   _ _));
    vm_compute; reflexivity.
Defined.

(** ** The settings round trip *)

Lemma append_nil (s : string) : "" +:+ s = s.
Proof. reflexivity. Qed.

Lemma append_cons (c : ascii) (a b : string) : String c a +:+ b = String c (a +:+ b).
Proof. reflexivity. Qed.

Lemma append_inj_l (prefix a b : string) : prefix +:+ a = prefix +:+ b -> a = b.
Proof.
  induction prefix as [| c prefix IH]; cbn; [auto|]. intros [= Heq]. auto.
Qed.

Lemma contentsUrl_inj (owner repo file file' : string) :
  ExtensionSync.contentsUrl owner repo file = ExtensionSync.contentsUrl owner repo file' ->
  file = file'.
Proof.
  unfold ExtensionSync.contentsUrl. intros Heq.
  repeat apply append_inj_l in Heq. exact Heq.
Qed.

Lemma set_disk_id (host : Host.t) (path text : string) :
  Host.disk host !! path = Some text ->
  Host.set_disk (insert path text) host = host.
Proof.
  intros Hfile. destruct host as [settings secrets disk environ platform].
  unfold Host.set_disk. cbn [Host.settings Host.secrets Host.disk Host.environ Host.platform] in *.
  f_equal. apply insert_id. exact Hfile.
Qed.

Section HostPaths.

Context {E : Type} (outside : handler E) (path_join : list string -> string).

(** On the host the remote settings path always resolves, to a path or to
    none. *)
Lemma host_getRemoteSettingsPath_total (host : Host.t) (e : E) :
  exists found,
    outcome (run (Host.handle outside) (ExtensionSync.getRemoteSettingsPath path_join)
               (host, e))
    = Fulfilled found.
Proof.
  unfold ExtensionSync.getRemoteSettingsPath. hreduce.
  repeat hstep outside; eauto.
  all: cbn in *; congruence.
Qed.

End HostPaths.

Section SettingsOnStore.

Context {E : Type} (blob_sha : string -> string) (layout : string -> string).
Context (outside : handler E) (path_join : list string -> string).

Let G := GitHub.handle blob_sha layout outside.
Let H := Host.handle G.

Ltac op_step := unfold H; cbn [run bind perform await Host.handle fst snd]; fold H.

Lemma syncSettings_on_store (host : Host.t) (files : gmap string FileData.t) (e : E)
    (token repository owner repo userSettingsPath text : string) :
  Js.or_undefined (Host.secrets host !! "github-token") = Some token ->
  Host.settings host !! "repository" = Some repository ->
  Js.is_empty repository = false ->
  ExtensionSync.ownerAndRepo repository = Fulfilled (owner, repo) ->
  outcome (run H (ExtensionSync.getUserSettingsPath path_join) (host, (files, e)))
  = Fulfilled userSettingsPath ->
  Host.disk host !! userSettingsPath = Some text ->
  exists found e' t,
    outcome (run H (ExtensionSync.getRemoteSettingsPath path_join) (host, (files, e)))
    = Fulfilled found
    /\ run H (ExtensionSync.syncSettings path_join) (host, (files, e))
       = (Fulfilled tt, (host, (uploaded blob_sha host files owner repo text found, e')), t).
Proof.
  intros Ht Hr Hne Hp Hpath Hfile.
  destruct (host_getRemoteSettingsPath_total G path_join host (files, e)) as [found Hfound].
  fold H in Hfound. exists found.
  unfold ExtensionSync.syncSettings.
  destruct (host_getConfig G host (files, e)) as (c & t0 & E0 & _). fold H in E0.
  rewrite run_bind, E0.
  destruct (host_getUserSettingsPath G path_join host host (files, e) (files, e)
              eq_refl eq_refl) as (p & t1 & Hp1 & E1 & _).
  fold H in Hp1, E1. rewrite Hpath in Hp1. injection Hp1 as <-.
  rewrite run_bind, E1.
  op_step. rewrite Hfile, exists_present. cbn [negb].
  op_step. rewrite Hfile. cbn [run bind].
  destruct (store_upsert blob_sha layout outside host files e text (Some "settings.json")
              token repository owner repo Ht Hr Hne Hp) as (e1 & t2 & E2 & _).
  fold G H in E2. cbn [targetOf Js.or_else Js.is_empty] in E2.
  rewrite run_bind, E2.
  set (files1 := <[ExtensionSync.contentsUrl owner repo "settings.json"
                   := GitHub.stored blob_sha (Base64.encode text)]> files).
  destruct (host_getRemoteSettingsPath G path_join host host (files, e) (files1, e1)
              eq_refl eq_refl) as (t3 & E3 & _).
  fold H in E3. rewrite Hfound in E3. rewrite run_bind, E3.
  unfold uploaded. fold files1.
  destruct (Js.or_undefined found) as [remotePath|]; [|cbn; eauto].
  op_step.
  destruct (Host.disk host !! remotePath) as [remoteText|] eqn:Hremote.
  - rewrite exists_present. op_step. rewrite Hremote. cbn [run bind].
    destruct (store_upsert blob_sha layout outside host files1 e1 remoteText
                (Some "remote-settings.json") token repository owner repo Ht Hr Hne Hp)
      as (e2 & t4 & E4 & _).
    fold G H in E4. cbn [targetOf Js.or_else Js.is_empty] in E4.
    rewrite E4. cbn. eauto.
  - rewrite exists_absent. cbn. eauto.
Qed.

Lemma uploaded_primary (host : Host.t) (files : gmap string FileData.t)
    (owner repo text : string) (found : option string) :
  uploaded blob_sha host files owner repo text found
    !! ExtensionSync.contentsUrl owner repo "settings.json"
  = Some (GitHub.stored blob_sha (Base64.encode text)).
Proof.
  unfold uploaded. cbv zeta.
  destruct (Js.or_undefined found) as [remotePath|]; [|apply lookup_insert_eq].
  destruct (Host.disk host !! remotePath); [|apply lookup_insert_eq].
  rewrite lookup_insert_ne; [apply lookup_insert_eq|].
  intros Heq. apply contentsUrl_inj in Heq. discriminate Heq.
Qed.

Lemma uploaded_secondary (host : Host.t) (files : gmap string FileData.t)
    (owner repo text : string) (found : option string) :
  files !! ExtensionSync.contentsUrl owner repo "remote-settings.json" = None ->
  uploaded blob_sha host files owner repo text found
    !! ExtensionSync.contentsUrl owner repo "remote-settings.json"
  = remotePath ← Js.or_undefined found;
    remoteText ← Host.disk host !! remotePath;
    Some (GitHub.stored blob_sha (Base64.encode remoteText)).
Proof.
  intros Hnone. unfold uploaded. cbv zeta.
  assert (Hp : <[ExtensionSync.contentsUrl owner repo "settings.json"
                 := GitHub.stored blob_sha (Base64.encode text)]> files
               !! ExtensionSync.contentsUrl owner repo "remote-settings.json" = None).
  { rewrite lookup_insert_ne; [exact Hnone|].
    intros Heq. apply contentsUrl_inj in Heq. discriminate Heq. }
  destruct (Js.or_undefined found) as [remotePath|]; cbn; [|exact Hp].
  destruct (Host.disk host !! remotePath); cbn; [apply lookup_insert_eq | exact Hp].
Qed.

(** The layout adds nothing but characters outside the base64 alphabet. *)
Hypothesis layout_transparent :
  forall text, Base64.sextets (layout text) = Base64.sextets text.

Lemma decode_served (text : string) :
  Base64.decode (layout (Base64.encode text)) = text.
Proof.
  unfold Base64.decode. rewrite layout_transparent.
  fold (Base64.decode (Base64.encode text)). apply Base64Facts.decode_encode.
Qed.

Lemma importSettings_after_sync (host : Host.t) (files : gmap string FileData.t) (e : E)
    (token repository owner repo userSettingsPath text : string)
    (found : option string) :
  Js.or_undefined (Host.secrets host !! "github-token") = Some token ->
  Host.settings host !! "repository" = Some repository ->
  Js.is_empty repository = false ->
  ExtensionSync.ownerAndRepo repository = Fulfilled (owner, repo) ->
  outcome (run H (ExtensionSync.getUserSettingsPath path_join) (host, (files, e)))
  = Fulfilled userSettingsPath ->
  Host.disk host !! userSettingsPath = Some text ->
  outcome (run H (ExtensionSync.getRemoteSettingsPath path_join) (host, (files, e)))
  = Fulfilled found ->
  files !! ExtensionSync.contentsUrl owner repo "remote-settings.json" = None ->
  forall e1 : E,
    exists t,
      run H (ExtensionSync.importSettings path_join)
        (host, (uploaded blob_sha host files owner repo text found, e1))
      = (Fulfilled tt, (host, (uploaded blob_sha host files owner repo text found, e1)), t).
Proof.
  intros Ht Hr Hne Hp Hpath Hfile Hfound Hnone e1.
  unfold ExtensionSync.importSettings.
  destruct (host_getConfig G host ((uploaded blob_sha host files owner repo text found), e1)) as (c & t0 & E0 & _). fold H in E0.
  rewrite run_bind, E0.
  destruct (store_fetch blob_sha layout outside host (uploaded blob_sha host files owner repo text found) e1 (Some "settings.json")
              token repository owner repo Ht Hr Hne Hp) as (t1 & E1 & _).
  fold G H in E1. cbn [targetOf Js.or_else Js.is_empty] in E1.
  rewrite uploaded_primary in E1.
  cbn [GitHub.stored FileData.content] in E1. rewrite decode_served in E1.
  rewrite run_bind, E1.
  destruct (host_getUserSettingsPath G path_join host host (files, e) ((uploaded blob_sha host files owner repo text found), e1)
              eq_refl eq_refl) as (p & t2 & Hp2 & E2 & _).
  fold H in Hp2, E2. rewrite Hpath in Hp2. injection Hp2 as <-.
  rewrite run_bind, E2.
  op_step. rewrite (set_disk_id host userSettingsPath text Hfile). cbn [run bind].
  rewrite run_try_catch, run_bind.
  destruct (store_fetch blob_sha layout outside host (uploaded blob_sha host files owner repo text found) e1
              (Some "remote-settings.json") token repository owner repo Ht Hr Hne Hp)
    as (t3 & E3 & _).
  fold G H in E3. cbn [targetOf Js.or_else Js.is_empty] in E3.
  rewrite (uploaded_secondary _ _ _ _ _ _ Hnone) in E3.
  rewrite E3. clear E3.
  destruct (host_getRemoteSettingsPath G path_join host host (files, e) ((uploaded blob_sha host files owner repo text found), e1)
              eq_refl eq_refl) as (t4 & E4 & _).
  fold H in E4. rewrite Hfound in E4.
  destruct (Js.or_undefined found) as [remotePath|] eqn:Hor; cbn [mbind option_bind];
    [|cbn; eauto].
  destruct (Host.disk host !! remotePath) as [remoteText|] eqn:Hremote;
    cbn [mbind option_bind]; [|cbn; eauto].
  cbn [GitHub.stored FileData.content]. rewrite decode_served.
  rewrite run_bind, E4, Hor.
  op_step. rewrite (set_disk_id host remotePath remoteText Hremote).
  cbn. eauto.
Qed.

(** X12.  The settings round trip.  On a host that holds a token, a
    well-formed repository and a user settings file, against a store nobody
    else writes to and that holds no [remote-settings.json] yet:
    [syncSettings] succeeds and leaves the host as it was; the
    [getFileContent] of [settings.json] that follows returns the text of the
    user settings file; and the [importSettings] that follows succeeds and
    leaves every local file as it was. *)
Theorem settings_round_trip (host : Host.t) (files : gmap string FileData.t) (e : E)
    (token repository owner repo userSettingsPath text : string) :
  Js.or_undefined (Host.secrets host !! "github-token") = Some token ->
  Host.settings host !! "repository" = Some repository ->
  Js.is_empty repository = false ->
  ExtensionSync.ownerAndRepo repository = Fulfilled (owner, repo) ->
  outcome (run H (ExtensionSync.getUserSettingsPath path_join) (host, (files, e)))
  = Fulfilled userSettingsPath ->
  Host.disk host !! userSettingsPath = Some text ->
  files !! ExtensionSync.contentsUrl owner repo "remote-settings.json" = None ->
  let r := run H (ExtensionSync.syncSettings path_join) (host, (files, e)) in
  let r' := run H (ExtensionSync.importSettings path_join) (final r) in
  (outcome r = Fulfilled tt /\ (final r).1 = host)
  /\ outcome (run H (ExtensionSync.getFileContent (Some "settings.json")) (final r))
     = Fulfilled text
  /\ (outcome r' = Fulfilled tt /\ (final r').1 = host).
Proof.
  intros Ht Hr Hne Hp Hpath Hfile Hnone. cbv zeta.
  destruct (syncSettings_on_store host files e _ _ _ _ _ _ Ht Hr Hne Hp Hpath Hfile)
    as (found & e1 & t1 & Hfound & ->).
  cbn [outcome final fst snd].
  destruct (importSettings_after_sync host files e _ _ _ _ _ _ _
              Ht Hr Hne Hp Hpath Hfile Hfound Hnone e1) as (t2 & ->).
  destruct (store_fetch blob_sha layout outside host
              (uploaded blob_sha host files owner repo text found) e1
              (Some "settings.json") token repository owner repo Ht Hr Hne Hp)
    as (t3 & E3 & _).
  fold G H in E3. cbn [targetOf Js.or_else Js.is_empty] in E3.
  rewrite uploaded_primary in E3. rewrite E3.
  cbn [outcome final fst snd GitHub.stored FileData.content].
  rewrite decode_served. auto.
Qed.

End SettingsOnStore.

Lemma settings_round_trip_witness :
  let path := "/home/alice/.config/Code/User/settings.json" in
  let start := (Host.set_disk (insert path Example.settingsText) RoundTrip.host,
                (∅, Example.alice [] [])) in
  let r := run RoundTrip.handle (ExtensionSync.syncSettings (Js.join "/")) start in
  let r' := run RoundTrip.handle (ExtensionSync.importSettings (Js.join "/")) (final r) in
  outcome r' = Fulfilled tt /\ (final r').1 = start.1.
Proof.
  refine (proj2 (proj2 (settings_round_trip RoundTrip.blob_sha GitHub.wrap60 Script.handle
                          (Js.join "/") (wrap_transparent 60 60)
                          (Host.set_disk
                             (insert "/home/alice/.config/Code/User/settings.json"
                                Example.settingsText) RoundTrip.host)
                          ∅ (Example.alice [] [])
                          "gho_16C7e42F292c" "alice/my-exts" "alice" "my-exts"
                          "/home/alice/.config/Code/User/settings.json"
                          Example.settingsText _ _ _ _ _ _ _)));
    vm_compute; reflexivity.
Defined.

(** ** The two settings paths on the host *)

Section PathsOnHost.

Context {E : Type} (outside : handler E) (path_join : list string -> string).

Let H := Host.handle outside.

(** X13.  On the host [getUserSettingsPath] never fails and changes
    nothing, and its three platform branches are one: the path is
    [Code/User/settings.json] under a base directory, which is [APPDATA]
    when that is set and not empty, whatever the platform, and otherwise
    [Library/Application Support] (on darwin) or [.config] (everywhere else,
    win32 included) under [HOME], or under the empty path when [HOME] is
    unset. *)
Theorem getUserSettingsPath_on_host (host : Host.t) (e : E) :
  let env := Host.environ host in
  let base :=
    if Js.falsy (env !! "APPDATA") then
      path_join [default "" (env !! "HOME");
                 if String.eqb (Host.platform host) "darwin"
                 then "Library/Application Support" else ".config"]
    else default "" (env !! "APPDATA") in
  let r := run H (ExtensionSync.getUserSettingsPath path_join) (host, e) in
  outcome r = Fulfilled (path_join [base; "Code"; "User"; "settings.json"])
  /\ final r = (host, e).
Proof.
  cbv zeta. unfold ExtensionSync.getUserSettingsPath, H. hreduce.
  repeat hstep outside.
  all: repeat match goal with
              | |- context [Js.or_else ?x ""] => destruct x as [[|]|]; cbn [Js.or_else Js.is_empty]
              end.
  all: auto.
Qed.

(** X14.  On the host [getRemoteSettingsPath] never fails and changes
    nothing.  A path it returns comes from [VSCODE_REMOTE_ENV], and then
    without a look at the files, or, when that variable is unset or empty,
    from [HOME], and then only when the file exists.  It returns none
    exactly when [VSCODE_REMOTE_ENV] is unset or empty and [HOME] is unset or
    empty or the file under it is missing. *)
Theorem getRemoteSettingsPath_on_host (host : Host.t) (e : E) :
  let env := Host.environ host in
  let r := run H (ExtensionSync.getRemoteSettingsPath path_join) (host, e) in
  final r = (host, e)
  /\ exists found,
       outcome r = Fulfilled found
       /\ (forall remoteEnv,
              env !! "VSCODE_REMOTE_ENV" = Some remoteEnv ->
              Js.is_empty remoteEnv = false ->
              found = Some (path_join [remoteEnv; "data"; "Machine"; "settings.json"]))
       /\ (Js.falsy (env !! "VSCODE_REMOTE_ENV") = true ->
           forall home,
             env !! "HOME" = Some home ->
             Js.is_empty home = false ->
             let sshPath :=
               path_join [home; ".vscode-server"; "data"; "Machine"; "settings.json"] in
             found = (if bool_decide (is_Some (Host.disk host !! sshPath))
                      then Some sshPath else None))
       /\ (Js.falsy (env !! "VSCODE_REMOTE_ENV") = true ->
           Js.falsy (env !! "HOME") = true ->
           found = None).
Proof.
  cbv zeta. unfold ExtensionSync.getRemoteSettingsPath, H. hreduce.
  destruct (Host.environ host !! "VSCODE_REMOTE_ENV") as [[| c1 s1] |] eqn:Hremote;
    destruct (Host.environ host !! "HOME") as [[| c2 s2] |] eqn:Hhome;
    repeat progress (cbn [Js.falsy Js.is_empty negb]; hreduce; rewrite ?Hhome).
  all: try match goal with
           | |- context [bool_decide ?P] => destruct (bool_decide P) eqn:Hfile
           end; hreduce.
  all: split; [reflexivity|]; eexists; split; [reflexivity|].
  all: split_and!; intros; simplify_eq; cbn in *; try congruence.
  all: rewrite ?Hfile; reflexivity.
Qed.

End PathsOnHost.

(** ** login and logout *)

Ltac areduce :=
  hreduce; reduce2;
  cbn [exchanges exchange_of opened opened_of held_reads held_read_of
       flat_map app] in *.

Ltac astep h := step h; areduce.
Ltac aexecute h := areduce; repeat astep h.

(** X15.  [logout] never fails and shows exactly one message.  It deletes
    the token first and the user record second; when a deletion is rejected
    nothing more is deleted and the message is the failure message with that
    error, otherwise the message is the confirmation.  It makes no request
    and asks nothing. *)
Theorem logout_never_rejects {W : Type} (h : handler W) (w : W) :
  let r := run h GitHubAuth.logout w in
  outcome r = Fulfilled tt
  /\ http (events r) = [] /\ identity_lookups (events r) = [] /\ answers (events r) = []
  /\ ((secret_writes (events r)
       = [("github-token", None, Fulfilled tt); ("github-user", None, Fulfilled tt)]
       /\ notifications (events r) = [loggedOut])
      \/ (exists e,
            secret_writes (events r) = [("github-token", None, Rejected e)]
            /\ notifications (events r) = [logoutFailed e])
      \/ (exists e,
            secret_writes (events r)
            = [("github-token", None, Fulfilled tt); ("github-user", None, Rejected e)]
            /\ notifications (events r) = [logoutFailed e])).
Proof.
  cbv zeta. unfold GitHubAuth.logout. aexecute h.
  all: repeat match goal with a : unit |- _ => destruct a end.
  all: split_and!; try reflexivity.
  all: first [ left; split; reflexivity
             | right; left; eexists; split; reflexivity
             | right; right; eexists; split; reflexivity ].
Qed.

Section LogoutOnHost.

Context {E : Type} (outside : handler E).

Let H := Host.handle outside.

(** X16.  On the host [logout] removes the token and the user record and
    nothing else, and confirms.  From the state it leaves, [isLoggedIn]
    answers no without a lookup, and [createOrUpdateFile] and
    [getFileContent] fail with the instruction to log in. *)
Theorem logout_on_host (host : Host.t) (e : E) :
  let r := run H GitHubAuth.logout (host, e) in
  (final r).1
  = Host.set_secrets (fun s => delete "github-user" (delete "github-token" s)) host
  /\ notifications (events r) = [loggedOut]
  /\ forall (e' : E) (content : string) (fileName : option string),
       let r1 := run H GitHubAuth.isLoggedIn ((final r).1, e') in
       let r2 := run H (ExtensionSync.createOrUpdateFile content fileName)
                   ((final r).1, e') in
       let r3 := run H (ExtensionSync.getFileContent fileName) ((final r).1, e') in
       (outcome r1 = Fulfilled false /\ identity_lookups (events r1) = [])
       /\ outcome r2 = Rejected loginRequired
       /\ outcome r3 = Rejected loginRequired.
Proof.
  cbv zeta. unfold GitHubAuth.logout, H. areduce.
  destruct (outside _ (ShowInformationMessage "GitHubからログアウトしました") e) as [[] e1].
  areduce. split; [reflexivity|]. split; [reflexivity|].
  intros e' content fileName.
  rewrite lookup_delete_ne by discriminate. rewrite lookup_delete_eq.
  areduce. auto.
Qed.

End LogoutOnHost.

(** Takes a trace of [login] apart, down to its events. *)
Ltac unravel :=
  repeat match goal with
         | H : login_trace _ _ _ |- _ => inversion H; clear H; subst
         | H : body_trace _ _ _ |- _ => inversion H; clear H; subst
         | H : setup_trace _ _ |- _ => inversion H; clear H; subst
         | H : flow_trace _ _ _ |- _ => inversion H; clear H; subst
         end;
  unfold entering, opening, exchange, lookup, storeToken, storeUser,
    askedClientId, askedClientSecret, asked, held in *;
  cbn [app] in *; areduce.

Section LoginRuns.

Context {W : Type} (h : handler W).
Context (authorizeURL : OAuth2Client.t -> string -> string -> string -> string).

Lemma login_unfold :
  GitHubAuth.login authorizeURL
  = try_catch
      (clientId <- GitHubAuth.config_get "clientId" "" ;;
       clientSecret <- GitHubAuth.config_get "clientSecret" "" ;;
       configured <-
         (if Js.is_empty clientId || Js.is_empty clientSecret
          then GitHubAuth.setupOAuthApp
          else Ret true) ;;
       if negb configured then Ret false else login_flow authorizeURL)
      (fun error =>
         perform (ShowErrorMessage ("GitHubログインに失敗しました: " +:+ error_text error)) ;;
         Ret false).
Proof. reflexivity. Qed.

Lemma setup_run (w : W) :
  let r := run h GitHubAuth.setupOAuthApp w in
  setup_trace (events r) (outcome r).
Proof.
  cbv zeta. unfold GitHubAuth.setupOAuthApp. aexecute h.
  all: repeat match goal with a : unit |- _ => destruct a end.
  all: eauto using setup_trace.
Qed.

Lemma flow_run (w : W) :
  let r := run h (login_flow authorizeURL) w in
  flow_trace authorizeURL (events r) (outcome r).
Proof.
  cbv zeta. unfold login_flow. aexecute h.
  all: repeat match goal with a : unit |- _ => destruct a end.
  all: first [ eapply flow_unconfigured | eapply flow_not_opened | eapply flow_no_code
             | eapply flow_exchange_failed | eapply flow_lookup_failed
             | eapply flow_token_refused | eapply flow_user_refused
             | eapply flow_done ]; eassumption.
Qed.

Lemma body_run (w : W) :
  let r := run h
             (clientId <- GitHubAuth.config_get "clientId" "" ;;
              clientSecret <- GitHubAuth.config_get "clientSecret" "" ;;
              configured <-
                (if Js.is_empty clientId || Js.is_empty clientSecret
                 then GitHubAuth.setupOAuthApp
                 else Ret true) ;;
              if negb configured then Ret false else login_flow authorizeURL) w in
  body_trace authorizeURL (events r) (outcome r).
Proof.
  cbv zeta. cbn [run bind perform GitHubAuth.config_get].
  destruct (h _ (HeldConfigGet "clientId") w) as [v1 w1].
  cbn [run bind perform GitHubAuth.config_get].
  destruct (h _ (HeldConfigGet "clientSecret") w1) as [v2 w2].
  fold (unconfigured v1 v2).
  destruct (unconfigured v1 v2) eqn:Hu.
  - rewrite run_bind.
    pose proof (setup_run w2) as Hs. cbv zeta in Hs.
    destruct (run h GitHubAuth.setupOAuthApp w2) as [[[configured | e] w3] ts].
    + cbn [events outcome fst snd] in Hs.
      destruct configured; cbn [negb].
      * pose proof (flow_run w3) as Hf. cbv zeta in Hf.
        destruct (run h (login_flow authorizeURL) w3) as [[out w4] tf].
        cbn [events outcome fst snd] in *.
        apply body_after_setup; assumption.
      * cbn [run events outcome fst snd]. rewrite app_nil_r.
        apply body_dismissed; assumption.
    + cbn [events outcome fst snd] in *. apply body_setup_failed; assumption.
  - cbn [run bind negb].
    pose proof (flow_run w2) as Hf. cbv zeta in Hf.
    destruct (run h (login_flow authorizeURL) w2) as [[out w4] tf].
    cbn [events outcome fst snd] in *.
    apply body_configured; assumption.
Qed.

(** Every run of [login] leaves one of these traces. *)
Lemma login_run (w : W) :
  let r := run h (GitHubAuth.login authorizeURL) w in
  login_trace authorizeURL (events r) (outcome r).
Proof.
  cbv zeta. rewrite login_unfold, run_try_catch.
  pose proof (body_run w) as Hb. cbv zeta in Hb.
  match type of Hb with
  | body_trace _ (events (run h ?body w)) _ =>
      destruct (run h body w) as [[[b | e] w1] t]
  end; cbn [events outcome fst snd] in Hb.
  - cbn [events outcome fst snd]. apply login_returned. exact Hb.
  - cbn [run bind perform].
    destruct (h _ (ShowErrorMessage _) w1) as [[] w2].
    cbn [run events outcome fst snd]. apply login_caught. exact Hb.
Qed.


(** X17.  [login] never fails, and it returns [true] exactly when it has
    shown the confirmation.  Otherwise it shows the failure message once,
    or nothing at all: nothing only when one of the two setup prompts was
    dismissed or left empty, in which case no page was opened, no token
    exchanged and nothing saved. *)
Theorem login_never_rejects (w : W) :
  let r := run h (GitHubAuth.login authorizeURL) w in
  (exists user, outcome r = Fulfilled true /\ notifications (events r) = [loggedIn user])
  \/ (exists e, outcome r = Fulfilled false /\ notifications (events r) = [loginFailed e])
  \/ (outcome r = Fulfilled false /\ notifications (events r) = []
      /\ (exists prompt x, last (answers (events r)) = Some (prompt, x)
                           /\ Js.falsy x = true
                           /\ (prompt = clientIdPrompt \/ prompt = clientSecretPrompt))
      /\ opened (events r) = [] /\ exchanges (events r) = []
      /\ secret_writes (events r) = [] /\ config_writes (events r) = []).
Proof.
  intros r. pose proof (login_run w) as Hl. cbv zeta in Hl. fold r in Hl.
  remember (events r) as t eqn:Et. remember (outcome r) as out eqn:Eo.
  clear Et Eo r. unravel.
  all: first [ left; eexists; split; reflexivity
             | right; left; eexists; split; reflexivity
             | right; right; split_and!; try reflexivity;
               eexists _, _; split_and!; [reflexivity | eassumption | auto] ].
Qed.

(** X18.  What a successful [login] has done: it opened one page, exchanged
    the code the user entered for a token, looked the user up with that
    token, stored the token under [github-token] and the JSON of the user
    under [github-user], in this order and both accepted, and confirmed with
    the login name. *)
Theorem login_success (w : W) :
  let r := run h (GitHubAuth.login authorizeURL) w in
  outcome r = Fulfilled true ->
  exists client code resp user uri,
    opened (events r) = [uri]
    /\ last (answers (events r)) = Some (codePrompt, Some code)
    /\ Js.is_empty code = false
    /\ exchanges (events r) = [(client, code, GitHubAuth.REDIRECT_URI, Fulfilled resp)]
    /\ identity_lookups (events r)
       = [("https://api.github.com/user",
           identityHeaders (GitHubTokenResponse.access_token resp), Fulfilled user)]
    /\ secret_writes (events r)
       = [("github-token", Some (GitHubTokenResponse.access_token resp), Fulfilled tt);
          ("github-user", Some (Json.stringify (GitHubAuth.user_json user)), Fulfilled tt)]
    /\ notifications (events r) = [loggedIn user].
Proof.
  intros r. pose proof (login_run w) as Hl. cbv zeta in Hl. fold r in Hl.
  remember (events r) as t eqn:Et. remember (outcome r) as out eqn:Eo.
  clear Et Eo r. intros ->. unravel.
  all: repeat match goal with
              | H : Js.falsy ?x = false |- _ =>
                  apply falsy_false in H as (? & -> & ?)
              end; areduce.
  all: eexists _, _, _, _, _; split_and!; try reflexivity; assumption.
Qed.

(** X19.  [login] stores nothing before the exchange and the lookup have
    succeeded, the token first, and it does not undo: when the store of the
    user record is rejected the token stays stored, although [login]
    reports the failure and returns [false]. *)
Theorem login_stores_after_validation (w : W) :
  let r := run h (GitHubAuth.login authorizeURL) w in
  secret_writes (events r) <> [] ->
  exists client code resp user,
    exchanges (events r) = [(client, code, GitHubAuth.REDIRECT_URI, Fulfilled resp)]
    /\ identity_lookups (events r)
       = [("https://api.github.com/user",
           identityHeaders (GitHubTokenResponse.access_token resp), Fulfilled user)]
    /\ let token := ("github-token", Some (GitHubTokenResponse.access_token resp)) in
       let record := ("github-user", Some (Json.stringify (GitHubAuth.user_json user))) in
       (exists e,
           secret_writes (events r) = [(token, Rejected e)]
           /\ outcome r = Fulfilled false
           /\ notifications (events r) = [loginFailed e])
       \/ (exists e,
              secret_writes (events r) = [(token, Fulfilled tt); (record, Rejected e)]
              /\ outcome r = Fulfilled false
              /\ notifications (events r) = [loginFailed e])
       \/ (secret_writes (events r) = [(token, Fulfilled tt); (record, Fulfilled tt)]
           /\ outcome r = Fulfilled true).
Proof.
  intros r. pose proof (login_run w) as Hl. cbv zeta in Hl. fold r in Hl.
  remember (events r) as t eqn:Et. remember (outcome r) as out eqn:Eo.
  clear Et Eo r. unravel.
  all: intros Hsome; try (exfalso; apply Hsome; reflexivity); clear Hsome.
  all: eexists _, _, _, _; split; [reflexivity|]; split; [reflexivity|]; cbv zeta.
  all: first [ left; eexists; split_and!; reflexivity
             | right; left; eexists; split_and!; reflexivity
             | right; right; split; reflexivity ].
Qed.

(** X20.  [login] reads the client id and secret from the configuration
    object [GitHubAuth] holds, before the setup and again after it.  When
    that object shows neither throughout the run, [login] cannot succeed:
    it opens no page and stores nothing, and when the setup has just saved
    both values it still fails with the message that they are not
    configured. *)
Theorem login_with_stale_configuration (w : W) :
  let r := run h (GitHubAuth.login authorizeURL) w in
  Forall (fun read => Js.falsy read.2 = true) (held_reads (events r)) ->
  outcome r = Fulfilled false
  /\ opened (events r) = [] /\ exchanges (events r) = []
  /\ secret_writes (events r) = []
  /\ (forall clientId clientSecret,
         config_writes (events r)
         = [("clientId", clientId, Fulfilled tt); ("clientSecret", clientSecret, Fulfilled tt)] ->
         notifications (events r) = [loginFailed notConfigured]).
Proof.
  intros r. pose proof (login_run w) as Hl. cbv zeta in Hl. fold r in Hl.
  remember (events r) as t eqn:Et. remember (outcome r) as out eqn:Eo.
  clear Et Eo r. unravel.
  all: intros Hstale; areduce.
  all: repeat match goal with
              | H : Forall _ (_ :: _) |- _ => inversion H; clear H; subst
              end; cbn [snd] in *.
  all: try (exfalso;
            match goal with
            | Hu : unconfigured ?a ?b = false, Ha : Js.falsy ?a = true |- _ =>
                unfold unconfigured in Hu; destruct a as [[|]|]; cbn in *; congruence
            end).
  all: split_and!; try reflexivity; intros; try discriminate; reflexivity.
Qed.

End LoginRuns.

Lemma login_success_witness :
  outcome (Session.login Session.smooth) = Fulfilled true
  /\ exists user, notifications (events (Session.login Session.smooth)) = [loggedIn user].
Proof.
  split; [vm_compute; reflexivity|].
  destruct (login_success Script.handle Login.authorizeURL Session.smooth)
    as (client & code & resp & user & uri & _ & _ & _ & _ & _ & _ & Hshown).
  - vm_compute. reflexivity.
  - exists user. exact Hshown.
Defined.

Lemma login_stores_after_validation_witness :
  secret_writes (events (Session.login Session.smooth)) <> []
  /\ exists client code resp,
       exchanges (events (Session.login Session.smooth))
       = [(client, code, GitHubAuth.REDIRECT_URI, Fulfilled resp)].
Proof.
  split; [vm_compute; discriminate|].
  destruct (login_stores_after_validation Script.handle Login.authorizeURL Session.smooth)
    as (client & code & resp & user & Hexchange & _).
  - vm_compute. discriminate.
  - exists client, code, resp. exact Hexchange.
Defined.

Lemma login_with_stale_configuration_witness :
  config_writes (events (Session.login Session.stale))
  = [("clientId", "Iv1.8a61f9b3a7aba766", Fulfilled tt); ("clientSecret", "5ecr3t", Fulfilled tt)]
  /\ outcome (Session.login Session.stale) = Fulfilled false
  /\ notifications (events (Session.login Session.stale)) = [loginFailed notConfigured].
Proof.
  split; [vm_compute; reflexivity|].
  destruct (login_with_stale_configuration Script.handle Login.authorizeURL Session.stale)
    as (Hout & _ & _ & _ & Hshown).
  - vm_compute. repeat constructor.
  - split; [exact Hout|].
    apply (Hshown "Iv1.8a61f9b3a7aba766" "5ecr3t"). vm_compute. reflexivity.
Defined.

(** ** The stores of the host *)

Section HostStores.

Context {E : Type} (outside : handler E).

(** On the host the secret storage and the settings change by the changes
    the run asked for, and by nothing else. *)
Lemma host_stores {A : Type} (p : prog A) (host : Host.t) (e : E) :
  let r := run (Host.handle outside) p (host, e) in
  Host.secrets (final r).1 = kept (Host.secrets host) (secret_writes (events r))
  /\ Host.settings (final r).1 = configured (Host.settings host) (config_writes (events r)).
Proof.
  revert host e. induction p as [a | err | X op k IH]; intros host e.
  - cbn. auto.
  - cbn. auto.
  - cbn [run].
    destruct (Host.handle outside X op (host, e)) as [x [host1 e1]] eqn:Hop.
    specialize (IH x host1 e1). cbv zeta in IH.
    destruct (run (Host.handle outside) (k x) (host1, e1)) as [[out w2] t2].
    cbn [final events fst snd] in *.
    destruct IH as (Hsecrets & Hsettings).
    rewrite Hsecrets, Hsettings. clear Hsecrets Hsettings.
    destruct op; cbn in Hop;
      try (destruct (outside _ _ e) as [y e'] eqn:Hout);
      simplify_eq; cbn; auto.
Qed.

End HostStores.

Section LoginOnHost.

Context {E : Type} (outside : handler E).
Context (authorizeURL : OAuth2Client.t -> string -> string -> string -> string).

Let H := Host.handle outside.

(** X21.  On the host a successful [login] leaves the token under
    [github-token] and the JSON of the user under [github-user], and the
    secret storage otherwise as it was; the local files are untouched.
    [getStoredToken] then returns that token, unless the token endpoint
    answered with an empty one: then the login has succeeded and nobody is
    logged in. *)
Theorem login_on_host (host : Host.t) (e : E) :
  let r := run H (GitHubAuth.login authorizeURL) (host, e) in
  outcome r = Fulfilled true ->
  exists token user,
    Host.secrets (final r).1
    = <["github-user" := Json.stringify (GitHubAuth.user_json user)]>
        (<["github-token" := token]> (Host.secrets host))
    /\ Host.disk (final r).1 = Host.disk host
    /\ forall e' : E,
         outcome (run H GitHubAuth.getStoredToken ((final r).1, e'))
         = Fulfilled (if Js.is_empty token then None else Some token).
Proof.
  intros r Htrue.
  pose proof (login_run H authorizeURL (host, e)) as Hl.
  pose proof (host_stores outside (GitHubAuth.login authorizeURL) host e) as [Hs _].
  pose proof (host_frame outside (GitHubAuth.login authorizeURL) host e) as (_ & _ & Hd).
  cbv zeta in Hl, Hs, Hd. fold H in Hs, Hd. fold r in Hl, Hs, Hd.
  rewrite Htrue in Hl.
  remember (events r) as t eqn:Et. remember (final r) as w' eqn:Ew.
  clear Et Ew Htrue r.
  assert (Hdone : exists resp user,
             secret_writes t
             = [("github-token", Some (GitHubTokenResponse.access_token resp), Fulfilled tt);
                ("github-user", Some (Json.stringify (GitHubAuth.user_json user)),
                 Fulfilled tt)]
             /\ disk_writes t = []).
  { unravel; eexists _, _; split; reflexivity. }
  destruct Hdone as (resp & user & Hw & Hnone).
  rewrite Hw in Hs. rewrite Hnone in Hd. cbn in Hs, Hd.
  exists (GitHubTokenResponse.access_token resp), user.
  split; [exact Hs|]. split; [exact Hd|].
  intros e'. unfold H. hreduce. rewrite Hs.
  rewrite lookup_insert_ne by discriminate. rewrite lookup_insert_eq.
  destruct (GitHubTokenResponse.access_token resp) as [| c s]; reflexivity.
Qed.

End LoginOnHost.

Lemma login_on_host_witness :
  let r := run (Host.handle Script.handle) (GitHubAuth.login Login.authorizeURL)
             (Login.host, Session.smooth) in
  outcome r = Fulfilled true
  /\ exists token user,
       Host.secrets (final r).1
       = <["github-user" := Json.stringify (GitHubAuth.user_json user)]>
           (<["github-token" := token]> (Host.secrets Login.host)).
Proof.
  cbv zeta. split; [vm_compute; reflexivity|].
  destruct (login_on_host Script.handle Login.authorizeURL Login.host Session.smooth)
    as (token & user & Hsecrets & _).
  - vm_compute. reflexivity.
  - exists token, user. exact Hsecrets.
Defined.

(** ** The commands and the tree of extension.ts *)

Lemma syncExtensions_silent : never notification_of ExtensionSync.syncExtensions.
Proof. quiet. Qed.

Lemma syncSettings_silent (path_join : list string -> string) :
  never notification_of (ExtensionSync.syncSettings path_join).
Proof. quiet. Qed.

Lemma importSettings_silent (path_join : list string -> string) :
  never notification_of (ExtensionSync.importSettings path_join).
Proof. quiet. Qed.

Section Commands.

Context {W : Type} (h : handler W).

(** A command of the form [try { await p; inform } catch { complain }]
    runs [p] and adds one message. *)
Lemma report_run (p : prog unit) (ok prefix : string) (w : W) :
  outcome (run h (reported p ok prefix) w) = Fulfilled tt
  /\ events (run h (reported p ok prefix) w)
     = (events (run h p w) ++ [report ok prefix (outcome (run h p w))])%list.
Proof.
  unfold reported. rewrite run_try_catch, run_bind.
  destruct (run h p w) as [[[[] | e] w1] t1]; cbn [run perform].
  - destruct (h _ (ShowInformationMessage ok) w1) as [[] w2]. cbn. auto.
  - destruct (h _ (ShowErrorMessage _) w1) as [[] w2]. cbn. auto.
Qed.

Lemma report_shown (t : trace) (ok prefix : string) (result : settled unit) :
  flat_map notification_of t = [] ->
  notifications (t ++ [report ok prefix result])%list
  = [match result with
     | Fulfilled _ => Information ok
     | Rejected e => Failure (prefix +:+ error_text e)
     end].
Proof.
  intros Hsilent. unfold notifications. rewrite flat_map_app, Hsilent.
  destruct result; reflexivity.
Qed.

(** X22.  The commands that sync the extensions, sync the settings and
    import the settings never fail.  Each runs its method and then shows
    exactly one message: the confirmation when the method succeeded, and
    otherwise the failure message of the command followed by the text of
    the error the method failed with.  Nothing else is added to what the
    method does. *)
Theorem commands_report_once (w : W) (path_join : list string -> string) :
  let said ok prefix (result : settled unit) :=
    match result with
    | Fulfilled _ => Information ok
    | Rejected e => Failure (prefix +:+ error_text e)
    end in
  (let inner := run h ExtensionSync.syncExtensions w in
   let r := run h Activate.syncCommand w in
   outcome r = Fulfilled tt
   /\ (exists shown, events r = (events inner ++ [shown])%list)
   /\ notifications (events r)
      = [said "拡張機能一覧をGitHubに同期しました！" "同期に失敗しました: " (outcome inner)])
  /\ (let inner := run h (ExtensionSync.syncSettings path_join) w in
      let r := run h (Activate.syncSettingsCommand path_join) w in
      outcome r = Fulfilled tt
      /\ (exists shown, events r = (events inner ++ [shown])%list)
      /\ notifications (events r)
         = [said "ユーザー設定をGitHubに同期しました！" "設定同期に失敗しました: "
              (outcome inner)])
  /\ (let inner := run h (ExtensionSync.importSettings path_join) w in
      let r := run h (Activate.importSettingsCommand path_join) w in
      outcome r = Fulfilled tt
      /\ (exists shown, events r = (events inner ++ [shown])%list)
      /\ notifications (events r)
         = [said "ユーザー設定をインポートしました！" "設定インポートに失敗しました: "
              (outcome inner)]).
Proof.
  cbv zeta.
  change Activate.syncCommand
    with (reported ExtensionSync.syncExtensions
            "拡張機能一覧をGitHubに同期しました！" "同期に失敗しました: ").
  change (Activate.syncSettingsCommand path_join)
    with (reported (ExtensionSync.syncSettings path_join)
            "ユーザー設定をGitHubに同期しました！" "設定同期に失敗しました: ").
  change (Activate.importSettingsCommand path_join)
    with (reported (ExtensionSync.importSettings path_join)
            "ユーザー設定をインポートしました！" "設定インポートに失敗しました: ").
  split_and!.
  all: try (apply report_run).
  all: try (eexists; apply report_run).
  all: rewrite (proj2 (report_run _ _ _ _));
    apply report_shown, never_run;
    auto using syncExtensions_silent, syncSettings_silent, importSettings_silent.
Qed.

(** [isLoggedIn] always answers. *)
Lemma isLoggedIn_total (w : W) :
  exists b, outcome (run h GitHubAuth.isLoggedIn w) = Fulfilled b.
Proof. execute h; eauto. Qed.

(** X23.  [getChildren] of the root runs [isLoggedIn] and nothing else, and
    never fails: when nobody is logged in the tree has the login entry and
    no other, and when somebody is it has the six entries for syncing,
    importing, logging out and changing the repository, and not the login
    entry.  Every entry carries a command and an icon.  [getChildren] of an
    entry is empty and does nothing. *)
Theorem getChildren_entries (w : W) (element : SyncTreeItem.t) :
  let root := run h (SyncTreeDataProvider.getChildren None) w in
  let leaf := run h (SyncTreeDataProvider.getChildren (Some element)) w in
  let check := run h GitHubAuth.isLoggedIn w in
  leaf = (Fulfilled [], w, [])
  /\ events root = events check /\ final root = final check
  /\ exists items,
       outcome root = Fulfilled items
       /\ Forall (fun item => is_Some (SyncTreeItem.command item)
                              /\ is_Some (SyncTreeItem.iconPath item)) items
       /\ (outcome check = Fulfilled false ->
           commandsOf items = ["sync-my-exts.loginToGitHub"])
       /\ (outcome check = Fulfilled true ->
           commandsOf items
           = ["sync-my-exts.syncExtensions"; "sync-my-exts.importExtensions";
              "sync-my-exts.syncSettings"; "sync-my-exts.importSettings";
              "sync-my-exts.logoutFromGitHub"; "sync-my-exts.changeRepository"]).
Proof.
  cbv zeta. split; [reflexivity|].
  unfold SyncTreeDataProvider.getChildren. rewrite run_bind.
  destruct (isLoggedIn_total w) as [b Hb].
  destruct (run h GitHubAuth.isLoggedIn w) as [[out w1] t1].
  cbn [outcome fst] in Hb. subst out.
  destruct b; cbn [negb run events final outcome fst snd]; rewrite app_nil_r.
  all: split; [reflexivity|]; split; [reflexivity|].
  all: eexists; split; [reflexivity|].
  all: split; [repeat constructor; eexists; reflexivity|].
  all: split; intros; try discriminate; reflexivity.
Qed.

End Commands.

Section ChangeRepository.

Context {E : Type} (outside : handler E).

Let H := Host.handle outside.

(** X24.  The command that changes the repository asks once.  A dismissed
    or empty answer changes nothing and shows nothing.  Any other answer is
    saved as the repository as it is, without a look at its form, and
    confirmed; from then on [getRepository] returns it without asking. *)
Theorem changeRepository_on_host (host : Host.t) (e : E) :
  let r := run H Activate.changeRepositoryCommand (host, e) in
  exists answer,
    answers (events r) = [(changePrompt, answer)]
    /\ outcome r = Fulfilled tt
    /\ (Js.falsy answer = true ->
        (final r).1 = host /\ notifications (events r) = [])
    /\ (forall name,
           answer = Some name ->
           Js.is_empty name = false ->
           (final r).1 = Host.set_settings (insert "repository" name) host
           /\ notifications (events r)
              = [Information ("リポジトリ名を変更しました: " +:+ name)]
           /\ forall e' : E,
                let r1 := run H ExtensionSync.getRepository ((final r).1, e') in
                outcome r1 = Fulfilled name /\ answers (events r1) = []).
Proof.
  cbv zeta. unfold Activate.changeRepositoryCommand, H. areduce.
  destruct (outside _ (ShowInputBox _ _ _) e) as [answer e1]. areduce.
  exists answer. unfold changePrompt.
  destruct answer as [[| c name] |]; cbn [Js.falsy Js.is_empty]; areduce.
  2: destruct (outside _ (ShowInformationMessage _) e1) as [[] e2]; areduce.
  all: split; [reflexivity|].
  all: split; [reflexivity|].
  all: split; [intros; try discriminate; auto|].
  all: intros name' Hname Hne; simplify_eq; try discriminate.
  split; [reflexivity|]. split; [reflexivity|].
  intros e'. rewrite lookup_insert_eq. areduce. auto.
Qed.

End ChangeRepository.

Lemma changeRepository_on_host_witness :
  let r := run (Host.handle Script.handle) Activate.changeRepositoryCommand
             (RoundTrip.host, Login.user [] [Some "bob/dotfiles"] [] []) in
  exists answer,
    answers (events r) = [(changePrompt, answer)]
    /\ outcome r = Fulfilled tt
    /\ (Js.falsy answer = true ->
        (final r).1 = RoundTrip.host /\ notifications (events r) = [])
    /\ (forall name,
           answer = Some name ->
           Js.is_empty name = false ->
           (final r).1 = Host.set_settings (insert "repository" name) RoundTrip.host
           /\ notifications (events r)
              = [Information ("リポジトリ名を変更しました: " +:+ name)]
           /\ forall e' : Script.t,
                let r1 := run (Host.handle Script.handle) ExtensionSync.getRepository
                            ((final r).1, e') in
                outcome r1 = Fulfilled name /\ answers (events r1) = []).
Proof.
  exact (changeRepository_on_host Script.handle RoundTrip.host
           (Login.user [] [Some "bob/dotfiles"] [] [])).
Defined.

(** ** More on what is asked, and what is left alone *)

(** X25.  [getRepository] reads the configuration once.  A configured
    repository is returned without a prompt.  Without one the user is asked
    once: a dismissed or empty answer fails the call with its own message
    and saves nothing; any other answer is sent to the settings, and the call
    returns it only when the settings accepted it, and fails with the error
    of the settings otherwise. *)
Theorem getRepository_prompt {W : Type} (h : handler W) (w : W) :
  let r := run h ExtensionSync.getRepository w in
  exists configured,
    config_reads "repository" (events r) = [configured]
    /\ (Js.falsy configured = false ->
        outcome r = Fulfilled (default "" configured)
        /\ answers (events r) = [] /\ config_writes (events r) = [])
    /\ (Js.falsy configured = true ->
        exists answer,
          answers (events r) = [(repositoryPrompt, answer)]
          /\ (Js.falsy answer = true ->
              outcome r = Rejected repositoryMissing /\ config_writes (events r) = [])
          /\ (forall name,
                 answer = Some name ->
                 Js.is_empty name = false ->
                 exists reply,
                   config_writes (events r) = [("repository", name, reply)]
                   /\ outcome r = match reply with
                                  | Fulfilled _ => Fulfilled name
                                  | Rejected e => Rejected e
                                  end)).
Proof.
  cbv zeta. execute2 h.
  all: eexists; split; [reflexivity|].
  all: repeat match goal with
              | H : Js.is_empty (default "" ?x) = _ |- _ =>
                  destruct x as [[|]|]; cbn in H; try discriminate H; clear H
              end.
  all: split; [intros; try discriminate; auto|].
  all: intros; try discriminate.
  all: eexists; split; [reflexivity|].
  all: split; [intros; try congruence; auto|].
  all: intros name -> Hname; try (cbn in *; congruence).
  all: eexists; split; reflexivity.
Qed.

Lemma getStoredToken_local :
  never request_of GitHubAuth.getStoredToken
  /\ never answer_of GitHubAuth.getStoredToken
  /\ never secret_write_of GitHubAuth.getStoredToken
  /\ never config_write_of GitHubAuth.getStoredToken
  /\ never disk_write_of GitHubAuth.getStoredToken
  /\ never notification_of GitHubAuth.getStoredToken.
Proof. split_and!; quiet. Qed.

(** X26.  The session methods stay away from the repository and from the
    local files: [login], [logout], [isLoggedIn] and [getChildren] send no
    request to the contents endpoint and write no local file.  [isLoggedIn]
    and [getChildren] moreover ask nothing, show nothing and change neither
    the secret storage nor the settings: they only look. *)
Theorem session_methods_stay_local {W : Type} (h : handler W) (w : W)
    (authorizeURL : OAuth2Client.t -> string -> string -> string -> string)
    (element : option SyncTreeItem.t) :
  let touched {A : Type} (r : settled A * W * trace) :=
    (http (events r), disk_writes (events r)) in
  let changed {A : Type} (r : settled A * W * trace) :=
    (answers (events r), notifications (events r),
     secret_writes (events r), config_writes (events r)) in
  touched (run h (GitHubAuth.login authorizeURL) w) = ([], [])
  /\ touched (run h GitHubAuth.logout w) = ([], [])
  /\ touched (run h GitHubAuth.isLoggedIn w) = ([], [])
  /\ touched (run h (SyncTreeDataProvider.getChildren element) w) = ([], [])
  /\ changed (run h GitHubAuth.isLoggedIn w) = ([], [], [], [])
  /\ changed (run h (SyncTreeDataProvider.getChildren element) w) = ([], [], [], []).
Proof.
  cbv zeta.
  unfold http, disk_writes, answers, notifications, secret_writes, config_writes.
  split_and!; repeat f_equal; apply never_run.
  all: try (destruct element; quiet).
  all: quiet.
Qed.

Lemma substring_length (n m : nat) (s : string) :
  (String.length (String.substring n m s) <= m)%nat.
Proof.
  revert n m. induction s as [| c s IH]; intros [| n] [| m]; cbn; try lia.
  - specialize (IH 0%nat m). lia.
  - apply (IH n 0%nat).
  - apply (IH n (S m)).
Qed.

Lemma append_length (a b : string) :
  String.length (a +:+ b) = (String.length a + String.length b)%nat.
Proof.
  induction a as [| c a IH]; [reflexivity|].
  rewrite append_cons. cbn [String.length]. rewrite IH. reflexivity.
Qed.

(** X27.  [generateState] draws twice and nothing else, and the state it
    returns is the concatenation of what follows the first two characters of
    each draw, up to thirteen characters of each: at most twenty-six
    characters, and exactly the two draws without their leading [0.] when
    each has at most thirteen digits. *)
Theorem generateState_draws {W : Type} (h : handler W) (w : W) :
  let r := run h GitHubAuth.generateState w in
  exists a b state,
    events r = [Event MathRandom36 a; Event MathRandom36 b]
    /\ outcome r = Fulfilled state
    /\ state = String.substring 2 13 a +:+ String.substring 2 13 b
    /\ (String.length state <= 26)%nat.
Proof.
  cbv zeta. unfold GitHubAuth.generateState. cbn [run bind perform].
  destruct (h _ MathRandom36 w) as [a w1]. cbn [run bind perform].
  destruct (h _ MathRandom36 w1) as [b w2]. cbn [run events outcome fst snd].
  exists a, b, (String.substring 2 13 a +:+ String.substring 2 13 b).
  split; [reflexivity|]. split; [reflexivity|]. split; [reflexivity|].
  rewrite append_length.
  pose proof (substring_length 2 13 a). pose proof (substring_length 2 13 b). lia.
Qed.

(** ** Repository coordinates, in general *)

Lemma cut_append (sep : ascii) (before after : string) :
  occurrences sep before = 0%nat ->
  cutAtFirst sep (before +:+ String sep after) = Some (before, after).
Proof.
  induction before as [| c before IH];
    rewrite ?append_nil, ?append_cons; cbn -[Ascii.eqb].
  - rewrite Ascii.eqb_refl. reflexivity.
  - destruct (Ascii.eqb c sep); [discriminate|]. intros Hnone.
    rewrite (IH Hnone). reflexivity.
Qed.

Lemma cut_none (sep : ascii) (s : string) :
  occurrences sep s = 0%nat -> cutAtFirst sep s = None.
Proof.
  pose proof (cut_occurrences sep s) as Hs.
  destruct (cutAtFirst sep s) as [[before after]|]; [|reflexivity].
  intros Hnone. rewrite Hnone in Hs. discriminate Hs.
Qed.

Lemma cut_inv (sep : ascii) (s before after : string) :
  cutAtFirst sep s = Some (before, after) ->
  s = before +:+ String sep after /\ occurrences sep before = 0%nat.
Proof.
  revert before. induction s as [| c s IH]; cbn -[Ascii.eqb]; intros before;
    [discriminate|].
  destruct (Ascii.eqb c sep) eqn:Hc.
  - intros [= <- <-]. apply Ascii.eqb_eq in Hc as ->. auto.
  - destruct (cutAtFirst sep s) as [[b a]|]; [|discriminate].
    intros [= <- <-]. destruct (IH b eq_refl) as [-> Hb].
    rewrite append_cons. cbn -[Ascii.eqb]. rewrite Hc. auto.
Qed.

(** X28.  [ownerAndRepo] succeeds with an owner and a name exactly when
    both are non-empty and free of ["/"] and the string is the owner, a
    ["/"], the name, and then either nothing or a ["/"] followed by
    anything: what follows the second ["/"] is dropped without complaint. *)
Theorem ownerAndRepo_success (s owner repo : string) :
  ExtensionSync.ownerAndRepo s = Fulfilled (owner, repo)
  <-> (Js.is_empty owner = false /\ Js.is_empty repo = false
       /\ occurrences "/" owner = 0%nat /\ occurrences "/" repo = 0%nat
       /\ (s = owner +:+ "/" +:+ repo
           \/ exists rest, s = owner +:+ "/" +:+ repo +:+ "/" +:+ rest)).
Proof.
  rewrite ownerAndRepo_segments. unfold upToSlash. split.
  - destruct (cutAtFirst "/" s) as [[o rest]|] eqn:Hs; [|discriminate].
    apply cut_inv in Hs as [-> Ho].
    destruct (Js.is_empty o) eqn:Heo; [discriminate|].
    pose proof (cut_occurrences "/" rest) as Hocc.
    destruct (cutAtFirst "/" rest) as [[r more]|] eqn:Hrest.
    + apply cut_inv in Hrest as [-> Hr].
      destruct (Js.is_empty r) eqn:Her; [discriminate|].
      cbn. intros [= <- <-]. split_and!; auto. right. exists more. reflexivity.
    + destruct (Js.is_empty rest) eqn:Her; [discriminate|].
      cbn. intros [= <- <-]. split_and!; auto.
  - intros (Heo & Her & Ho & Hr & [-> | [rest ->]]).
    + change (owner +:+ "/" +:+ repo) with (owner +:+ String "/" repo).
      rewrite (cut_append _ _ _ Ho), (cut_none _ _ Hr), Heo, Her. reflexivity.
    + change (owner +:+ "/" +:+ repo +:+ "/" +:+ rest)
        with (owner +:+ String "/" (repo +:+ String "/" rest)).
      rewrite (cut_append _ _ _ Ho), (cut_append _ _ _ Hr), Heo, Her. reflexivity.
Qed.
